(* ===== verification/_CoqProject ===== *)
-Q . S2P
Prelude.v
Attributes.v
Spans.v
Pipeline.v
TraceApi.v
Provider.v
Scenarios.v
Sessions.v
Contract.v
Faults.v
