(* ===== verification/Prelude.v ===== *)
(** * Verification of the GitLens OpenTelemetry adapter

    The program is one TypeScript class, [OpenTelemetryProvider] in
    [src/src/telemetry/openTelemetryProvider.ts].  It configures the
    OpenTelemetry tracing SDK (a resource descriptor, one or two span
    processors, one network exporter), registers the provider process-wide,
    and offers four methods to the rest of the extension: [sendEvent],
    [startEvent], [setGlobalAttributes] and [dispose].

    ** Parts of the program and the files that model them

    - [Prelude] (this file): the state monad [Eff W A := W -> A * W] in which
      every stateful call of the program is written, with stdpp's
      [x ← c; k] notation; JavaScript's [??] on an effectful default
      ([nullish_or], line 61), truthiness of an optional boolean ([truthy],
      line 37) and a conditional statement ([when]); the rewrite database
      [eff] and the tactics [eff_simpl], [eff_run], [elem_absurd]; list
      lemmas for objects allocated at the end of a heap.
    - [Attributes]: attribute values (string, number, boolean) and attribute
      records as [gmap string AttributeValue]; [fromEntries] is
      [Object.fromEntries] (line 91), [setAttributes_record] is the per-key
      assignment that [span.setAttributes] performs (lines 62-64), [Map_set]
      is [Map.prototype.set] on the entries of the map a caller passes to
      [setGlobalAttributes].
    - [Spans]: the SDK's span object and its life cycle
      open -> (attributes set any number of times) -> closed, as total
      functions ([Span_setAttributes], [Span_end]) and as a step relation
      ([span_step]).
    - [Pipeline]: the exporters ([ConsoleSpanExporter], [OTLPTraceExporter])
      and the span processors ([SimpleSpanProcessor], [BatchSpanProcessor])
      the constructor instantiates (lines 39-49), with [export], [onEnd] and
      [onTimer], which takes the batch size; [Output] is what the process
      has written to the console and what it has sent to which endpoint;
      [accounted], [accounts], [in_order], [emitted_by] and [waiting]
      relate the output and the queues to the finished spans, up to their
      order or in order; [batches] is
      the reference for what a queue leaves as: consecutive runs of the
      batch size, defined with Equations by recursion on the length of the
      queue.
    - [TraceApi]: the process-wide state [World] (clock, span heap, provider
      objects, the registered provider, the diagnostic logger, console and
      network output) and the API calls the adapter makes: [Date_now],
      [new_BasicTracerProvider], [addSpanProcessor], [diag_setLogger],
      [register], [getTracer], [startSpan], [span_setAttributes],
      [span_end], [trace_disable], and the environment's [batch_timer].
    - [Provider]: the adapter itself, method by method, from the source:
      [constructor] (lines 20-54, with [resource_attributes],
      [enable_debugging], [new_exporter], [exporter_url] and
      [exporter_processor] for its parts), [dispose] (56-58), [sendEvent]
      (60-67), [startEvent] (69-76), [setGlobalAttributes] (90-92), with the
      record [OpenTelemetryProvider] for the two private fields
      (lines 17-18) and [TelemetryContext] for the constructor's argument.
      Lines 61 and 70 are the same expression and are written once, as
      [start_span]; so are lines 62-65 and 71-74, as [set_event_attributes].
    - [Scenarios]: no part of the program of its own: the consequences of
      the equations of [Provider] for the situations the specification
      singles out (the two pipelines, replacing the global attributes,
      [dispose] and what follows it, the first events of a new adapter),
      and [two_adapters], the process that constructs a second adapter
      without disposing of the first.
    - [Sessions]: what a process does with the adapter it has constructed:
      [Call] is a call of one of the four methods, a call of
      [setAttributes] or [end] on a span that [startEvent] handed out, or
      the batching timer with the size of its batch; [step] runs one call,
      [run] a sequence, [timers] the timer that fires until nothing waits,
      and [reachable] is the set of sessions of a process that constructs
      one adapter and then uses it.
    - [Contract]: the interface the class implements (line 16) as the class
      [TelemetryProvider], an event log [Log] with the operations [a_step]
      as its specification, the abstraction [abs] from sessions to logs,
      and the class [Refines] of abstractions with which every method
      commutes.
    - [Faults]: the class read with exceptions.  It has no [try] and no
      [catch], so a call on the SDK that throws ends the method.  [Site]
      names the statements that call the SDK, [Try] is the monad of
      computations that return or throw, [sdk_call] a call that throws when
      the parameter [throws] says so, and [try_constructor], [try_dispose],
      [try_sendEvent], [try_startEvent] are lines 20-54, 56-58, 60-67 and
      69-76 once more, statement by statement.  [constructor_reached] and
      [event_reached] are the worlds in which each statement is reached;
      [try_step] and [try_reachable] are the sessions of a process that
      goes on after a call has thrown.

    ** How state and operations correspond to the code

    A JavaScript object that is mutated after it is created is a cell of a
    heap in [World]: a span handle is an index into [w_spans], a provider an
    index into [w_providers].  A method of the class is a function that takes
    [this] (the record [OpenTelemetryProvider]) and returns an [Eff World]
    computation; [setGlobalAttributes], which only assigns a field of [this],
    returns the new record.  Optional parameters are [option]s;
    [startTime ?? Date.now()] reads the clock only when [startTime] is
    absent, and [if (data != null)] is a match on the option.

    The clock is a number of milliseconds together with an oracle [w_ticks]:
    each read returns the current value and then advances it by the next
    tick (0 when the oracle is empty), so that two reads in one method need
    not agree, and the order of the reads matters.

    The SDK is not part of the repository.  Its model follows the
    specification's description of it; where the specification is silent on
    what a tracer handle does after [trace.disable()], the binding policy is
    a parameter of the world ([TracerBinding]: the handle is bound to the
    provider registered when it was made, or looks the registered provider
    up at each call) and the theorems hold for both policies or say which
    one they need.  In the same way the size of a batch is a parameter of
    each timer step, and which call throws in which world is the parameter
    [throws] of [Faults].

    ** What the theorems show

    - [Attributes]: [fromEntries] keeps the last binding of each key
      ([fromEntries_lookup_last]), has exactly the keys of the entries, agrees
      with [list_to_map] on the entries of a JavaScript [Map] and commutes
      with [Map_set]; [setAttributes_record] is the left-biased union, so
      what is applied second wins.
    - [Spans]: a span that is closed or records nothing is frozen; the
      functions and the step relation agree.
    - [Pipeline]: a simple processor exports each finished span at once and
      alone; a batching processor exports nothing until its timer fires and
      then exports the spans that have waited longest, in order and as many
      as the batch size allows; between a processor and its exporter no
      finished span is lost, duplicated or overtaken ([mapM_accounted], for
      both readings); a timer never lengthens a queue
      and shortens one that is not empty; the batches of a queue put
      together are the queue
      ([concat_batches]), each holds between one span and the batch size
      ([batches_lengths]), and their number is the length of the queue
      divided by the batch size, rounded up ([length_batches]).
    - [Provider]: the complete behaviour of each method as an equation on
      worlds: [constructor_spec], [startEvent_spec], [sendEvent_spec] and
      [set_event_attributes_spec] cover every branch (data present or
      absent, explicit or default times, debugging on or off, provider
      present or not); which attribute wins on an event, that the other
      spans are untouched, and which times the span carries.
    - [Scenarios]: from the equations of [Provider], what
      [setGlobalAttributes] replaces and drops, what each mode exports and
      when ([debug_session], [production_session],
      [production_batch_order], for every batch size), that [dispose] does
      not flush, and what [sendEvent] does after [dispose] under each
      binding policy.  For two adapters in one process: the second
      registration wins and both providers stay; the first adapter's
      events stay with its provider when handles are bound at creation
      ([first_adapter_bound]) and are recorded for the second adapter's
      provider, under its resource and through its pipeline, when they are
      looked up at each call ([second_adapter_takes_events]); [dispose] on
      one adapter unregisters the provider of the other
      ([dispose_silences_second]).
    - [Sessions]: the invariant [session_inv] of every reachable session,
      proved call by call ([step_inv]) and by induction on [reachable].
      From it: each processor accounts for exactly the finished spans of
      the heap ([reachable_conservation]); nothing but finished spans is
      ever emitted ([reachable_exports_closed]); in debugging mode console
      and development endpoint have received all of them, in the same
      order, and the network holds one single-span request to the
      development endpoint per span on the console
      ([debug_requests_mirror_console]); in production mode nothing is
      printed, every request goes to the production endpoint
      ([production_requests_endpoint]), the finished spans are sent or
      queued, and all are sent once the timer has fired often enough
      ([production_timer_delivers]); the requests of that
      timer are the queue cut into [batches], in order, and it fires
      exactly once per batch ([production_timer_batches], from
      [timers_batches] and [timers_batches_None]).  Next to the invariant,
      [ordered l] says that the processors account for the spans [l] in
      that order; every call extends [l] at its end ([step_ordered],
      [run_ordered]), which gives [production_fifo]: what was sent or
      waited stays in front, in its order.  Independently of
      reachability: the timer stops ([timers_terminate]) and a finished
      span is never modified ([run_closed_span_frozen]).
    - [Contract]: every call on a session is the same call on its log
      ([step_refines], [run_refines]); the lemma [calls_refine] is proved
      once for every instance of [Refines], of which the adapter is one
      ([adapter_refines]).  The log keeps the name, the attributes and the
      times of each event; it does not keep the scope, the provider or the
      output, so the refinement says nothing of them.
    - [Faults]: each method is the method of [Provider] up to the first
      statement whose call throws ([try_constructor_run],
      [try_sendEvent_run], [try_startEvent_run], [try_dispose_run], all
      instances of [outcome_of]).  From these: that the constructor and
      [sendEvent] return exactly when no statement throws and otherwise
      throw at the first statement that does, and what they then leave
      behind ([try_constructor_spec], [try_sendEvent_spec]); that the
      invariant of sessions, and with it conservation, holds whichever
      calls throw ([try_reachable_conservation]).  Two lemmas check the
      transcription itself: without exceptions the sessions are those of
      [Sessions] ([try_reachable_reachable], [reachable_try_reachable]).
    - The lemmas ending in [_witness] instantiate the theorems that have
      hypotheses on the concrete process [demo_process] and on the concrete
      sessions [demo_session], [demo_debug_session], [demo_sent],
      [demo_waiting] and [demo_failing].

    ** Bounds, fuel and what is not modelled

    The methods need no fuel: each is straight-line code over finite maps
    and lists.  The one loop is the environment's: [timers] fires the
    batching timer while spans wait, with fuel for the number of firings.
    Each firing with a positive batch size takes at least one span from a
    queue that is not empty, so fuel equal to the number of waiting spans
    is enough ([timers_run]); with batch size 0 no fuel is
    ([timers_size_0]).  For a pipeline of one batching processor the fuel
    needed is exactly the number of batches ([timers_batches],
    [timers_batches_None]).  [batches] itself is total: Equations checks
    that [drop] shortens the queue; its unfolding lemma, and so the lemmas
    proved with [funelim], rest on functional extensionality, the one
    axiom of the development.  Numbers are integers ([Z]); times are
    numbers of milliseconds (the other forms of the SDK's [TimeInput],
    [Date] objects and high-resolution pairs, are not modelled);
    JavaScript's doubles, array attribute values, and the SDK's limits on
    attribute count and length are not modelled.

    Three assumptions come from outside the sources and are built into
    the model rather than proved of the code.  The clock never goes back:
    its ticks are natural numbers, although the wall clock that
    [Date.now()] reads can be set back; the duration of an event with
    default times is not negative for that reason alone.  The fields of
    [TelemetryContext] are strings: the interface is declared in
    ./telemetry, which is not among the sources, and the class only reads
    the fields (lines 24-33 and 53).  A [Map] given to
    [setGlobalAttributes] is the list of its entries, which may repeat a
    key although a [Map] cannot; the theorems hold for every such list.
    [Object.fromEntries], [??] and [Date.now()] are the language's:
    [fromEntries], [nullish_or] and [Date_now] model the built-in at the
    line that calls it.  The batch size is a parameter of each timer
    step, since the constructor passes no options and the SDK's defaults
    are not in the sources; an export triggered by the size of the queue is
    a timer step.  Inside the SDK, export failure and retry and the bound
    on the queue, beyond which spans are dropped, are not modelled.  A call
    that throws is taken to have done nothing; exceptions of the calls a
    caller makes on a span it holds are not modelled.  The wire format,
    gzip compression and the proxy agent are configuration values that the
    model carries and does not interpret.  The [TelemetryProvider]
    interface is declared outside the sources: its methods are taken from
    the class that implements it.  The sessions and their invariants hold
    one adapter: the output records the configuration of the exporter that
    sent a request, not the processor, so two adapters with the same
    configuration could not be told apart in it.  Two adapters are treated
    in [Scenarios] up to the first call after the second construction.
    The commented-out methods of lines 78-88 have no code.  Nothing else
    of the class is left to model: the lines of the source that no
    definition covers are the imports, blank lines, closing braces and
    those comments. *)

From stdpp Require Import base option list.

(** * The state monad of the model *)

Definition Eff (W A : Type) : Type := W → A * W.

#[export] Instance Eff_ret {W} : MRet (Eff W) := λ A a w, (a, w).
#[export] Instance Eff_bind {W} : MBind (Eff W) :=
  λ A B f m w, let r := m w in f r.1 r.2.

Definition eval {W A} (c : Eff W A) (w : W) : A := (c w).1.
Definition exec {W A} (c : Eff W A) (w : W) : W := (c w).2.

Definition gets {W A} (f : W → A) : Eff W A := λ w, (f w, w).
Definition modify {W} (f : W → W) : Eff W unit := λ w, (tt, f w).

(** [when b c] is [if (b) { c }]. *)
Definition when {W} (b : bool) (c : Eff W unit) : Eff W unit :=
  if b then c else mret tt.

(** [nullish_or o d] is [o ?? d]: the default is evaluated, with its effects,
    only when [o] is absent. *)
Definition nullish_or {W A} (o : option A) (d : Eff W A) : Eff W A :=
  match o with
  | Some a => mret a
  | None => d
  end.

(** [truthy b] is the test [if (b)] on an optional boolean parameter:
    [undefined] is falsy. *)
Definition truthy (b : option bool) : bool := default false b.

(** * Rewriting computations *)

Section eff_lemmas.
Context {W : Type}.
Implicit Types w : W.

Lemma eval_ret {A} (a : A) w : eval (mret a : Eff W A) w = a.
Proof. reflexivity. Qed.

Lemma exec_ret {A} (a : A) w : exec (mret a : Eff W A) w = w.
Proof. reflexivity. Qed.

Lemma eval_bind {A B} (c : Eff W A) (k : A → Eff W B) w :
  eval (c ≫= k) w = eval (k (eval c w)) (exec c w).
Proof. reflexivity. Qed.

Lemma exec_bind {A B} (c : Eff W A) (k : A → Eff W B) w :
  exec (c ≫= k) w = exec (k (eval c w)) (exec c w).
Proof. reflexivity. Qed.

Lemma eval_gets {A} (f : W → A) w : eval (gets f) w = f w.
Proof. reflexivity. Qed.

Lemma exec_gets {A} (f : W → A) w : exec (gets f) w = w.
Proof. reflexivity. Qed.

Lemma exec_modify (f : W → W) w : exec (modify f) w = f w.
Proof. reflexivity. Qed.

Lemma exec_when_true (c : Eff W unit) w : exec (when true c) w = exec c w.
Proof. reflexivity. Qed.

Lemma exec_when_false (c : Eff W unit) w : exec (when false c) w = w.
Proof. reflexivity. Qed.

Lemma exec_nullish_Some {A} (a : A) (d : Eff W A) w :
  exec (nullish_or (Some a) d) w = w.
Proof. reflexivity. Qed.

Lemma eval_nullish_Some {A} (a : A) (d : Eff W A) w :
  eval (nullish_or (Some a) d) w = a.
Proof. reflexivity. Qed.

Lemma exec_nullish_None {A} (d : Eff W A) w :
  exec (nullish_or None d) w = exec d w.
Proof. reflexivity. Qed.

Lemma eval_nullish_None {A} (d : Eff W A) w :
  eval (nullish_or None d) w = eval d w.
Proof. reflexivity. Qed.

(** A computation is determined by its value and its final state. *)
Lemma eff_run_eq {A} (c : Eff W A) w : c w = (eval c w, exec c w).
Proof. unfold eval, exec. by destruct (c w). Qed.
End eff_lemmas.

(** A computation run over a list, element by element. *)
Section mapM_eff.
Context {W A B : Type} (f : A → Eff W B).

Lemma eval_mapM_cons x l w :
  eval (mapM f (x :: l)) w = eval (f x) w :: eval (mapM f l) (exec (f x) w).
Proof. reflexivity. Qed.

Lemma exec_mapM_cons x l w :
  exec (mapM f (x :: l)) w = exec (mapM f l) (exec (f x) w).
Proof. reflexivity. Qed.
End mapM_eff.

Create Rewrite HintDb eff.

(** The lemmas that a step keeps the invariant of the sessions. *)
Create HintDb session.

#[export] Hint Rewrite @eval_ret @exec_ret @eval_bind @exec_bind @eval_gets
  @exec_gets @exec_modify @exec_when_true @exec_when_false
  @exec_nullish_Some @eval_nullish_Some @exec_nullish_None
  @eval_nullish_None : eff.

(** [eff_simpl] pushes [eval] and [exec] through the monad's combinators. *)
Ltac eff_simpl := autorewrite with eff; simpl.

(** [eff_run] closes a goal about a computation on closed inputs. *)
Ltac eff_run := vm_compute; first [reflexivity | repeat split; reflexivity].

(** [elem_absurd] closes a goal [x ∈ l → _] where [x] is not among the
    elements of the closed list [l]. *)
Ltac elem_absurd :=
  let H := fresh in intros H; by apply (bool_decide_pack _) in H.

(** * Lists as heaps: objects are allocated at the end *)

Section heap_lemmas.
Context {A : Type}.
Implicit Types (l : list A) (x : A) (i : nat).

Lemma lookup_alloc l x : (l ++ [x]) !! length l = Some x.
Proof. rewrite lookup_app_r by lia. by rewrite Nat.sub_diag. Qed.

Lemma lookup_alloc_old l x i : i < length l → (l ++ [x]) !! i = l !! i.
Proof. intros. by rewrite lookup_app_l. Qed.

Lemma lookup_alloc_Some l x i y :
  l !! i = Some y → (l ++ [x]) !! i = Some y.
Proof.
  intros Hi. rewrite lookup_alloc_old; [done|]. by eapply lookup_lt_Some.
Qed.

Lemma alter_alloc_new (f : A → A) l x :
  alter f (length l) (l ++ [x]) = l ++ [f x].
Proof. induction l as [|y l IH]; cbn; [done|]. by f_equal. Qed.

Lemma alter_alloc_old (f : A → A) l x i :
  i < length l → alter f i (l ++ [x]) = alter f i l ++ [x].
Proof.
  revert i; induction l as [|y l IH]; intros [|i] Hi; cbn in *;
    try lia; [done|]. f_equal. apply IH. lia.
Qed.

Lemma alter_out_of_range (f : A → A) l i : length l ≤ i → alter f i l = l.
Proof.
  revert i; induction l as [|y l IH]; intros [|i] Hi; cbn in *;
    try lia; try done. f_equal. apply IH. lia.
Qed.

Lemma alter_lookup_insert (f : A → A) l i x :
  l !! i = Some x → alter f i l = <[i := f x]> l.
Proof.
  revert i; induction l as [|y l IH]; intros [|i] Hi; cbn in *; try done.
  - by injection Hi as ->.
  - f_equal. by apply IH.
Qed.

Lemma alter_fixed_point (f : A → A) l i x :
  l !! i = Some x → f x = x → alter f i l = l.
Proof.
  revert i; induction l as [|y l IH]; intros [|i] Hi Hx; cbn in *;
    try done.
  - injection Hi as ->. by rewrite Hx.
  - f_equal. by apply IH.
Qed.
End heap_lemmas.

#[export] Hint Rewrite @lookup_alloc @alter_alloc_new : eff.
