(* ===== verification/Attributes.v ===== *)
(** Attribute values and attribute records.

    [AttributeValue] is the scalar a span attribute may hold; an attribute
    record (a JavaScript object used as [Record<string, AttributeValue>]) is
    a finite map from strings.  [fromEntries] is [Object.fromEntries] applied
    to the entries of a JavaScript [Map] in insertion order
    (openTelemetryProvider.ts, line 91); [setAttributes_record] is the
    key-by-key assignment [span.setAttributes] performs on a span's record
    (lines 62-64 and 71-73).  The lemmas say which binding of a key survives
    in each. *)

From stdpp Require Import base gmap strings list fin_maps.
From S2P Require Import Prelude.

(** * Data *)

Inductive AttributeValue : Type :=
  | AVString (s : string)
  | AVNumber (n : Z)
  | AVBool (b : bool).

#[export] Instance AttributeValue_eq_dec : EqDecision AttributeValue.
Proof. solve_decision. Defined.

(** An attribute record.  (A notation, so that the lemmas of [fin_maps]
    rewrite under it.) *)
Abbreviation Attributes := (gmap string AttributeValue).

(** One entry of a [Map<string, AttributeValue>]. *)
Abbreviation Entry := (string * AttributeValue)%type.

(** * Operations *)

(** [Object.fromEntries(entries)]: each entry in turn defines its key on the
    new object, so a later entry replaces an earlier one. *)
Definition fromEntries (entries : list Entry) : Attributes :=
  foldl (λ obj e, <[e.1 := e.2]> obj) ∅ entries.

(** [span.setAttributes(attrs)] on the record [target] of an open span: each
    key of [attrs] is assigned in [target]. *)
Definition setAttributes_record (attrs target : Attributes) : Attributes :=
  map_fold (λ k v acc, <[k := v]> acc) target attrs.

(** [Map.prototype.set]: the value of an existing key is replaced in place,
    a new key is appended. *)
Fixpoint Map_set (k : string) (v : AttributeValue) (entries : list Entry)
    : list Entry :=
  match entries with
  | [] => [(k, v)]
  | e :: rest =>
      if decide (e.1 = k) then (k, v) :: rest else e :: Map_set k v rest
  end.

(** The entries of a [Map] hold each key once. *)
Definition Map_wf (entries : list Entry) : Prop := NoDup entries.*1.

#[export] Instance Map_wf_dec entries : Decision (Map_wf entries).
Proof. unfold Map_wf. apply _. Defined.

(** * [fromEntries] *)

Section fromEntries.
Implicit Types (es : list Entry) (k : string) (v : AttributeValue).

Lemma fromEntries_nil : fromEntries [] = ∅.
Proof. reflexivity. Qed.

Lemma fromEntries_snoc es k v :
  fromEntries (es ++ [(k, v)]) = <[k := v]> (fromEntries es).
Proof. unfold fromEntries. by rewrite foldl_snoc. Qed.

(** The reference definition: stdpp's [list_to_map] keeps the first
    binding, so [fromEntries] is [list_to_map] of the reversed entries. *)
Lemma fromEntries_list_to_map_reverse es :
  fromEntries es = list_to_map (reverse es).
Proof.
  induction es as [|[k v] es IH] using rev_ind; [done|].
  by rewrite fromEntries_snoc, reverse_snoc, IH.
Qed.

Lemma fromEntries_lookup_snoc_eq es k v :
  fromEntries (es ++ [(k, v)]) !! k = Some v.
Proof. by rewrite fromEntries_snoc, lookup_insert_eq. Qed.

Lemma fromEntries_lookup_snoc_ne es k k' v :
  k ≠ k' → fromEntries (es ++ [(k, v)]) !! k' = fromEntries es !! k'.
Proof. intros. by rewrite fromEntries_snoc, lookup_insert_ne. Qed.

(** C7: [Object.fromEntries] keeps, for each key, the value of the last
    entry that has the key, and has no other key. *)
Theorem fromEntries_lookup_last es k :
  fromEntries es !! k = snd <$> last (filter (λ e, e.1 = k) es).
Proof.
  induction es as [|[k' v] es IH] using rev_ind; [done|].
  rewrite filter_app, filter_cons, filter_nil. cbn.
  destruct (decide (k' = k)) as [->|Hne].
  - by rewrite fromEntries_lookup_snoc_eq, last_snoc.
  - by rewrite fromEntries_lookup_snoc_ne, app_nil_r.
Qed.

Lemma fromEntries_lookup_None es k :
  fromEntries es !! k = None ↔ k ∉ es.*1.
Proof.
  rewrite fromEntries_list_to_map_reverse, <- not_elem_of_list_to_map.
  by rewrite fmap_reverse, elem_of_reverse.
Qed.

Lemma fromEntries_lookup_Some_elem es k v :
  fromEntries es !! k = Some v → (k, v) ∈ es.
Proof.
  rewrite fromEntries_list_to_map_reverse. intros H.
  apply elem_of_list_to_map_2 in H. by apply elem_of_reverse.
Qed.

(** The keys of [Object.fromEntries(entries)] are exactly the keys of the
    entries: no key is lost and none is invented. *)
Theorem fromEntries_dom es : dom (fromEntries es) = list_to_set es.*1.
Proof.
  rewrite fromEntries_list_to_map_reverse, dom_list_to_map_L.
  apply set_eq. intros k.
  by rewrite !elem_of_list_to_set, fmap_reverse, elem_of_reverse.
Qed.
End fromEntries.

(** * [setAttributes_record] *)

Section setAttributes_record.
Implicit Types (a b t : Attributes) (k : string) (v : AttributeValue).

Lemma setAttributes_record_empty t : setAttributes_record ∅ t = t.
Proof. unfold setAttributes_record. by rewrite map_fold_empty. Qed.

Lemma setAttributes_record_insert a t k v :
  a !! k = None →
  setAttributes_record (<[k := v]> a) t
  = <[k := v]> (setAttributes_record a t).
Proof.
  intros Hk. unfold setAttributes_record.
  rewrite map_fold_insert_L; [done| |done].
  intros j1 j2 z1 z2 y Hne _ _. by apply insert_insert_ne.
Qed.

(** Key-by-key assignment is the left-biased union. *)
Lemma setAttributes_record_union a t : setAttributes_record a t = a ∪ t.
Proof.
  induction a as [|k v a Hk IH] using map_ind.
  - by rewrite setAttributes_record_empty, (left_id_L ∅ (∪)).
  - by rewrite setAttributes_record_insert, IH, insert_union_l.
Qed.

Lemma setAttributes_record_lookup_new a t k v :
  a !! k = Some v → setAttributes_record a t !! k = Some v.
Proof.
  rewrite setAttributes_record_union. apply lookup_union_Some_l.
Qed.

Lemma setAttributes_record_lookup_old a t k :
  a !! k = None → setAttributes_record a t !! k = t !! k.
Proof. rewrite setAttributes_record_union. apply lookup_union_r. Qed.

Lemma setAttributes_record_idemp a t :
  setAttributes_record a (setAttributes_record a t)
  = setAttributes_record a t.
Proof.
  rewrite !setAttributes_record_union.
  by rewrite (assoc_L (∪)), (idemp_L (∪)).
Qed.

Lemma setAttributes_record_assoc a b t :
  setAttributes_record a (setAttributes_record b t)
  = setAttributes_record (setAttributes_record a b) t.
Proof. rewrite !setAttributes_record_union. by rewrite (assoc_L (∪)). Qed.

Lemma setAttributes_record_dom a t :
  dom (setAttributes_record a t) = dom a ∪ dom t.
Proof. by rewrite setAttributes_record_union, dom_union_L. Qed.
End setAttributes_record.

#[export] Hint Rewrite fromEntries_snoc setAttributes_record_empty : eff.

(** * The entries of a [Map] *)

Section Map_entries.
Implicit Types (es : list Entry) (k : string) (v : AttributeValue).

Lemma Map_set_keys_fresh es k v :
  k ∉ es.*1 → Map_set k v es = es ++ [(k, v)].
Proof.
  induction es as [|[k' v'] es IH]; intros Hk; cbn in *; [done|].
  apply not_elem_of_cons in Hk as [Hne Hk].
  rewrite decide_False by done. by rewrite IH.
Qed.

Lemma Map_set_keys es k v :
  (Map_set k v es).*1 = if decide (k ∈ es.*1) then es.*1 else es.*1 ++ [k].
Proof.
  induction es as [|[k' v'] es IH]; cbn; [done|].
  destruct (decide (k' = k)) as [->|Hne]; cbn.
  - rewrite decide_True; [done|]. apply elem_of_cons; by left.
  - rewrite IH. destruct (decide (k ∈ es.*1)) as [Hin|Hin].
    + rewrite decide_True; [done|]. apply elem_of_cons; by right.
    + rewrite decide_False; [done|]. rewrite not_elem_of_cons. by split.
Qed.

Lemma Map_set_wf es k v : Map_wf es → Map_wf (Map_set k v es).
Proof.
  unfold Map_wf. intros Hwf. rewrite Map_set_keys.
  destruct (decide (k ∈ es.*1)) as [Hin|Hin]; [done|].
  apply NoDup_app. split_and!; [done| |apply NoDup_singleton].
  intros x Hx Hx'. apply list_elem_of_singleton in Hx'. by subst.
Qed.

(** On the entries of a [Map] the order of insertion does not matter. *)
Lemma fromEntries_wf es : Map_wf es → fromEntries es = list_to_map es.
Proof.
  intros Hwf. rewrite fromEntries_list_to_map_reverse.
  apply list_to_map_proper; [|by rewrite reverse_Permutation].
  by rewrite fmap_reverse, reverse_Permutation.
Qed.

Lemma list_to_map_Map_set es k v :
  (list_to_map (Map_set k v es) : Attributes)
  = <[k := v]> (list_to_map es).
Proof.
  induction es as [|[k' v'] es IH]; cbn; [done|].
  destruct (decide (k' = k)) as [->|Hne]; cbn.
  - by rewrite insert_insert_eq.
  - by rewrite IH, insert_insert_ne.
Qed.

(** Setting a key of a [Map] and converting it gives the converted
    record with that key assigned: [Object.fromEntries] commutes with
    [Map.prototype.set]. *)
Theorem fromEntries_Map_set es k v :
  Map_wf es → fromEntries (Map_set k v es) = <[k := v]> (fromEntries es).
Proof.
  intros Hwf. rewrite !fromEntries_wf by auto using Map_set_wf.
  apply list_to_map_Map_set.
Qed.

Lemma fromEntries_Map_set_witness :
  Map_wf [("plan", AVString "free"); ("seats", AVNumber 3)]
  ∧ fromEntries
      (Map_set "plan" (AVString "pro")
         [("plan", AVString "free"); ("seats", AVNumber 3)])
    = <["plan" := AVString "pro"]>
        (fromEntries [("plan", AVString "free"); ("seats", AVNumber 3)]).
Proof.
  assert (Map_wf [("plan", AVString "free"); ("seats", AVNumber 3)]) as Hwf
    by (unfold Map_wf; compute_done).
  split; [exact Hwf|]. by apply fromEntries_Map_set.
Defined.
End Map_entries.
