(* ===== verification/Spans.v ===== *)
(** The SDK's span object and its life cycle.

    A span is created with a name and a start time, is annotated with
    attributes while it is open, and is closed once with an end time
    (specification, sections 3 and 4.5):
    open -> (attributes set any number of times) -> closed.
    A span made while no provider is active records nothing.  [Span_apply]
    is the object's behaviour as a total function, [span_step] the same life
    cycle as a labelled step relation; the lemmas relate the two and show
    that a closed span is frozen. *)

From stdpp Require Import base gmap strings list fin_maps.
From S2P Require Import Prelude Attributes.

(** * Data *)

(** [span_owner] is the provider whose processors will see the span when it
    ends; a span without owner is the API's non-recording span. *)
Record Span : Type := mkSpan {
  span_name : string;
  span_scope : string;
  span_owner : option nat;
  span_startTime : Z;
  span_attributes : Attributes;
  span_endTime : option Z;
}.

#[export] Instance Span_eq_dec : EqDecision Span.
Proof. solve_decision. Defined.

Inductive SpanPhase : Type := NonRecording | Open | Closed.

#[export] Instance SpanPhase_eq_dec : EqDecision SpanPhase.
Proof. solve_decision. Defined.

(** What a caller may do with a span it holds. *)
Inductive SpanCall : Type :=
  | CallSetAttributes (attrs : Attributes)
  | CallEnd (t : Z).

(** * Operations *)

Definition span_phase (s : Span) : SpanPhase :=
  match span_owner s, span_endTime s with
  | None, _ => NonRecording
  | Some _, None => Open
  | Some _, Some _ => Closed
  end.

Definition span_live (s : Span) : bool := bool_decide (span_phase s = Open).

(** [span.setAttributes(attrs)]: assigns each key on an open span, does
    nothing on a closed or non-recording one. *)
Definition Span_setAttributes (attrs : Attributes) (s : Span) : Span :=
  if span_live s then
    mkSpan (span_name s) (span_scope s) (span_owner s) (span_startTime s)
      (setAttributes_record attrs (span_attributes s)) (span_endTime s)
  else s.

(** [span.end(t)]: closes an open span at [t], does nothing otherwise. *)
Definition Span_end (t : Z) (s : Span) : Span :=
  if span_live s then
    mkSpan (span_name s) (span_scope s) (span_owner s) (span_startTime s)
      (span_attributes s) (Some t)
  else s.

Definition Span_apply (c : SpanCall) (s : Span) : Span :=
  match c with
  | CallSetAttributes attrs => Span_setAttributes attrs s
  | CallEnd t => Span_end t s
  end.

(** The finished spans of a heap, in the order they were started. *)
Definition closed_spans (l : list Span) : list Span :=
  filter (λ s, span_phase s = Closed) l.

(** The life cycle as a step relation: only an open span moves. *)
Inductive span_step : Span → SpanCall → Span → Prop :=
  | span_step_setAttributes s attrs :
      span_phase s = Open →
      span_step s (CallSetAttributes attrs)
        (mkSpan (span_name s) (span_scope s) (span_owner s)
           (span_startTime s)
           (attrs ∪ span_attributes s) (span_endTime s))
  | span_step_end s t :
      span_phase s = Open →
      span_step s (CallEnd t)
        (mkSpan (span_name s) (span_scope s) (span_owner s)
           (span_startTime s) (span_attributes s) (Some t)).

(** * Lemmas *)

(** [span_cases c s] splits a goal about [Span_apply c s] on the call and on
    whether the span is open. *)
Ltac span_cases c s :=
  destruct c; cbn; unfold Span_setAttributes, Span_end;
  destruct (span_live s) eqn:?.

Section span_lemmas.
Implicit Types (s : Span) (c : SpanCall) (a : Attributes) (t : Z).

Lemma span_live_Open s : span_live s = true ↔ span_phase s = Open.
Proof. unfold span_live. apply bool_decide_eq_true. Qed.

Lemma span_live_spec s :
  span_live s = true ↔ is_Some (span_owner s) ∧ span_endTime s = None.
Proof.
  rewrite span_live_Open. unfold span_phase.
  destruct (span_owner s), (span_endTime s); split;
    try done; intros [[??] ?]; done.
Qed.

(** ** A span that is not open is frozen *)

Lemma Span_apply_not_live c s : span_live s = false → Span_apply c s = s.
Proof. intros H. by span_cases c s. Qed.

Lemma Span_apply_Closed c s : span_phase s = Closed → Span_apply c s = s.
Proof.
  intros H. apply Span_apply_not_live. unfold span_live.
  apply bool_decide_eq_false. by rewrite H.
Qed.

Lemma Span_apply_NonRecording c s :
  span_phase s = NonRecording → Span_apply c s = s.
Proof.
  intros H. apply Span_apply_not_live. unfold span_live.
  apply bool_decide_eq_false. by rewrite H.
Qed.

(** ** What an open span does *)

Lemma Span_setAttributes_live a s :
  span_live s = true →
  Span_setAttributes a s
  = mkSpan (span_name s) (span_scope s) (span_owner s) (span_startTime s)
      (a ∪ span_attributes s) (span_endTime s).
Proof.
  intros H. unfold Span_setAttributes.
  by rewrite H, setAttributes_record_union.
Qed.

Lemma Span_end_live t s :
  span_live s = true →
  Span_end t s
  = mkSpan (span_name s) (span_scope s) (span_owner s) (span_startTime s)
      (span_attributes s) (Some t).
Proof. intros H. unfold Span_end. by rewrite H. Qed.

Lemma Span_setAttributes_empty s : Span_setAttributes ∅ s = s.
Proof.
  unfold Span_setAttributes. destruct (span_live s); [|done].
  rewrite setAttributes_record_empty. by destruct s.
Qed.

Lemma Span_setAttributes_phase a s :
  span_phase (Span_setAttributes a s) = span_phase s.
Proof. unfold Span_setAttributes. by destruct (span_live s). Qed.

Lemma Span_end_phase t s :
  span_phase (Span_end t s)
  = match span_phase s with Open => Closed | p => p end.
Proof.
  unfold Span_end. destruct (span_live s) eqn:H.
  - apply span_live_Open in H as H'. rewrite H'.
    apply span_live_spec in H as [[p Hp] _].
    unfold span_phase. cbn. by rewrite Hp.
  - destruct (span_phase s) eqn:Hp; try done.
    apply span_live_Open in Hp. congruence.
Qed.

(** ** The relation and the functions agree *)

Lemma span_step_apply s c s' : span_step s c s' → Span_apply c s = s'.
Proof.
  intros [s0 a H|s0 t H]; apply span_live_Open in H; cbn.
  - by apply Span_setAttributes_live.
  - by apply Span_end_live.
Qed.

Lemma span_apply_step s c :
  span_phase s = Open → span_step s c (Span_apply c s).
Proof.
  intros H. apply span_live_Open in H as Hl. destruct c as [a|t]; cbn.
  - rewrite Span_setAttributes_live by done. by constructor.
  - rewrite Span_end_live by done. by constructor.
Qed.

Lemma span_step_deterministic s c s1 s2 :
  span_step s c s1 → span_step s c s2 → s1 = s2.
Proof.
  intros H1 H2. apply span_step_apply in H1, H2. congruence.
Qed.

Lemma span_step_from_Open s c s' : span_step s c s' → span_phase s = Open.
Proof. by intros [??|??]. Qed.

(** ** What never changes *)

Lemma Span_apply_name c s : span_name (Span_apply c s) = span_name s.
Proof. by span_cases c s. Qed.

Lemma Span_apply_scope c s : span_scope (Span_apply c s) = span_scope s.
Proof. by span_cases c s. Qed.

Lemma Span_apply_owner c s : span_owner (Span_apply c s) = span_owner s.
Proof. by span_cases c s. Qed.

Lemma Span_apply_startTime c s :
  span_startTime (Span_apply c s) = span_startTime s.
Proof. by span_cases c s. Qed.

(** ** Sequences of calls *)

Lemma Span_end_twice t t' s : Span_end t' (Span_end t s) = Span_end t s.
Proof.
  apply (Span_apply_not_live (CallEnd t')). unfold span_live.
  apply bool_decide_eq_false. rewrite Span_end_phase.
  by destruct (span_phase s).
Qed.

Lemma Span_calls_after_end t cs s :
  span_phase s = Open →
  foldl (λ s c, Span_apply c s) (Span_end t s) cs = Span_end t s.
Proof.
  intros Hp. assert (span_phase (Span_end t s) = Closed) as H
    by by rewrite Span_end_phase, Hp.
  revert H. generalize (Span_end t s). clear.
  induction cs as [|c cs IH]; intros s H; cbn; [done|].
  rewrite Span_apply_Closed by done. by apply IH.
Qed.
End span_lemmas.

(** * The finished spans of a heap *)

Section closed_spans.
Implicit Types (s : Span) (l : list Span) (a : Attributes) (t : Z) (h : nat).

Lemma closed_spans_snoc l s :
  closed_spans (l ++ [s])
  = closed_spans l ++ (if decide (span_phase s = Closed) then [s] else []).
Proof.
  unfold closed_spans. rewrite filter_app, filter_cons, filter_nil.
  by destruct (decide (span_phase s = Closed)).
Qed.

(** A span without end time is not finished. *)
Lemma closed_spans_snoc_open l s :
  span_endTime s = None → closed_spans (l ++ [s]) = closed_spans l.
Proof.
  intros He. rewrite closed_spans_snoc, decide_False, app_nil_r; [done|].
  unfold span_phase. rewrite He. by destruct (span_owner s).
Qed.

(** Setting attributes neither closes a span nor changes a closed one. *)
Lemma closed_spans_setAttributes a h l :
  closed_spans (alter (Span_setAttributes a) h l) = closed_spans l.
Proof.
  unfold closed_spans.
  revert h; induction l as [|s l IH]; intros [|h];
    cbn -[Span_setAttributes]; try done.
  - rewrite Span_setAttributes_phase.
    destruct (decide (span_phase s = Closed)) as [Hc|]; [|done].
    by rewrite (Span_apply_Closed (CallSetAttributes a) s Hc
                  : Span_setAttributes a s = s).
  - by rewrite IH.
Qed.

(** Ending an open span adds it, closed, to the finished spans. *)
Lemma closed_spans_end t h l s :
  l !! h = Some s → span_phase s = Open →
  closed_spans (alter (Span_end t) h l) ≡ₚ closed_spans l ++ [Span_end t s].
Proof.
  unfold closed_spans.
  revert h; induction l as [|x l IH]; intros [|h] Hs Hp;
    cbn -[Span_end] in *; try done.
  - injection Hs as ->. rewrite Span_end_phase, Hp.
    rewrite decide_True, decide_False by done.
    apply Permutation_cons_append.
  - destruct (decide (span_phase x = Closed)).
    + cbn. f_equiv. by apply IH.
    + by apply IH.
Qed.
End closed_spans.

#[export] Hint Rewrite Span_apply_name Span_apply_scope Span_apply_owner
  Span_apply_startTime Span_setAttributes_phase Span_end_phase : eff.
