(* ===== verification/Pipeline.v ===== *)
(** Exporters and span processors.

    The constructor of the adapter builds its pipeline from four SDK classes
    (openTelemetryProvider.ts, lines 37-49): [ConsoleSpanExporter] and
    [OTLPTraceExporter] are exporters, [SimpleSpanProcessor] and
    [BatchSpanProcessor] are processors that hand finished spans to an
    exporter, at once or when the batching timer fires, in batches of a
    given size at most.  [Output] is what the process has emitted: the spans
    printed on the console and the requests sent to the network, each with
    the configuration of the exporter that sent it.  The lemmas account for
    every finished span: it is either delivered by the exporter or pending
    in the processor's queue, in the order in which the spans finished;
    they show that the timer shortens the queues.  [batches] is the
    reference for the requests a queue leaves in, with its laws. *)

From Equations Require Import Equations.
From stdpp Require Import base gmap strings list fin_maps.
From S2P Require Import Prelude Attributes Spans.

(** * Data *)

(** The options of an [HttpsProxyAgent]; the adapter passes them on and
    never looks inside. *)
Inductive AgentOptions : Type := ProxyOptions (proxy : string).

#[export] Instance AgentOptions_eq_dec : EqDecision AgentOptions.
Proof. solve_decision. Defined.

Record HttpsProxyAgent : Type := mkAgent { options : AgentOptions }.

(** The object literal given to [new OTLPTraceExporter] (lines 42-48). *)
Record OTLPExporterConfig : Type := mkOTLPConfig {
  url : string;
  compression : string;
  httpAgentOptions : option AgentOptions;
}.

#[export] Instance OTLPExporterConfig_eq_dec : EqDecision OTLPExporterConfig.
Proof. solve_decision. Defined.

Inductive SpanExporter : Type :=
  | ConsoleSpanExporter
  | OTLPTraceExporter (config : OTLPExporterConfig).

#[export] Instance SpanExporter_eq_dec : EqDecision SpanExporter.
Proof. solve_decision. Defined.

(** A batching processor holds the finished spans it has not exported yet;
    [new BatchSpanProcessor(exporter)] is [BatchSpanProcessor exporter []]. *)
Inductive SpanProcessor : Type :=
  | SimpleSpanProcessor (exporter : SpanExporter)
  | BatchSpanProcessor (exporter : SpanExporter) (queue : list Span).

#[export] Instance SpanProcessor_eq_dec : EqDecision SpanProcessor.
Proof. solve_decision. Defined.

(** One network request: the exporter's configuration and the spans sent. *)
Abbreviation Request := (OTLPExporterConfig * list Span)%type.

Record Output : Type := mkOutput {
  console : list Span;
  network : list Request;
}.

#[export] Instance Output_eq_dec : EqDecision Output.
Proof. solve_decision. Defined.

(** * Operations *)

(** [exporter.export(batch)]: the console exporter prints each span, the
    network exporter sends one request that carries the batch. *)
Definition export (e : SpanExporter) (batch : list Span) : Eff Output unit :=
  modify (λ o,
    match e with
    | ConsoleSpanExporter => mkOutput (console o ++ batch) (network o)
    | OTLPTraceExporter config =>
        mkOutput (console o) (network o ++ [(config, batch)])
    end).

(** [processor.onEnd(span)]: a simple processor exports the span alone and
    at once; a batching processor appends it to its queue. *)
Definition onEnd (s : Span) (p : SpanProcessor) : Eff Output SpanProcessor :=
  match p with
  | SimpleSpanProcessor e => export e [s];; mret p
  | BatchSpanProcessor e q => mret (BatchSpanProcessor e (q ++ [s]))
  end.

(** The batching timer fires: the spans that have waited longest, [size]
    of them at most, are exported as one batch and leave the queue; nothing
    is exported when there is nothing to take.  [size] is the batch size the
    SDK is configured with.  A simple processor has no timer. *)
Definition onTimer (size : nat) (p : SpanProcessor)
    : Eff Output SpanProcessor :=
  match p with
  | SimpleSpanProcessor e => mret p
  | BatchSpanProcessor e q =>
      match take size q with
      | [] => mret p
      | batch => export e batch;; mret (BatchSpanProcessor e (drop size q))
      end
  end.

(** * Accounting *)

Definition processor_exporter (p : SpanProcessor) : SpanExporter :=
  match p with
  | SimpleSpanProcessor e => e
  | BatchSpanProcessor e _ => e
  end.

(** The spans a processor holds and has not handed to its exporter. *)
Definition pending (p : SpanProcessor) : list Span :=
  match p with
  | SimpleSpanProcessor _ => []
  | BatchSpanProcessor _ q => q
  end.

(** The spans sent in requests that carry the configuration [config]. *)
Definition sent_to (config : OTLPExporterConfig) (o : Output) : list Span :=
  concat (snd <$> filter (λ r, r.1 = config) (network o)).

(** Everything the exporter [e] has emitted so far, in order. *)
Definition delivered (e : SpanExporter) (o : Output) : list Span :=
  match e with
  | ConsoleSpanExporter => console o
  | OTLPTraceExporter config => sent_to config o
  end.

(** Every span a processor has been given: delivered or still pending. *)
Definition accounted (p : SpanProcessor) (o : Output) : list Span :=
  delivered (processor_exporter p) o ++ pending p.

(** A processor as it is made: with nothing in its queue. *)
Definition reset (p : SpanProcessor) : SpanProcessor :=
  match p with
  | SimpleSpanProcessor e => SimpleSpanProcessor e
  | BatchSpanProcessor e _ => BatchSpanProcessor e []
  end.

(** The exporters of a pipeline, in the order of its processors. *)
Definition exporters (procs : list SpanProcessor) : list SpanExporter :=
  processor_exporter <$> procs.

(** Every processor of [procs] accounts for the spans [l], in some order. *)
Definition accounts (procs : list SpanProcessor) (o : Output) (l : list Span)
    : Prop :=
  Forall (λ p, accounted p o ≡ₚ l) procs.

(** Every processor of [procs] accounts for the spans [l], in that order:
    what its exporter has emitted, followed by what waits in its queue, is
    [l]. *)
Definition in_order (procs : list SpanProcessor) (o : Output) (l : list Span)
    : Prop :=
  Forall (λ p, accounted p o = l) procs.

(** Everything in the output was emitted by one of the exporters [es]. *)
Definition emitted_by (es : list SpanExporter) (o : Output) : Prop :=
  (console o = [] ∨ ConsoleSpanExporter ∈ es)
  ∧ Forall (λ r, OTLPTraceExporter r.1 ∈ es) (network o).

(** The spans that wait in the queues of a pipeline. *)
Definition waiting (procs : list SpanProcessor) : list Span :=
  concat (pending <$> procs).

(** The batches in which a queue leaves a batching processor whose timer
    takes [size] spans at a time and fires until nothing waits: the queue
    cut into consecutive runs of [size] spans, oldest first, the last run
    shorter when the length is not a multiple of [size].  A timer that
    takes nothing sends nothing.  The recursive call is on what [drop]
    leaves of the queue, which is shorter and not a subterm of it. *)
Equations? batches {A : Type} (size : nat) (q : list A) : list (list A)
  by wf (length q) lt :=
  batches 0 _ := [];
  batches _ [] := [];
  batches (S n) (x :: q) := (x :: take n q) :: batches (S n) (drop n q).
Proof. rewrite length_drop. cbn. lia. Qed.

(** The requests in which the exporter configured with [config] sends the
    batches [bs]. *)
Definition requests (config : OTLPExporterConfig) (bs : list (list Span))
    : list Request :=
  (λ batch, (config, batch)) <$> bs.

Section pipeline_lemmas.
Implicit Types (e : SpanExporter) (p : SpanProcessor) (s : Span)
  (o : Output) (batch : list Span) (size : nat).

Lemma sent_to_snoc config config' batch o :
  sent_to config (mkOutput (console o) (network o ++ [(config', batch)]))
  = sent_to config o ++ (if decide (config' = config) then batch else []).
Proof.
  unfold sent_to. cbn. rewrite filter_app, fmap_app, concat_app.
  f_equal. rewrite filter_cons, filter_nil. cbn.
  destruct (decide (config' = config)); cbn; by rewrite ?app_nil_r.
Qed.

(** ** Exporters *)

Lemma export_console_request config batch o :
  exec (export (OTLPTraceExporter config) batch) o
  = mkOutput (console o) (network o ++ [(config, batch)]).
Proof. reflexivity. Qed.

Lemma export_delivered e batch o :
  delivered e (exec (export e batch) o) = delivered e o ++ batch.
Proof.
  destruct e as [|config]; [done|]. unfold delivered.
  by rewrite export_console_request, sent_to_snoc, decide_True.
Qed.

Lemma export_delivered_other e e' batch o :
  e ≠ e' → delivered e' (exec (export e batch) o) = delivered e' o.
Proof.
  intros Hne. destruct e as [|config], e' as [|config']; try done.
  unfold delivered. rewrite export_console_request, sent_to_snoc.
  rewrite decide_False by congruence. by rewrite app_nil_r.
Qed.

(** ** Processors *)

Lemma onEnd_exporter s p o :
  processor_exporter (eval (onEnd s p) o) = processor_exporter p.
Proof. by destruct p. Qed.

(** What the timer does to a batching processor, in one equation. *)
Lemma onTimer_batch size e q o :
  onTimer size (BatchSpanProcessor e q) o
  = (BatchSpanProcessor e (drop size q),
     if decide (take size q = []) then o else exec (export e (take size q)) o).
Proof.
  unfold onTimer. destruct (take size q) as [|s batch] eqn:Ht; [|done].
  apply take_nil_inv in Ht. cbn. by destruct Ht as [->| ->]; rewrite ?drop_nil.
Qed.

Lemma onTimer_exporter size p o :
  processor_exporter (eval (onTimer size p) o) = processor_exporter p.
Proof. destruct p as [|e q]; [done|]. unfold eval. by rewrite onTimer_batch. Qed.

(** A simple processor exports at once and holds nothing. *)
Lemma onEnd_simple e s o :
  eval (onEnd s (SimpleSpanProcessor e)) o = SimpleSpanProcessor e
  ∧ delivered e (exec (onEnd s (SimpleSpanProcessor e)) o)
    = delivered e o ++ [s].
Proof. split; [done|]. apply (export_delivered e [s]). Qed.

(** A batching processor emits nothing when a span ends. *)
Lemma onEnd_batch e q s o :
  eval (onEnd s (BatchSpanProcessor e q)) o = BatchSpanProcessor e (q ++ [s])
  ∧ exec (onEnd s (BatchSpanProcessor e q)) o = o.
Proof. done. Qed.

(** The timer moves the head of the queue to the exporter. *)
Lemma onTimer_pending size p o :
  pending (eval (onTimer size p) o) = drop size (pending p).
Proof.
  destruct p as [|e q]; [symmetry; apply drop_nil|].
  unfold eval. by rewrite onTimer_batch.
Qed.

Lemma onTimer_delivered size p o :
  delivered (processor_exporter p) (exec (onTimer size p) o)
  = delivered (processor_exporter p) o ++ take size (pending p).
Proof.
  destruct p as [e|e q]; [cbn; by rewrite take_nil, app_nil_r|].
  unfold exec. rewrite onTimer_batch. cbn [snd pending processor_exporter].
  destruct (decide (take size q = [])) as [->|_]; [by rewrite app_nil_r|].
  apply export_delivered.
Qed.


(** ** Conservation: no finished span is lost or duplicated between a
    processor and its exporter *)

Lemma onEnd_accounted s p o :
  accounted (eval (onEnd s p) o) (exec (onEnd s p) o)
  = accounted p o ++ [s].
Proof.
  unfold accounted. rewrite onEnd_exporter. destruct p as [e|e q].
  - rewrite (proj1 (onEnd_simple e s o)). cbn [pending processor_exporter].
    rewrite (proj2 (onEnd_simple e s o)). by rewrite !app_nil_r.
  - rewrite (proj1 (onEnd_batch e q s o)), (proj2 (onEnd_batch e q s o)).
    cbn [pending]. by rewrite app_assoc.
Qed.

Lemma onTimer_accounted size p o :
  accounted (eval (onTimer size p) o) (exec (onTimer size p) o)
  = accounted p o.
Proof.
  unfold accounted.
  rewrite onTimer_pending, onTimer_exporter, onTimer_delivered.
  by rewrite <- app_assoc, take_drop.
Qed.

(** ** Frame: a processor touches the output of its own exporter only *)

Lemma onEnd_frame s p e o :
  e ≠ processor_exporter p → delivered e (exec (onEnd s p) o) = delivered e o.
Proof.
  intros Hne. destruct p as [e'|e' q]; [|done].
  apply (export_delivered_other e' e [s]). by intros ->.
Qed.

Lemma onTimer_frame size p e o :
  e ≠ processor_exporter p →
  delivered e (exec (onTimer size p) o) = delivered e o.
Proof.
  intros Hne. destruct p as [e'|e' q]; [done|].
  unfold exec. rewrite onTimer_batch. cbn [snd].
  destruct (decide (take size q = [])); [done|].
  apply export_delivered_other. by intros ->.
Qed.

Lemma onTimer_accounted_nil size p o :
  accounted (eval (onTimer size p) o) (exec (onTimer size p) o)
  = accounted p o ++ [].
Proof. by rewrite onTimer_accounted, app_nil_r. Qed.
End pipeline_lemmas.

(** * A pipeline of processors with distinct exporters

    The lemmas of this section hold for any step [f] of a processor that
    keeps its exporter, accounts for the spans [d] more, and leaves the
    output of the other exporters alone; [onEnd] and [onTimer] are such
    steps. *)

Section pipeline_accounting.
Context (f : SpanProcessor → Eff Output SpanProcessor) (d : list Span).
Hypothesis f_exporter :
  ∀ p o, processor_exporter (eval (f p) o) = processor_exporter p.
Hypothesis f_accounted :
  ∀ p o, accounted (eval (f p) o) (exec (f p) o) = accounted p o ++ d.
Hypothesis f_frame :
  ∀ p e o, e ≠ processor_exporter p →
    delivered e (exec (f p) o) = delivered e o.

Lemma mapM_exporters procs o :
  exporters (eval (mapM f procs) o) = exporters procs.
Proof.
  revert o; induction procs as [|p procs IH]; intros o; [done|].
  rewrite eval_mapM_cons. unfold exporters in *. cbn.
  by rewrite f_exporter, IH.
Qed.

Lemma mapM_frame procs e o :
  e ∉ exporters procs → delivered e (exec (mapM f procs) o) = delivered e o.
Proof.
  revert o; induction procs as [|p procs IH]; intros o He; [done|].
  unfold exporters in He. cbn in He. apply not_elem_of_cons in He as [??].
  rewrite exec_mapM_cons, IH by done. by apply f_frame.
Qed.

Lemma accounted_frame p q o :
  processor_exporter q ≠ processor_exporter p →
  accounted q (exec (f p) o) = accounted q o.
Proof. intros Hne. unfold accounted. by rewrite f_frame. Qed.

(** What the processors account for, up to a relation [R] that appending
    [d] respects: up to the order of the spans, or as it is. *)
Lemma mapM_accounted (R : relation (list Span)) procs o l :
  (∀ x y, R x y → R (x ++ d) (y ++ d)) →
  NoDup (exporters procs) →
  Forall (λ p, R (accounted p o) l) procs →
  Forall (λ p, R (accounted p (exec (mapM f procs) o)) (l ++ d))
    (eval (mapM f procs) o).
Proof.
  intros HR.
  revert o; induction procs as [|p procs IH]; intros o Hnd Hacc; [done|].
  unfold exporters in Hnd. cbn in Hnd.
  apply NoDup_cons in Hnd as [Hp Hnd]. apply Forall_cons in Hacc as [Hx Hacc].
  rewrite eval_mapM_cons, exec_mapM_cons. apply Forall_cons. split.
  - unfold accounted at 1. rewrite mapM_frame by by rewrite f_exporter.
    fold (accounted (eval (f p) o) (exec (f p) o)).
    rewrite f_accounted. by apply HR.
  - apply IH; [done|]. apply Forall_forall. intros q Hq.
    rewrite accounted_frame; [by eapply Forall_forall in Hacc|].
    intros Heq. apply Hp. rewrite <- Heq. by apply list_elem_of_fmap_2.
Qed.

Lemma mapM_accounts procs o l :
  NoDup (exporters procs) → accounts procs o l →
  accounts (eval (mapM f procs) o) (exec (mapM f procs) o) (l ++ d).
Proof. apply mapM_accounted. intros x y Hxy. by rewrite Hxy. Qed.

Lemma mapM_in_order procs o l :
  NoDup (exporters procs) → in_order procs o l →
  in_order (eval (mapM f procs) o) (exec (mapM f procs) o) (l ++ d).
Proof. apply mapM_accounted. by intros x y ->. Qed.
End pipeline_accounting.

(** Processors that account for the spans in order account for them. *)
Lemma in_order_accounts procs o l : in_order procs o l → accounts procs o l.
Proof. intros H. eapply Forall_impl; [done|]. by intros p ->. Qed.

(** The order of the spans accounted for does not matter. *)
#[export] Instance accounts_proper procs o :
  Proper ((≡ₚ) ==> iff) (accounts procs o).
Proof.
  intros l l' Hl. unfold accounts. apply Forall_proper; [|done].
  intros p. by rewrite Hl.
Qed.

Section pipeline_steps.
Implicit Types (s : Span) (p : SpanProcessor) (procs : list SpanProcessor)
  (o : Output) (l : list Span) (size : nat).

Lemma processor_exporter_reset p :
  processor_exporter (reset p) = processor_exporter p.
Proof. by destruct p. Qed.

Lemma exporters_reset procs : exporters (reset <$> procs) = exporters procs.
Proof.
  unfold exporters. rewrite <- list_fmap_compose. apply list_fmap_ext.
  intros _ p _. apply processor_exporter_reset.
Qed.

Lemma onEnd_reset s p o : reset (eval (onEnd s p) o) = reset p.
Proof. by destruct p. Qed.

Lemma onTimer_reset size p o : reset (eval (onTimer size p) o) = reset p.
Proof. destruct p as [|e q]; [done|]. unfold eval. by rewrite onTimer_batch. Qed.

(** A step that keeps the kind and the exporter of each processor keeps
    those of the pipeline. *)
Lemma mapM_reset (f : SpanProcessor → Eff Output SpanProcessor) procs o :
  (∀ p o, reset (eval (f p) o) = reset p) →
  reset <$> eval (mapM f procs) o = reset <$> procs.
Proof.
  intros Hf. revert o; induction procs as [|p procs IH]; intros o; [done|].
  rewrite eval_mapM_cons. cbn. by rewrite Hf, IH.
Qed.

(** When a span ends, every processor of a pipeline with distinct
    exporters accounts for one more span. *)
Lemma onEnd_accounts s procs o l :
  NoDup (exporters procs) → accounts procs o l →
  accounts (eval (mapM (onEnd s) procs) o) (exec (mapM (onEnd s) procs) o)
    (l ++ [s]).
Proof.
  apply mapM_accounts; auto using onEnd_exporter, onEnd_accounted, onEnd_frame.
Qed.

(** When the timer fires, every processor accounts for the same spans. *)
Lemma onTimer_accounts size procs o l :
  NoDup (exporters procs) → accounts procs o l →
  accounts (eval (mapM (onTimer size) procs) o)
    (exec (mapM (onTimer size) procs) o) l.
Proof.
  intros Hnd Hacc. rewrite <- (app_nil_r l).
  apply mapM_accounts;
    auto using onTimer_exporter, onTimer_accounted_nil, onTimer_frame.
Qed.

(** The same in order: the span that ends comes last, and the timer
    changes nothing. *)
Lemma onEnd_in_order s procs o l :
  NoDup (exporters procs) → in_order procs o l →
  in_order (eval (mapM (onEnd s) procs) o) (exec (mapM (onEnd s) procs) o)
    (l ++ [s]).
Proof.
  apply mapM_in_order; auto using onEnd_exporter, onEnd_accounted, onEnd_frame.
Qed.

Lemma onTimer_in_order size procs o l :
  NoDup (exporters procs) → in_order procs o l →
  in_order (eval (mapM (onTimer size) procs) o)
    (exec (mapM (onTimer size) procs) o) (l ++ []).
Proof.
  apply mapM_in_order;
    auto using onTimer_exporter, onTimer_accounted_nil, onTimer_frame.
Qed.

Lemma onEnd_exporters s procs o :
  exporters (eval (mapM (onEnd s) procs) o) = exporters procs.
Proof. apply mapM_exporters, onEnd_exporter. Qed.

Lemma onTimer_exporters size procs o :
  exporters (eval (mapM (onTimer size) procs) o) = exporters procs.
Proof. apply mapM_exporters, onTimer_exporter. Qed.
End pipeline_steps.

#[export] Hint Rewrite onEnd_exporter onTimer_exporter onTimer_pending
  onEnd_accounted onTimer_accounted : eff.

(** * Invariants of the output *)

(** A property of the output that each step of a processor keeps is kept by
    the pipeline. *)
Lemma mapM_output_inv (f : SpanProcessor → Eff Output SpanProcessor)
    (Q : SpanProcessor → Prop) (P : Output → Prop) procs o :
  (∀ p o, Q p → P o → P (exec (f p) o)) →
  Forall Q procs → P o → P (exec (mapM f procs) o).
Proof.
  intros Hf. revert o; induction procs as [|p procs IH]; intros o Hs Ho;
    [done|].
  apply Forall_cons in Hs as [Hp Hs]. rewrite exec_mapM_cons.
  by apply IH, Hf.
Qed.

(** ** The queues *)

Section queues.
Implicit Types (s : Span) (p : SpanProcessor) (procs : list SpanProcessor)
  (o : Output) (size : nat).

Lemma waiting_cons p procs : waiting (p :: procs) = pending p ++ waiting procs.
Proof. reflexivity. Qed.

(** The timer never lengthens the queues, *)
Lemma onTimer_waiting_le size procs o :
  length (waiting (eval (mapM (onTimer size) procs) o))
  ≤ length (waiting procs).
Proof.
  revert o; induction procs as [|p procs IH]; intros o; [done|].
  rewrite eval_mapM_cons, !waiting_cons, !length_app, onTimer_pending,
    length_drop.
  specialize (IH (exec (onTimer size p) o)). lia.
Qed.

(** and shortens them when a span waits. *)
Lemma onTimer_waiting_lt size procs o :
  0 < size → waiting procs ≠ [] →
  length (waiting (eval (mapM (onTimer size) procs) o))
  < length (waiting procs).
Proof.
  intros Hs. revert o; induction procs as [|p procs IH]; intros o Hw; [done|].
  rewrite eval_mapM_cons, !waiting_cons, !length_app, onTimer_pending,
    length_drop.
  pose proof (onTimer_waiting_le size procs (exec (onTimer size p) o)).
  rewrite waiting_cons in Hw.
  destruct (pending p) as [|x q]; [|cbn; lia].
  specialize (IH (exec (onTimer size p) o) Hw). cbn. lia.
Qed.

(** A timer that takes no span at a time changes nothing. *)
Lemma mapM_onTimer_0 procs o : eval (mapM (onTimer 0) procs) o = procs.
Proof.
  revert o; induction procs as [|p procs IH]; intros o; [done|].
  rewrite eval_mapM_cons, IH. f_equal. by destruct p.
Qed.
End queues.

(** ** The batches a queue leaves in *)

Section batching.
Context {A : Type}.
Implicit Types (q : list A) (size : nat).

Lemma batches_nil size : batches size (@nil A) = [].
Proof. destruct size; by simp batches. Qed.

(** One firing of the timer: the first batch is what [take] gives, the
    others are the batches of what [drop] leaves. *)
Lemma batches_step size q :
  0 < size → q ≠ [] →
  batches size q = take size q :: batches size (drop size q).
Proof.
  intros Hs Hq. destruct size as [|n], q as [|x q]; [lia|lia|done|].
  by simp batches.
Qed.

(** Nothing is lost, duplicated or reordered by batching. *)
Lemma concat_batches size q : 0 < size → concat (batches size q) = q.
Proof.
  funelim (batches size q); simp batches; intros Hs; [lia|done|].
  cbn. match goal with IH : _ → concat _ = _ |- _ => rewrite IH by lia end.
  by rewrite take_drop.
Qed.

(** Every batch carries a span, and [size] spans at most. *)
Lemma batches_lengths size q :
  Forall (λ batch, 0 < length batch ≤ size) (batches size q).
Proof.
  funelim (batches size q); simp batches; [done..|].
  constructor; [|done]. cbn. rewrite length_take. lia.
Qed.

(** The number of batches is the length of the queue divided by [size],
    rounded up. *)
Lemma length_batches size q :
  0 < size →
  length q ≤ size * length (batches size q) < length q + size.
Proof.
  funelim (batches size q); simp batches; intros Hs;
    [lia|cbn [length]; lia|].
  match goal with IH : _ → _ ≤ _ < _ |- _ => specialize (IH Hs) end.
  rewrite length_drop in *. cbn [length].
  destruct (length (batches _ _)); lia.
Qed.

(** A queue that fits in one batch leaves in one request. *)
Lemma batches_one size q :
  q ≠ [] → length q ≤ size → batches size q = [q].
Proof.
  intros Hq Hl.
  rewrite batches_step; [|destruct q; cbn in *; [done|lia]|done].
  by rewrite take_ge, drop_ge, batches_nil by done.
Qed.
End batching.

(** ** A pipeline of one batching processor *)

Section batch_pipeline.
Implicit Types (e : SpanExporter) (s : Span) (o : Output) (q : list Span)
  (size : nat) (config : OTLPExporterConfig).

Lemma onEnd_batch_pipeline e q s o :
  mapM (onEnd s) [BatchSpanProcessor e q] o
  = ([BatchSpanProcessor e (q ++ [s])], o).
Proof. reflexivity. Qed.

Lemma onTimer_batch_pipeline size config q o :
  q ≠ [] → 0 < size →
  mapM (onTimer size) [BatchSpanProcessor (OTLPTraceExporter config) q] o
  = ([BatchSpanProcessor (OTLPTraceExporter config) (drop size q)],
     mkOutput (console o) (network o ++ [(config, take size q)])).
Proof.
  intros Hq Hsize.
  change (mapM (onTimer size) [?p] o)
    with (let r := onTimer size p o in ([r.1], r.2)).
  rewrite onTimer_batch, decide_False; [done|].
  intros [->| ->]%take_nil_inv; [lia|done].
Qed.

(** The requests of the first firing and of the later ones are the
    requests of the whole queue. *)
Lemma requests_step size config q l :
  0 < size → q ≠ [] →
  (l ++ [(config, take size q)]) ++ requests config (batches size (drop size q))
  = l ++ requests config (batches size q).
Proof.
  intros Hs Hq. by rewrite (batches_step size q), <- app_assoc by done.
Qed.
End batch_pipeline.

(** * Where the output comes from *)

Section emitted.
Implicit Types (e : SpanExporter) (es : list SpanExporter) (s x : Span)
  (p : SpanProcessor) (procs : list SpanProcessor) (o : Output)
  (l : list Span) (size : nat).

Lemma emitted_by_empty es : emitted_by es (mkOutput [] []).
Proof. split; [by left|constructor]. Qed.

Lemma export_emitted_by e batch es o :
  e ∈ es → emitted_by es o → emitted_by es (exec (export e batch) o).
Proof.
  intros He [Hc Hn]. destruct e as [|config]; split; cbn; try done.
  - by right.
  - apply Forall_app. split; [done|]. by apply Forall_singleton.
Qed.

Lemma onEnd_emitted_by s p es o :
  processor_exporter p ∈ es → emitted_by es o →
  emitted_by es (exec (onEnd s p) o).
Proof. destruct p; [apply export_emitted_by|done]. Qed.

Lemma onTimer_emitted_by size p es o :
  processor_exporter p ∈ es → emitted_by es o →
  emitted_by es (exec (onTimer size p) o).
Proof.
  destruct p as [|e q]; [done|]. unfold exec. rewrite onTimer_batch. cbn [snd].
  destruct (decide (take size q = [])); [done|]. apply export_emitted_by.
Qed.

Lemma mapM_emitted_by (f : SpanProcessor → Eff Output SpanProcessor)
    procs es o :
  (∀ p o, processor_exporter p ∈ es → emitted_by es o →
     emitted_by es (exec (f p) o)) →
  Forall (.∈ es) (exporters procs) → emitted_by es o →
  emitted_by es (exec (mapM f procs) o).
Proof.
  intros Hf Hs. apply (mapM_output_inv _ (λ p, processor_exporter p ∈ es));
    [done|]. unfold exporters in Hs. by apply Forall_fmap in Hs.
Qed.

(** What an exporter of the pipeline has delivered is among the spans the
    pipeline accounts for. *)
Lemma accounts_delivered procs o l e x :
  accounts procs o l → e ∈ exporters procs → x ∈ delivered e o → x ∈ l.
Proof.
  intros Ha He Hx. apply list_elem_of_fmap in He as (p & -> & Hp).
  eapply Forall_forall in Ha; [|done]. rewrite <- Ha.
  unfold accounted. apply elem_of_app. by left.
Qed.

(** A span in the output was delivered by the exporter that emitted it. *)
Lemma emitted_by_delivered es o x :
  emitted_by es o →
  x ∈ console o ∨ (∃ r, r ∈ network o ∧ x ∈ r.2) →
  ∃ e, e ∈ es ∧ x ∈ delivered e o.
Proof.
  intros [Hc Hn] [Hx|(r & Hr & Hx)].
  - exists ConsoleSpanExporter. split; [|done].
    destruct Hc as [Hc|]; [|done]. rewrite Hc in Hx. by apply elem_of_nil in Hx.
  - exists (OTLPTraceExporter r.1). split.
    + by eapply Forall_forall in Hn.
    + cbn. unfold sent_to. apply list_elem_of_In, in_concat. exists r.2.
      split; [|by apply list_elem_of_In]. apply list_elem_of_In.
      apply list_elem_of_fmap. exists r. split; [done|].
      by apply list_elem_of_filter.
Qed.
End emitted.
