(* ===== verification/TraceApi.v ===== *)
(** The process-wide state and the API calls the adapter makes.

    [World] holds what the tracing API and SDK keep for the whole process:
    the clock, the span objects, the provider objects with their processors,
    the provider registered as the active one, the diagnostic logger, and
    the output emitted so far.  Each call that openTelemetryProvider.ts makes
    on the API is a computation in [Eff World]: [Date_now] (lines 61, 70),
    [new_BasicTracerProvider] (21), [diag_setLogger] (38),
    [addSpanProcessor] (39, 49), [register] (51), [getTracer] (53),
    [trace_disable] (57), [startSpan] (61, 70), [span_setAttributes]
    (62, 64, 71, 73) and [span_end] (66).  [batch_timer] is the step the
    environment takes when a batching processor's timer fires. *)

From stdpp Require Import base gmap strings list fin_maps.
From S2P Require Import Prelude Attributes Spans Pipeline.

(** * Data *)

Inductive DiagLogLevel : Type :=
  NONE | ERROR | WARN | INFO | DEBUG | VERBOSE | ALL.

Inductive DiagLogger : Type := DiagConsoleLogger.

(** [new BasicTracerProvider({ resource })] and the processors added to it. *)
Record BasicTracerProvider : Type := mkProvider {
  resource : Attributes;
  spanProcessors : list SpanProcessor;
}.

(** What a tracer handle obtained from [trace.getTracer] is bound to: the
    provider registered when the handle was made, or whichever provider is
    registered when a span is started. *)
Inductive TracerBinding : Type := BindAtCreation | BindAtCall.

#[export] Instance TracerBinding_eq_dec : EqDecision TracerBinding.
Proof. solve_decision. Defined.

Record Tracer : Type := mkTracer {
  tracer_name : string;
  tracer_delegate : option nat;
}.

Record World : Type := mkWorld {
  w_clock : Z;
  w_ticks : list nat;
  w_binding : TracerBinding;
  w_spans : list Span;
  w_providers : list BasicTracerProvider;
  w_global : option nat;
  w_diag : option (DiagLogger * DiagLogLevel);
  w_out : Output;
}.

(** Field updates. *)
Definition set_clock (c : Z) (ts : list nat) (w : World) : World :=
  mkWorld c ts (w_binding w) (w_spans w) (w_providers w) (w_global w)
    (w_diag w) (w_out w).
Definition set_spans (f : list Span → list Span) (w : World) : World :=
  mkWorld (w_clock w) (w_ticks w) (w_binding w) (f (w_spans w))
    (w_providers w) (w_global w) (w_diag w) (w_out w).
Definition set_providers
    (f : list BasicTracerProvider → list BasicTracerProvider) (w : World)
    : World :=
  mkWorld (w_clock w) (w_ticks w) (w_binding w) (w_spans w)
    (f (w_providers w)) (w_global w) (w_diag w) (w_out w).
Definition set_global (g : option nat) (w : World) : World :=
  mkWorld (w_clock w) (w_ticks w) (w_binding w) (w_spans w) (w_providers w)
    g (w_diag w) (w_out w).
Definition set_diag (d : option (DiagLogger * DiagLogLevel)) (w : World)
    : World :=
  mkWorld (w_clock w) (w_ticks w) (w_binding w) (w_spans w) (w_providers w)
    (w_global w) d (w_out w).
Definition set_out (o : Output) (w : World) : World :=
  mkWorld (w_clock w) (w_ticks w) (w_binding w) (w_spans w) (w_providers w)
    (w_global w) (w_diag w) o.

(** A process that has not touched the tracing API. *)
Definition initial_world (now : Z) (ticks : list nat) (b : TracerBinding)
    : World :=
  mkWorld now ticks b [] [] None None (mkOutput [] []).

(** * The clock *)

(** [Date.now()]: the current time; the clock then moves by the next tick. *)
Definition Date_now : Eff World Z :=
  λ w, (w_clock w,
        set_clock (w_clock w + Z.of_nat (hd 0 (w_ticks w))) (tl (w_ticks w))
          w).

(** * Providers *)

(** [new BasicTracerProvider({ resource })]: a new provider object without
    processors. *)
Definition new_BasicTracerProvider (res : Attributes) : Eff World nat :=
  p ← gets (λ w, length (w_providers w));
  modify (set_providers (λ ps, ps ++ [mkProvider res []]));;
  mret p.

(** [provider.addSpanProcessor(processor)] *)
Definition addSpanProcessor (p : nat) (proc : SpanProcessor)
    : Eff World unit :=
  modify (set_providers
    (alter (λ prov,
       mkProvider (resource prov) (spanProcessors prov ++ [proc])) p)).

(** [diag.setLogger(logger, level)] *)
Definition diag_setLogger (logger : DiagLogger) (level : DiagLogLevel)
    : Eff World unit :=
  modify (set_diag (Some (logger, level))).

(** [provider.register()]: the provider becomes the active one, in place of
    whichever was. *)
Definition register (p : nat) : Eff World unit := modify (set_global (Some p)).

(** [trace.disable()]: no provider is active. *)
Definition trace_disable : Eff World unit := modify (set_global None).

(** [trace.getTracer(name)] *)
Definition getTracer (name : string) : Eff World Tracer :=
  gets (λ w,
    mkTracer name
      match w_binding w with
      | BindAtCreation => w_global w
      | BindAtCall => None
      end).

(** The provider a tracer handle starts spans for, if any. *)
Definition tracer_provider (tr : Tracer) (w : World) : option nat :=
  match tracer_delegate tr with
  | Some p => Some p
  | None => w_global w
  end.

(** Runs [f] over the processors of provider [p], in the order they were
    added, threading the output. *)
Definition with_processors (p : nat)
    (f : SpanProcessor → Eff Output SpanProcessor) : Eff World unit :=
  λ w,
    match w_providers w !! p with
    | Some prov =>
        let r := mapM f (spanProcessors prov) (w_out w) in
        (tt, set_out r.2
               (set_providers (<[p := mkProvider (resource prov) r.1]>) w))
    | None => (tt, w)
    end.

(** The timer of the batching processors of provider [p] fires; each
    exports a batch of [size] spans at most. *)
Definition batch_timer (p size : nat) : Eff World unit :=
  with_processors p (onTimer size).

(** * Spans *)

(** [tracer.startSpan(name, { startTime })]: a new open span owned by the
    tracer's provider, or a non-recording span when there is none. *)
Definition startSpan (tr : Tracer) (name : string) (startTime : Z)
    : Eff World nat :=
  owner ← gets (tracer_provider tr);
  h ← gets (λ w, length (w_spans w));
  modify (set_spans (λ l,
    l ++ [mkSpan name (tracer_name tr) owner startTime ∅ None]));;
  mret h.

(** [span.setAttributes(attrs)] on the span object [h]. *)
Definition span_setAttributes (h : nat) (attrs : Attributes)
    : Eff World unit :=
  modify (set_spans (alter (Span_setAttributes attrs) h)).

(** [span.end(endTime)] on the span object [h]: an open span is closed, at
    [endTime] or at the time the clock shows, and handed to the processors
    of its provider; on any other span the call does nothing. *)
Definition span_end (h : nat) (endTime : option Z) : Eff World unit :=
  s ← gets (λ w, w_spans w !! h);
  match s with
  | Some s =>
      match span_owner s, span_endTime s with
      | Some p, None =>
          t ← nullish_or endTime Date_now;
          modify (set_spans (alter (Span_end t) h));;
          with_processors p (onEnd (Span_end t s))
      | _, _ => mret tt
      end
  | None => mret tt
  end.

(** * Lemmas *)

(** The time [nullish_or t Date_now] yields, and the clock it leaves. *)
Definition time_or_now (t : option Z) (w : World) : Z := default (w_clock w) t.

Definition after_time (t : option Z) (w : World) : World :=
  match t with
  | Some _ => w
  | None =>
      set_clock (w_clock w + Z.of_nat (hd 0 (w_ticks w))) (tl (w_ticks w)) w
  end.

Section api_lemmas.
Implicit Types (w : World) (h p : nat) (s : Span) (tr : Tracer)
  (t : option Z).

Lemma eval_time_or_now t w : eval (nullish_or t Date_now) w = time_or_now t w.
Proof. by destruct t. Qed.

Lemma exec_time_or_now t w : exec (nullish_or t Date_now) w = after_time t w.
Proof. by destruct t. Qed.

Lemma after_time_spans t w : w_spans (after_time t w) = w_spans w.
Proof. by destruct t. Qed.

Lemma after_time_providers t w : w_providers (after_time t w) = w_providers w.
Proof. by destruct t. Qed.

Lemma after_time_global t w : w_global (after_time t w) = w_global w.
Proof. by destruct t. Qed.

Lemma after_time_out t w : w_out (after_time t w) = w_out w.
Proof. by destruct t. Qed.

Lemma after_time_binding t w : w_binding (after_time t w) = w_binding w.
Proof. by destruct t. Qed.

Lemma after_time_diag t w : w_diag (after_time t w) = w_diag w.
Proof. by destruct t. Qed.

Lemma tracer_provider_after_time tr t w :
  tracer_provider tr (after_time t w) = tracer_provider tr w.
Proof. unfold tracer_provider. by rewrite after_time_global. Qed.

(** ** [with_processors] *)

Lemma with_processors_spans p f w :
  w_spans (exec (with_processors p f) w) = w_spans w.
Proof.
  unfold exec, with_processors. by destruct (w_providers w !! p).
Qed.

Lemma with_processors_global p f w :
  w_global (exec (with_processors p f) w) = w_global w.
Proof.
  unfold exec, with_processors. by destruct (w_providers w !! p).
Qed.

Lemma with_processors_clock p f w :
  w_clock (exec (with_processors p f) w) = w_clock w
  ∧ w_ticks (exec (with_processors p f) w) = w_ticks w.
Proof.
  unfold exec, with_processors. by destruct (w_providers w !! p).
Qed.

Lemma with_processors_Some p f w prov :
  w_providers w !! p = Some prov →
  exec (with_processors p f) w
  = set_out (exec (mapM f (spanProcessors prov)) (w_out w))
      (set_providers
         (<[p := mkProvider (resource prov)
                   (eval (mapM f (spanProcessors prov)) (w_out w))]>) w).
Proof. intros H. unfold exec at 1, with_processors. by rewrite H. Qed.

Lemma with_processors_None p f w :
  w_providers w !! p = None → exec (with_processors p f) w = w.
Proof. intros H. unfold exec, with_processors. by rewrite H. Qed.

(** ** [startSpan] *)

Lemma startSpan_exec tr name start w :
  exec (startSpan tr name start) w
  = set_spans
      (λ l, l ++ [mkSpan name (tracer_name tr) (tracer_provider tr w) start
                    ∅ None]) w.
Proof. reflexivity. Qed.

(** ** [span_end] *)

Lemma span_end_not_open h t w :
  (∀ s, w_spans w !! h = Some s → span_live s = false) →
  exec (span_end h t) w = w.
Proof.
  intros H. unfold span_end. rewrite exec_bind, eval_gets, exec_gets.
  destruct (w_spans w !! h) as [s|] eqn:Hs; [|done].
  specialize (H s eq_refl). destruct (span_owner s) eqn:Ho; [|done].
  destruct (span_endTime s) eqn:He; [done|].
  assert (span_live s = true) by (apply span_live_spec; by rewrite Ho).
  congruence.
Qed.

Lemma span_end_open h t w s p :
  w_spans w !! h = Some s → span_owner s = Some p → span_endTime s = None →
  exec (span_end h t) w
  = exec (with_processors p (onEnd (Span_end (time_or_now t w) s)))
      (set_spans (alter (Span_end (time_or_now t w)) h) (after_time t w)).
Proof.
  intros Hs Ho He. unfold span_end.
  rewrite exec_bind, eval_gets, exec_gets, Hs, Ho, He.
  by rewrite !exec_bind, eval_time_or_now, exec_time_or_now.
Qed.

Lemma span_end_spans h t w :
  w_spans (exec (span_end h t) w)
  = alter (Span_end (time_or_now t w)) h (w_spans w).
Proof.
  destruct (w_spans w !! h) as [s|] eqn:Hs.
  - destruct (span_live s) eqn:Hl.
    + apply span_live_spec in Hl as [[p Hp] He].
      rewrite (span_end_open h t w s p) by done.
      rewrite with_processors_spans. cbn. by rewrite after_time_spans.
    + rewrite span_end_not_open by (intros; congruence).
      symmetry. apply alter_fixed_point with s; [done|].
      by apply (Span_apply_not_live (CallEnd _)).
  - rewrite span_end_not_open by (intros; congruence).
    symmetry. apply alter_out_of_range. by apply lookup_ge_None.
Qed.

(** Reading the clock and changing the spans commute. *)
Lemma after_time_set_spans t f w :
  after_time t (set_spans f w) = set_spans f (after_time t w).
Proof. by destruct t. Qed.

Lemma time_or_now_set_spans t f w :
  time_or_now t (set_spans f w) = time_or_now t w.
Proof. by destruct t. Qed.

(** A reading depends on the clock alone. *)
Lemma time_or_now_clock t w w' :
  w_clock w = w_clock w' → time_or_now t w = time_or_now t w'.
Proof. intros H. unfold time_or_now. by rewrite H. Qed.

Lemma after_time_clock t w w' :
  w_clock w = w_clock w' → w_ticks w = w_ticks w' →
  w_clock (after_time t w) = w_clock (after_time t w')
  ∧ w_ticks (after_time t w) = w_ticks (after_time t w').
Proof. intros Hc Hk. destruct t; cbn; by rewrite ?Hc, ?Hk. Qed.

(** What ending an open span does to the whole world, when its provider
    exists. *)
Lemma span_end_open_world h t w s p prov :
  w_spans w !! h = Some s → span_owner s = Some p → span_endTime s = None →
  w_providers w !! p = Some prov →
  let s' := Span_end (time_or_now t w) s in
  let procs := mapM (onEnd s') (spanProcessors prov) in
  exec (span_end h t) w
  = set_out (exec procs (w_out w))
      (set_providers
         (<[p := mkProvider (resource prov) (eval procs (w_out w))]>)
         (set_spans (alter (Span_end (time_or_now t w)) h)
            (after_time t w))).
Proof.
  intros Hs Ho He Hp s' procs. rewrite (span_end_open h t w s p) by done.
  rewrite (with_processors_Some _ _ _ prov).
  - cbn. by rewrite after_time_out.
  - cbn. by rewrite after_time_providers.
Qed.

(** Which provider is registered does not matter to the processors nor to
    a span that ends. *)
Lemma with_processors_set_global p f g w :
  exec (with_processors p f) (set_global g w)
  = set_global g (exec (with_processors p f) w).
Proof.
  unfold exec, with_processors; cbn. by destruct (w_providers w !! p).
Qed.

Lemma span_end_set_global h t g w :
  exec (span_end h t) (set_global g w) = set_global g (exec (span_end h t) w).
Proof.
  unfold span_end. rewrite !exec_bind, !eval_gets, !exec_gets.
  cbn [w_spans set_global]. destruct (w_spans w !! h) as [s|]; [|done].
  destruct (span_owner s), (span_endTime s); try done.
  rewrite !exec_bind, !eval_time_or_now, !exec_time_or_now, !exec_modify.
  destruct t; cbn.
  - exact (with_processors_set_global _ _ g (set_spans _ w)).
  - exact (with_processors_set_global _ _ g
             (set_spans _ (set_clock _ _ w))).
Qed.

Lemma span_end_global h t w : w_global (exec (span_end h t) w) = w_global w.
Proof.
  destruct (w_spans w !! h) as [s|] eqn:Hs.
  - destruct (span_live s) eqn:Hl.
    + apply span_live_spec in Hl as [[p Hp] He].
      rewrite (span_end_open h t w s p) by done.
      rewrite with_processors_global. cbn. by rewrite after_time_global.
    + by rewrite span_end_not_open by (intros; congruence).
  - by rewrite span_end_not_open by (intros; congruence).
Qed.

End api_lemmas.

#[export] Hint Rewrite eval_time_or_now exec_time_or_now after_time_spans
  after_time_providers after_time_global after_time_out after_time_binding
  after_time_diag tracer_provider_after_time with_processors_spans
  with_processors_global span_end_spans span_end_global : eff.
