(* ===== verification/Provider.v ===== *)
(** The adapter: class [OpenTelemetryProvider] of
    src/src/telemetry/openTelemetryProvider.ts, method by method.

    [constructor] builds the resource and the pipeline and registers the
    provider (lines 20-54); [dispose] disables the registered provider
    (56-58); [sendEvent] makes, annotates and closes a span (60-67);
    [startEvent] makes and annotates a span and returns it open (69-76);
    [setGlobalAttributes] replaces the record of global attributes (90-92).
    The theorems give the behaviour of each method on every branch. *)

From stdpp Require Import base gmap strings list fin_maps.
From S2P Require Import Prelude Attributes Spans Pipeline TraceApi.

#[local] Open Scope string_scope.
#[local] Open Scope list_scope.

(** * Data *)

(** The fields of the [TelemetryContext] the constructor reads
    (lines 24-33 and 53). *)
Record TelemetryContext : Type := mkContext {
  env : string;
  extensionId : string;
  extensionVersion : string;
  machineId : string;
  sessionId : string;
  language : string;
  platform : string;
  vscodeEdition : string;
  vscodeHost : string;
  vscodeVersion : string;
}.

(** The private fields of the class (lines 17-18). *)
Record OpenTelemetryProvider : Type := mkOpenTelemetryProvider {
  _globalAttributes : Attributes;
  tracer : Tracer;
}.

(** The keys of [SemanticResourceAttributes] the constructor uses
    (lines 23-27). *)
Inductive SemanticResourceAttributes : Type :=
  | SERVICE_NAME
  | SERVICE_VERSION
  | DEPLOYMENT_ENVIRONMENT
  | DEVICE_ID
  | OS_TYPE.

(** The attribute name each key stands for. *)
Definition semantic_key (k : SemanticResourceAttributes) : string :=
  match k with
  | SERVICE_NAME => "service.name"
  | SERVICE_VERSION => "service.version"
  | DEPLOYMENT_ENVIRONMENT => "deployment.environment"
  | DEVICE_ID => "device.id"
  | OS_TYPE => "os.type"
  end.

(** * The constructor *)

(** The object literal given to [new Resource] (lines 22-34): its
    properties are defined in the order they are written. *)
Definition resource_attributes (context : TelemetryContext) : Attributes :=
  fromEntries [
    (semantic_key SERVICE_NAME, AVString "gitlens");
    (semantic_key SERVICE_VERSION, AVString (extensionVersion context));
    (semantic_key DEPLOYMENT_ENVIRONMENT, AVString (env context));
    (semantic_key DEVICE_ID, AVString (machineId context));
    (semantic_key OS_TYPE, AVString (platform context));
    ("extension.id", AVString (extensionId context));
    ("session.id", AVString (sessionId context));
    ("language", AVString (language context));
    ("vscode.edition", AVString (vscodeEdition context));
    ("vscode.version", AVString (vscodeVersion context));
    ("vscode.host", AVString (vscodeHost context))
  ].

(** The string literals of the exporter's options (lines 44-46). *)
Definition dev_endpoint : string :=
  "https://otel-dev.gitkraken.com:4318/v1/traces".

Definition production_endpoint : string :=
  "https://otel.gitkraken.com:4318/v1/traces".

Definition exporter_compression : string := "gzip".

(** The endpoint the exporter targets (lines 43-45). *)
Definition exporter_url (debugging : option bool) : string :=
  if truthy debugging then dev_endpoint else production_endpoint.

(** [new OTLPTraceExporter({ url, compression, httpAgentOptions })]
    (lines 42-48); [agent?.options] is absent when the agent is. *)
Definition new_exporter (agent : option HttpsProxyAgent)
    (debugging : option bool) : SpanExporter :=
  OTLPTraceExporter
    (mkOTLPConfig (exporter_url debugging) exporter_compression
       (options <$> agent)).

(** The processor attached to the network exporter (line 49). *)
Definition exporter_processor (debugging : option bool)
    (exporter : SpanExporter) : SpanProcessor :=
  if truthy debugging
  then SimpleSpanProcessor exporter
  else BatchSpanProcessor exporter [].

(** The debugging branch (lines 37-40). *)
Definition enable_debugging (provider : nat) : Eff World unit :=
  diag_setLogger DiagConsoleLogger VERBOSE;;
  addSpanProcessor provider (SimpleSpanProcessor ConsoleSpanExporter).

(** [new OpenTelemetryProvider(context, agent, debugging)] (lines 20-54),
    with the field initialiser of line 17. *)
Definition constructor (context : TelemetryContext)
    (agent : option HttpsProxyAgent) (debugging : option bool)
    : Eff World OpenTelemetryProvider :=
  provider ← new_BasicTracerProvider (resource_attributes context);
  when (truthy debugging) (enable_debugging provider);;
  let exporter := new_exporter agent debugging in
  addSpanProcessor provider (exporter_processor debugging exporter);;
  register provider;;
  tracer ← getTracer (extensionId context);
  mret (mkOpenTelemetryProvider ∅ tracer).

(** * The methods *)

(** [dispose()] (lines 56-58) *)
Definition dispose (this : OpenTelemetryProvider) : Eff World unit :=
  trace_disable.

(** [this.tracer.startSpan(name, { startTime: startTime ?? Date.now() })]
    (lines 61 and 70) *)
Definition start_span (this : OpenTelemetryProvider) (name : string)
    (startTime : option Z) : Eff World nat :=
  t ← nullish_or startTime Date_now;
  startSpan (tracer this) name t.

(** The attributes of an event: the global attributes, then [data] when it
    is given (lines 62-65 and 71-74). *)
Definition set_event_attributes (this : OpenTelemetryProvider) (span : nat)
    (data : option Attributes) : Eff World unit :=
  span_setAttributes span (_globalAttributes this);;
  match data with
  | Some data => span_setAttributes span data
  | None => mret tt
  end.

(** [sendEvent(name, data?, startTime?, endTime?)] (lines 60-67) *)
Definition sendEvent (this : OpenTelemetryProvider) (name : string)
    (data : option Attributes) (startTime endTime : option Z)
    : Eff World unit :=
  span ← start_span this name startTime;
  set_event_attributes this span data;;
  span_end span endTime.

(** [startEvent(name, data?, startTime?)] (lines 69-76) *)
Definition startEvent (this : OpenTelemetryProvider) (name : string)
    (data : option Attributes) (startTime : option Z) : Eff World nat :=
  span ← start_span this name startTime;
  set_event_attributes this span data;;
  mret span.

(** [setGlobalAttributes(attributes)] (lines 90-92): [attributes] is a
    [Map], given by its entries in insertion order. *)
Definition setGlobalAttributes (this : OpenTelemetryProvider)
    (attributes : list Entry) : OpenTelemetryProvider :=
  mkOpenTelemetryProvider (fromEntries attributes) (tracer this).

(** * Vocabulary of the theorems *)

(** The configuration of the network exporter in each mode. *)
Definition dev_config (agent : option HttpsProxyAgent) : OTLPExporterConfig :=
  mkOTLPConfig "https://otel-dev.gitkraken.com:4318/v1/traces" "gzip"
    (options <$> agent).

Definition production_config (agent : option HttpsProxyAgent)
    : OTLPExporterConfig :=
  mkOTLPConfig "https://otel.gitkraken.com:4318/v1/traces" "gzip"
    (options <$> agent).

(** The processors a provider is expected to have after construction, in
    the order they see a span: in debugging mode the console and then the
    development endpoint, each at once; otherwise the production endpoint,
    in batches. *)
Definition pipeline (agent : option HttpsProxyAgent)
    (debugging : option bool) : list SpanProcessor :=
  if truthy debugging
  then [SimpleSpanProcessor ConsoleSpanExporter;
        SimpleSpanProcessor (OTLPTraceExporter (dev_config agent))]
  else [BatchSpanProcessor (OTLPTraceExporter (production_config agent)) []].

(** The world expected after
    [new OpenTelemetryProvider(context, agent, debugging)]: one more
    provider object, with the resource of the context and the pipeline of
    the mode; that provider registered; the diagnostic logger set in
    debugging mode only. *)
Definition constructed_world (context : TelemetryContext)
    (agent : option HttpsProxyAgent) (debugging : option bool) (w : World)
    : World :=
  set_global (Some (length (w_providers w)))
    (set_diag
       (if truthy debugging then Some (DiagConsoleLogger, VERBOSE)
        else w_diag w)
       (set_providers
          (λ ps, ps ++ [mkProvider (resource_attributes context)
                          (pipeline agent debugging)]) w)).

(** The attributes an event carries: [data] over the global attributes. *)
Definition event_attributes (this : OpenTelemetryProvider)
    (data : option Attributes) : Attributes :=
  default ∅ data ∪ _globalAttributes this.

(** The span of an event, still open: recorded for the provider [owner], or
    not recorded at all. *)
Definition event_span (this : OpenTelemetryProvider) (name : string)
    (data : option Attributes) (start : Z) (owner : option nat) : Span :=
  mkSpan name (tracer_name (tracer this)) owner start
    (match owner with
     | Some _ => event_attributes this data
     | None => ∅
     end) None.

(** An open span after lines 62-65. *)
Definition annotated (this : OpenTelemetryProvider)
    (data : option Attributes) (s : Span) : Span :=
  mkSpan (span_name s) (span_scope s) (span_owner s) (span_startTime s)
    (default ∅ data ∪ (_globalAttributes this ∪ span_attributes s))
    (span_endTime s).

(** The same span once closed at [finish]. *)
Definition sent_span (this : OpenTelemetryProvider) (name : string)
    (data : option Attributes) (start finish : Z) (p : nat) : Span :=
  mkSpan name (tracer_name (tracer this)) (Some p) start
    (event_attributes this data) (Some finish).

(** The attributes of the span made last. *)
Definition last_attributes (w : World) : Attributes :=
  default ∅ (span_attributes <$> last (w_spans w)).

(** The span a tracer without provider makes: it records nothing. *)
Definition unrecorded_span (this : OpenTelemetryProvider) (name : string)
    (start : Z) : Span :=
  mkSpan name (tracer_name (tracer this)) None start ∅ None.

(** The first event of a new adapter, which has no global attribute yet:
    recorded for the provider the constructor made in [w]. *)
Definition first_span (context : TelemetryContext) (name : string)
    (data : option Attributes) (start finish : Z) (w : World) : Span :=
  mkSpan name (extensionId context) (Some (length (w_providers w))) start
    (default ∅ data) (Some finish).

(** * A concrete process, for the instances of the theorems *)

Definition demo_context : TelemetryContext :=
  mkContext "production" "eamodio.gitlens" "14.0.0" "machine-1" "session-1"
    "en" "linux" "stable" "desktop" "1.80.0".

(** A process whose clock shows 1000 and then moves by 3, 5 and 7. *)
Definition demo_start (b : TracerBinding) : World :=
  initial_world 1000 [3; 5; 7] b.

Definition demo_this (debugging : option bool) (b : TracerBinding)
    : OpenTelemetryProvider :=
  eval (constructor demo_context None debugging) (demo_start b).

Definition demo_world (debugging : option bool) (b : TracerBinding) : World :=
  exec (constructor demo_context None debugging) (demo_start b).

(** The adapter of a production process whose tracer looks the provider up
    at each call, the world it leaves, and its provider. *)
Definition demo_adapter : OpenTelemetryProvider := demo_this None BindAtCall.

Definition demo_process : World := demo_world None BindAtCall.

Definition demo_provider : BasicTracerProvider :=
  mkProvider (resource_attributes demo_context) (pipeline None None).

Definition demo_data : Attributes :=
  {[ "repository.count" := AVNumber 2; "plan" := AVString "pro" ]}.

Definition demo_globals : list Entry :=
  [("plan", AVString "free"); ("account.verified", AVBool true)].

(** * The constructor *)

Section construction.
Implicit Types (context : TelemetryContext)
  (agent : option HttpsProxyAgent) (debugging : option bool) (w : World).

Lemma constructor_exec context agent debugging w :
  exec (constructor context agent debugging) w
  = constructed_world context agent debugging w.
Proof.
  unfold constructor, constructed_world, pipeline, enable_debugging,
    exporter_processor, new_exporter, exporter_url, dev_config,
    production_config, new_BasicTracerProvider, addSpanProcessor, register,
    getTracer, diag_setLogger.
  destruct (truthy debugging); autorewrite with eff;
    unfold set_global, set_diag, set_providers; cbn;
    by rewrite ?alter_alloc_new.
Qed.

Lemma constructor_eval context agent debugging w :
  eval (constructor context agent debugging) w
  = mkOpenTelemetryProvider ∅
      (mkTracer (extensionId context)
         match w_binding w with
         | BindAtCreation => Some (length (w_providers w))
         | BindAtCall => None
         end).
Proof.
  unfold constructor, enable_debugging, new_BasicTracerProvider,
    addSpanProcessor, register, getTracer, diag_setLogger.
  destruct (truthy debugging); by autorewrite with eff.
Qed.

(** C3: the constructor returns an adapter without global attributes whose
    tracer is named after the extension, and leaves the world with one more
    provider, registered as the active one: it has the context's resource;
    in debugging mode the verbose console logger is set and the provider
    prints each span and sends it to the development endpoint at once;
    otherwise the provider batches spans for the production endpoint;
    requests are gzip-compressed and carry the agent's options.  Spans,
    output and clock are left alone. *)
Theorem constructor_spec context agent debugging w :
  constructor context agent debugging w
  = (mkOpenTelemetryProvider ∅
       (mkTracer (extensionId context)
          match w_binding w with
          | BindAtCreation => Some (length (w_providers w))
          | BindAtCall => None
          end),
     constructed_world context agent debugging w).
Proof.
  by rewrite (eff_run_eq (constructor _ _ _)), constructor_eval,
    constructor_exec.
Qed.

(** The tracer of a new adapter starts spans for the new provider,
    whatever the binding policy. *)
Lemma constructor_tracer_provider context agent debugging w :
  tracer_provider (tracer (eval (constructor context agent debugging) w))
    (exec (constructor context agent debugging) w)
  = Some (length (w_providers w)).
Proof.
  rewrite constructor_eval, constructor_exec. unfold tracer_provider.
  cbn. by destruct (w_binding w).
Qed.

Lemma constructor_provider context agent debugging w :
  w_providers (exec (constructor context agent debugging) w)
    !! length (w_providers w)
  = Some (mkProvider (resource_attributes context)
            (pipeline agent debugging)).
Proof. rewrite constructor_exec. cbn. apply lookup_alloc. Qed.

(** Without debugging the pipeline is one batching processor. *)
Lemma production_pipeline agent debugging :
  truthy debugging = false →
  pipeline agent debugging
  = [BatchSpanProcessor (OTLPTraceExporter (production_config agent)) []].
Proof. intros Hd. unfold pipeline. by rewrite Hd. Qed.

(** C6: the resource names the service "gitlens" and maps each field of
    the context to its key; no two keys collide, so the resource has
    exactly these eleven attributes. *)
Theorem resource_attributes_spec context :
  map_to_list (resource_attributes context)
  ≡ₚ [("service.name", AVString "gitlens");
      ("service.version", AVString (extensionVersion context));
      ("deployment.environment", AVString (env context));
      ("device.id", AVString (machineId context));
      ("os.type", AVString (platform context));
      ("extension.id", AVString (extensionId context));
      ("session.id", AVString (sessionId context));
      ("language", AVString (language context));
      ("vscode.edition", AVString (vscodeEdition context));
      ("vscode.version", AVString (vscodeVersion context));
      ("vscode.host", AVString (vscodeHost context))].
Proof.
  unfold resource_attributes. rewrite fromEntries_wf.
  - apply map_to_list_to_map. compute_done.
  - unfold Map_wf. compute_done.
Qed.

End construction.

(** * Annotating a span *)

(** [sendEvent] is [startEvent] followed by [span.end(endTime)]. *)
Ltac sendEvent_as_startEvent :=
  change (exec (sendEvent ?this ?name ?data ?st ?en) ?w)
    with (exec (span_end (eval (startEvent this name data st) w) en)
            (exec (startEvent this name data st) w)).

Section events.
Implicit Types (this : OpenTelemetryProvider) (name : string)
  (data : option Attributes) (st en : option Z) (w : World) (p h : nat)
  (s : Span).

Lemma start_span_eval this name st w :
  eval (start_span this name st) w = length (w_spans w).
Proof. unfold start_span, startSpan. by autorewrite with eff. Qed.

Lemma start_span_exec this name st w :
  exec (start_span this name st) w
  = set_spans
      (λ l, l ++ [mkSpan name (tracer_name (tracer this))
                    (tracer_provider (tracer this) w) (time_or_now st w)
                    ∅ None])
      (after_time st w).
Proof. unfold start_span, startSpan. by autorewrite with eff. Qed.

(** On an open span, lines 62-65 assign the global attributes and then
    [data]. *)
Lemma set_event_attributes_open this h data w s :
  w_spans w !! h = Some s → span_live s = true →
  exec (set_event_attributes this h data) w
  = set_spans (<[h := annotated this data s]>) w.
Proof.
  intros Hs Hl. unfold set_event_attributes, span_setAttributes.
  assert (span_live (Span_setAttributes (_globalAttributes this) s) = true)
    as Hl'.
  { apply span_live_Open. rewrite Span_setAttributes_phase.
    by apply span_live_Open. }
  destruct data as [d|]; autorewrite with eff; unfold set_spans; cbn;
    f_equal; rewrite ?list_alter_alter_eq;
    rewrite (alter_lookup_insert _ _ _ s) by done; f_equal; cbn.
  - rewrite (Span_setAttributes_live d) by done.
    by rewrite Span_setAttributes_live.
  - rewrite Span_setAttributes_live by done. unfold annotated. cbn.
    by rewrite (left_id_L ∅ (∪)).
Qed.

(** Where every call of [setAttributes] leaves the span heap as it is,
    lines 62-65 change nothing. *)
Lemma set_event_attributes_fixed this h data w :
  (∀ a, alter (Span_setAttributes a) h (w_spans w) = w_spans w) →
  exec (set_event_attributes this h data) w = w.
Proof.
  intros Ha. unfold set_event_attributes, span_setAttributes.
  destruct data as [d|]; autorewrite with eff; unfold set_spans; cbn;
    rewrite !Ha; by destruct w.
Qed.

Lemma set_event_attributes_not_open this h data w s :
  w_spans w !! h = Some s → span_live s = false →
  exec (set_event_attributes this h data) w = w.
Proof.
  intros Hs Hl. apply set_event_attributes_fixed. intros a.
  apply alter_fixed_point with s; [done|].
  by apply (Span_apply_not_live (CallSetAttributes a)).
Qed.

(** C4: lines 62-65 assign the global attributes and then [data] on an
    open span: a key of [data] takes the value [data] gives it, any other
    key of the global attributes the global value, and the span's other
    attributes stay.  A span that is closed or records nothing is left as
    it is.  No other span and nothing else in the world changes. *)
Theorem set_event_attributes_spec this h data w :
  exec (set_event_attributes this h data) w
  = match w_spans w !! h with
    | Some s =>
        if span_live s then set_spans (<[h := annotated this data s]>) w
        else w
    | None => w
    end.
Proof.
  destruct (w_spans w !! h) as [s|] eqn:Hs; [destruct (span_live s) eqn:Hl|].
  - by apply set_event_attributes_open.
  - by apply set_event_attributes_not_open with s.
  - apply set_event_attributes_fixed. intros a.
    apply alter_out_of_range. by apply lookup_ge_None.
Qed.

Lemma annotated_new_span this name data start p :
  annotated this data
    (mkSpan name (tracer_name (tracer this)) (Some p) start ∅ None)
  = event_span this name data start (Some p).
Proof.
  unfold annotated, event_span, event_attributes. cbn.
  by rewrite (right_id_L ∅ (∪)).
Qed.

Lemma event_span_end this name data start finish p :
  Span_end finish (event_span this name data start (Some p))
  = sent_span this name data start finish p.
Proof. reflexivity. Qed.

(** The attributes of an event: a key of [data] has the value [data]
    gives it, any other key the value the global attributes give it. *)
Lemma event_attributes_lookup this data k :
  event_attributes this data !! k
  = match data ≫= (.!! k) with
    | Some v => Some v
    | None => _globalAttributes this !! k
    end.
Proof.
  unfold event_attributes. rewrite lookup_union.
  destruct data as [d|]; cbn.
  - by destruct (d !! k), (_globalAttributes this !! k).
  - rewrite lookup_empty. by destruct (_globalAttributes this !! k).
Qed.
End events.

(** * [startEvent] and [sendEvent] *)

Section methods.
Implicit Types (this : OpenTelemetryProvider) (name : string)
  (data : option Attributes) (st en : option Z) (w : World) (p h : nat).

Lemma startEvent_eval this name data st w :
  eval (startEvent this name data st) w = length (w_spans w).
Proof. unfold startEvent. autorewrite with eff. apply start_span_eval. Qed.

Lemma startEvent_exec this name data st w :
  exec (startEvent this name data st) w
  = set_spans
      (λ l, l ++ [event_span this name data (time_or_now st w)
                    (tracer_provider (tracer this) w)])
      (after_time st w).
Proof.
  unfold startEvent.
  rewrite !exec_bind, exec_ret, start_span_eval, start_span_exec.
  destruct (tracer_provider (tracer this) w) as [p|] eqn:Hp.
  - erewrite set_event_attributes_open;
      [|cbn; rewrite after_time_spans; apply lookup_alloc|done].
    unfold set_spans; cbn. rewrite !after_time_spans.
    rewrite list_insert_alter, alter_alloc_new.
    by rewrite annotated_new_span.
  - erewrite set_event_attributes_not_open;
      [done|cbn; rewrite after_time_spans; apply lookup_alloc|done].
Qed.

(** C2: [startEvent] returns the handle of the span it makes, the next
    free cell of the span heap, and appends that span, open: it carries
    [data] over the global attributes when the tracer has a provider and
    nothing otherwise, and starts at [startTime] or at the time of the
    call.  The clock is read at most once and nothing else changes: no
    processor sees the span and nothing is exported. *)
Theorem startEvent_spec this name data st w :
  startEvent this name data st w
  = (length (w_spans w),
     set_spans
       (λ l, l ++ [event_span this name data (time_or_now st w)
                     (tracer_provider (tracer this) w)])
       (after_time st w)).
Proof.
  by rewrite (eff_run_eq (startEvent _ _ _ _)), startEvent_eval,
    startEvent_exec.
Qed.

(** When the tracer has a provider, [sendEvent] appends the closed span of
    the event and hands it to the processors of that provider. *)
Lemma sendEvent_recorded this name data st en w p :
  tracer_provider (tracer this) w = Some p →
  let s := sent_span this name data (time_or_now st w)
             (time_or_now en (after_time st w)) p in
  exec (sendEvent this name data st en) w
  = exec (with_processors p (onEnd s))
      (set_spans (λ l, l ++ [s]) (after_time en (after_time st w))).
Proof.
  intros Ht s. sendEvent_as_startEvent.
  rewrite startEvent_eval, startEvent_exec, Ht.
  erewrite span_end_open; cycle 1.
  - cbn. rewrite after_time_spans. apply lookup_alloc.
  - done.
  - done.
  - rewrite time_or_now_set_spans, after_time_set_spans, event_span_end.
    unfold set_spans; cbn.
    by rewrite !after_time_spans, alter_alloc_new, event_span_end.
Qed.

(** When the tracer has no provider, the span [sendEvent] makes records
    nothing and is never closed. *)
Lemma sendEvent_not_recorded this name data st en w :
  tracer_provider (tracer this) w = None →
  exec (sendEvent this name data st en) w
  = set_spans (λ l, l ++ [unrecorded_span this name (time_or_now st w)])
      (after_time st w).
Proof.
  intros Ht. sendEvent_as_startEvent.
  rewrite startEvent_eval, startEvent_exec, Ht.
  apply span_end_not_open. intros s. cbn.
  rewrite after_time_spans, lookup_alloc. by intros [= <-].
Qed.

(** C1: [sendEvent] on every branch.  When the tracer has a provider, the
    call appends one closed span (the name, the start time, [data] over
    the global attributes, the end time) and hands it to each processor of
    the provider, in the order they were added; the clock is read first
    for the start and then for the end, each only when the time is not
    given.  When the tracer has no provider (none was registered, or the
    registered one was disabled and the handle is bound at each call), the
    span records nothing and stays open, no processor sees it, and the
    clock is read for the start time only. *)
Theorem sendEvent_spec this name data st en w :
  exec (sendEvent this name data st en) w
  = match tracer_provider (tracer this) w with
    | Some p =>
        let s := sent_span this name data (time_or_now st w)
                   (time_or_now en (after_time st w)) p in
        exec (with_processors p (onEnd s))
          (set_spans (λ l, l ++ [s]) (after_time en (after_time st w)))
    | None =>
        set_spans (λ l, l ++ [unrecorded_span this name (time_or_now st w)])
          (after_time st w)
    end.
Proof.
  destruct (tracer_provider (tracer this) w) as [p|] eqn:Ht.
  - by apply sendEvent_recorded.
  - by apply sendEvent_not_recorded.
Qed.

(** The same with the processors of the provider in sight. *)
Lemma sendEvent_world this name data st en w p prov :
  tracer_provider (tracer this) w = Some p →
  w_providers w !! p = Some prov →
  let s := sent_span this name data (time_or_now st w)
             (time_or_now en (after_time st w)) p in
  let procs := mapM (onEnd s) (spanProcessors prov) in
  exec (sendEvent this name data st en) w
  = set_out (exec procs (w_out w))
      (set_providers
         (<[p := mkProvider (resource prov) (eval procs (w_out w))]>)
         (set_spans (λ l, l ++ [s]) (after_time en (after_time st w)))).
Proof.
  intros Ht Hp s procs. rewrite sendEvent_recorded with (p := p) by done.
  rewrite (with_processors_Some _ _ _ prov)
    by (cbn; by rewrite !after_time_providers).
  cbn. by rewrite !after_time_out.
Qed.

Lemma sendEvent_spans this name data st en w p :
  tracer_provider (tracer this) w = Some p →
  w_spans (exec (sendEvent this name data st en) w)
  = w_spans w
    ++ [sent_span this name data (time_or_now st w)
          (time_or_now en (after_time st w)) p].
Proof.
  intros Ht. rewrite sendEvent_recorded with (p := p) by done.
  rewrite with_processors_spans. cbn. by rewrite !after_time_spans.
Qed.

Lemma sendEvent_last_attributes this name data st en w p :
  tracer_provider (tracer this) w = Some p →
  last_attributes (exec (sendEvent this name data st en) w)
  = event_attributes this data.
Proof.
  intros Ht. unfold last_attributes.
  by rewrite sendEvent_spans with (p := p), last_snoc.
Qed.


(** The clock after [sendEvent] has recorded an event. *)
Lemma sendEvent_clock this name data st en w p :
  tracer_provider (tracer this) w = Some p →
  w_clock (exec (sendEvent this name data st en) w)
  = w_clock (after_time en (after_time st w))
  ∧ w_ticks (exec (sendEvent this name data st en) w)
    = w_ticks (after_time en (after_time st w)).
Proof.
  intros Ht. rewrite sendEvent_recorded with (p := p) by done.
  apply (with_processors_clock p _ (set_spans _ _)).
Qed.

Lemma sendEvent_global this name data st en w :
  w_global (exec (sendEvent this name data st en) w) = w_global w.
Proof.
  sendEvent_as_startEvent.
  rewrite span_end_global, startEvent_exec. cbn. apply after_time_global.
Qed.

Lemma sendEvent_tracer_provider this name data st en w :
  tracer_provider (tracer this) (exec (sendEvent this name data st en) w)
  = tracer_provider (tracer this) w.
Proof. unfold tracer_provider. by rewrite sendEvent_global. Qed.

(** C28: [sendEvent] leaves every span that existed before the call as it
    was: the attributes of one event never reach another span. *)
Theorem sendEvent_other_spans this name data st en w h :
  h < length (w_spans w) →
  w_spans (exec (sendEvent this name data st en) w) !! h = w_spans w !! h.
Proof.
  intros Hh. sendEvent_as_startEvent. rewrite span_end_spans.
  rewrite startEvent_eval, startEvent_exec. cbn.
  rewrite after_time_spans, list_lookup_alter_ne by lia.
  by apply lookup_alloc_old.
Qed.

(** C27: on the span [sendEvent] records, [data] wins over the global
    attributes key by key. *)
Theorem sendEvent_attribute this name data st en w p k :
  tracer_provider (tracer this) w = Some p →
  last_attributes (exec (sendEvent this name data st en) w) !! k
  = match data ≫= (.!! k) with
    | Some v => Some v
    | None => _globalAttributes this !! k
    end.
Proof.
  intros Ht. rewrite sendEvent_last_attributes with (p := p) by done.
  apply event_attributes_lookup.
Qed.

(** C32: with no explicit times, the span starts at the time of the call and
    ends at the next reading of the clock: its duration is the tick
    between the two readings, which is never negative, and the clock has
    been read twice. *)
Theorem sendEvent_default_times this name data w p :
  tracer_provider (tracer this) w = Some p →
  let tick := Z.of_nat (hd 0 (w_ticks w)) in
  let w' := exec (sendEvent this name data None None) w in
  last (w_spans w')
  = Some (sent_span this name data (w_clock w) (w_clock w + tick) p)
  ∧ (0 ≤ tick)%Z
  ∧ w_ticks w' = drop 2 (w_ticks w).
Proof.
  intros Ht tick w'. unfold w'.
  destruct (sendEvent_clock this name data None None w p Ht) as [_ ->].
  rewrite sendEvent_spans with (p := p) by done.
  split_and!; [apply last_snoc|lia|].
  cbn. by destruct (w_ticks w) as [|? [|??]].
Qed.

(** C33: with explicit times, the span carries them as given and the clock is
    not read; the end time is not compared with the start time, so a span
    may end before it starts. *)
Theorem sendEvent_explicit_times this name data start finish w p :
  tracer_provider (tracer this) w = Some p →
  let w' := exec (sendEvent this name data (Some start) (Some finish)) w in
  last (w_spans w') = Some (sent_span this name data start finish p)
  ∧ w_clock w' = w_clock w ∧ w_ticks w' = w_ticks w.
Proof.
  intros Ht w'. unfold w'.
  destruct (sendEvent_clock this name data (Some start) (Some finish) w p Ht)
    as [-> ->].
  rewrite sendEvent_spans with (p := p) by done.
  split_and!; [apply last_snoc|done|done].
Qed.
End methods.

(** * Instances on the concrete process *)

Lemma sendEvent_attribute_witness :
  tracer_provider (tracer (setGlobalAttributes demo_adapter demo_globals))
    demo_process = Some 0
  ∧ last_attributes
      (exec (sendEvent (setGlobalAttributes demo_adapter demo_globals)
               "commit" (Some demo_data) None None) demo_process) !! "plan"
    = Some (AVString "pro").
Proof.
  split; [reflexivity|].
  etrans; [apply (sendEvent_attribute _ _ _ _ _ demo_process 0); reflexivity|].
  vm_compute. reflexivity.
Defined.

Lemma sendEvent_other_spans_witness :
  0 < length (w_spans (exec (startEvent demo_adapter "clone" None None)
                         demo_process))
  ∧ w_spans (exec (sendEvent demo_adapter "commit" (Some demo_data) None None)
               (exec (startEvent demo_adapter "clone" None None)
                  demo_process)) !! 0
    = w_spans (exec (startEvent demo_adapter "clone" None None) demo_process)
        !! 0.
Proof.
  assert (0 < length (w_spans (exec (startEvent demo_adapter "clone" None
                                       None) demo_process)))
    as H by (vm_compute; lia).
  split; [exact H|]. apply sendEvent_other_spans, H.
Defined.

Lemma sendEvent_default_times_witness :
  tracer_provider (tracer demo_adapter) demo_process = Some 0
  ∧ last (w_spans (exec (sendEvent demo_adapter "commit" None None None)
                     demo_process))
    = Some (sent_span demo_adapter "commit" None 1000 1003 0).
Proof.
  split; [reflexivity|].
  apply (sendEvent_default_times demo_adapter "commit" None demo_process 0
           eq_refl).
Defined.

(** An event that ends 500 ms before it starts is recorded as given. *)
Lemma sendEvent_explicit_times_witness :
  tracer_provider (tracer demo_adapter) demo_process = Some 0
  ∧ last (w_spans (exec (sendEvent demo_adapter "commit" None (Some 2000%Z)
                           (Some 1500%Z)) demo_process))
    = Some (sent_span demo_adapter "commit" None 2000 1500 0).
Proof.
  split; [reflexivity|].
  apply (sendEvent_explicit_times demo_adapter "commit" None 2000 1500
           demo_process 0 eq_refl).
Defined.

