(* ===== verification/Scenarios.v ===== *)
(** What a process observes of the adapter.

    The theorems of this file follow from the equations of [Provider] for
    the methods of openTelemetryProvider.ts.  They are the situations the
    specification singles out (section 8): what each of the two pipelines
    the constructor builds (lines 37-49) does with an event and when; what
    [setGlobalAttributes] (lines 90-92) replaces and drops; that [dispose]
    (lines 56-58) does not flush and what [sendEvent] does after it; what
    the first events of a new adapter look like, and what a second adapter
    does to the registration (line 51), to the events of the first adapter
    and to the meaning of [dispose]. *)

From stdpp Require Import base gmap strings list fin_maps.
From S2P Require Import Prelude Attributes Spans Pipeline TraceApi Provider.

#[local] Open Scope string_scope.
#[local] Open Scope list_scope.

(** * Two adapters in one process *)

(** [new OpenTelemetryProvider(...)] twice, the second time without
    disposing of the first adapter; the caller holds both adapters. *)
Definition two_adapters (context1 : TelemetryContext)
    (agent1 : option HttpsProxyAgent) (debugging1 : option bool)
    (context2 : TelemetryContext) (agent2 : option HttpsProxyAgent)
    (debugging2 : option bool)
    : Eff World (OpenTelemetryProvider * OpenTelemetryProvider) :=
  first ← constructor context1 agent1 debugging1;
  second ← constructor context2 agent2 debugging2;
  mret (first, second).

(** A second extension context, for the instances of the theorems. *)
Definition demo_context2 : TelemetryContext :=
  mkContext "development" "eamodio.gitlens-insiders" "15.0.0" "machine-1"
    "session-2" "en" "linux" "insider" "desktop" "1.81.0".

(** A production adapter and then a debugging adapter of the second
    extension. *)
Definition demo_two
    : Eff World (OpenTelemetryProvider * OpenTelemetryProvider) :=
  two_adapters demo_context None None demo_context2 None (Some true).

(** * The two pipelines *)

Section pipelines.
Implicit Types (this : OpenTelemetryProvider) (name : string)
  (data : option Attributes) (st en : option Z) (w : World) (p : nat)
  (agent : option HttpsProxyAgent) (s : Span) (o : Output)
  (prov : BasicTracerProvider).

Lemma onEnd_debug_pipeline agent s o :
  mapM (onEnd s) (pipeline agent (Some true)) o
  = (pipeline agent (Some true),
     mkOutput (console o ++ [s]) (network o ++ [(dev_config agent, [s])])).
Proof. reflexivity. Qed.

Lemma provider_insert_id w p prov :
  w_providers w !! p = Some prov →
  <[p := mkProvider (resource prov) (spanProcessors prov)]> (w_providers w)
  = w_providers w.
Proof. intros Hp. apply list_insert_id. rewrite Hp. by destruct prov. Qed.

(** With the debugging pipeline every event is printed on the console and
    sent to the development endpoint at once, alone in its request, during
    the call; the pipeline itself keeps nothing. *)
Lemma sendEvent_debugging this name data st en w p prov agent :
  tracer_provider (tracer this) w = Some p →
  w_providers w !! p = Some prov →
  spanProcessors prov = pipeline agent (Some true) →
  let s := sent_span this name data (time_or_now st w)
             (time_or_now en (after_time st w)) p in
  w_out (exec (sendEvent this name data st en) w)
  = mkOutput (console (w_out w) ++ [s])
      (network (w_out w) ++ [(dev_config agent, [s])])
  ∧ w_providers (exec (sendEvent this name data st en) w) = w_providers w.
Proof.
  intros Ht Hp Hpipe s.
  rewrite (sendEvent_world _ _ _ _ _ _ p prov) by done.
  cbn. fold s. rewrite Hpipe. unfold eval, exec.
  rewrite onEnd_debug_pipeline. cbn. split; [done|].
  rewrite !after_time_providers.
  etrans; [|apply (provider_insert_id w p prov Hp)]. by rewrite Hpipe.
Qed.

(** With a batching pipeline an event is not exported during the call: the
    output is unchanged and the span waits at the end of the queue. *)
Lemma sendEvent_production this name data st en w p prov e q :
  tracer_provider (tracer this) w = Some p →
  w_providers w !! p = Some prov →
  spanProcessors prov = [BatchSpanProcessor e q] →
  let s := sent_span this name data (time_or_now st w)
             (time_or_now en (after_time st w)) p in
  w_out (exec (sendEvent this name data st en) w) = w_out w
  ∧ w_providers (exec (sendEvent this name data st en) w) !! p
    = Some (mkProvider (resource prov) [BatchSpanProcessor e (q ++ [s])]).
Proof.
  intros Ht Hp Hpipe s.
  rewrite (sendEvent_world _ _ _ _ _ _ p prov) by done.
  cbn. fold s. rewrite Hpipe. unfold eval, exec.
  rewrite onEnd_batch_pipeline. cbn. split; [done|].
  rewrite !after_time_providers. apply list_lookup_insert_eq.
  by eapply lookup_lt_Some.
Qed.

(** When the batching timer next fires, the spans at the head of the
    queue leave for the production endpoint in one request, in the order
    they waited and [size] of them at most; the event is among them when
    fewer than [size] spans waited before it, and stays queued otherwise. *)
Lemma sendEvent_production_delivered this name data st en w p prov agent q
    size :
  tracer_provider (tracer this) w = Some p →
  w_providers w !! p = Some prov →
  spanProcessors prov
  = [BatchSpanProcessor (OTLPTraceExporter (production_config agent)) q] →
  0 < size →
  let s := sent_span this name data (time_or_now st w)
             (time_or_now en (after_time st w)) p in
  let w' :=
    exec (batch_timer p size) (exec (sendEvent this name data st en) w) in
  w_out w'
  = mkOutput (console (w_out w))
      (network (w_out w)
       ++ [(production_config agent, take size (q ++ [s]))])
  ∧ w_providers w' !! p
    = Some (mkProvider (resource prov)
              [BatchSpanProcessor (OTLPTraceExporter (production_config agent))
                 (drop size (q ++ [s]))]).
Proof.
  intros Ht Hp Hpipe Hsize s w'.
  destruct (sendEvent_production this name data st en w p prov _ q Ht Hp Hpipe)
    as [Hout Hprov].
  unfold w', batch_timer. erewrite with_processors_Some by exact Hprov.
  cbn [spanProcessors resource w_out w_providers set_out set_providers].
  rewrite Hout. unfold eval, exec.
  rewrite onTimer_batch_pipeline by (by destruct q || done).
  split; [done|]. apply list_lookup_insert_eq. by eapply lookup_lt_Some.
Qed.
End pipelines.

(** * [setGlobalAttributes] and [dispose] *)

Section globals.
Implicit Types (this : OpenTelemetryProvider) (name : string)
  (data : option Attributes) (st en : option Z) (w : World) (p : nat)
  (m : list Entry) (k : string).

(** C5: [setGlobalAttributes] replaces the whole record: after two calls
    an event sent without [data] carries exactly the entries of the second
    map, whatever the first one held. *)
Theorem setGlobalAttributes_replaces this m1 m2 name st en w p :
  tracer_provider (tracer this) w = Some p →
  last_attributes
    (exec (sendEvent (setGlobalAttributes (setGlobalAttributes this m1) m2)
             name None st en) w)
  = fromEntries m2.
Proof.
  intros Ht. rewrite sendEvent_last_attributes with (p := p) by done.
  unfold event_attributes. cbn. by rewrite (left_id_L ∅ (∪)).
Qed.

(** A key that the new map does not hold is absent from later events
    unless [data] gives it: nothing of an earlier map survives. *)
Theorem setGlobalAttributes_drops this m1 m2 name data st en w p k :
  tracer_provider (tracer this) w = Some p →
  k ∉ m2.*1 →
  last_attributes
    (exec (sendEvent (setGlobalAttributes (setGlobalAttributes this m1) m2)
             name data st en) w) !! k
  = data ≫= (.!! k).
Proof.
  intros Ht Hk. rewrite sendEvent_last_attributes with (p := p) by done.
  rewrite event_attributes_lookup. cbn.
  apply fromEntries_lookup_None in Hk. rewrite Hk.
  by destruct (data ≫= (.!! k)).
Qed.

(** C29: [dispose] after an event in production mode: no provider is active
    any more, nothing has been exported and the processors are as they
    were: the span that waits in the batching processor's queue is not
    flushed. *)
Theorem dispose_no_flush this name data st en w p prov e q :
  tracer_provider (tracer this) w = Some p →
  w_providers w !! p = Some prov →
  spanProcessors prov = [BatchSpanProcessor e q] →
  let s := sent_span this name data (time_or_now st w)
             (time_or_now en (after_time st w)) p in
  let w' := exec (dispose this) (exec (sendEvent this name data st en) w) in
  w_global w' = None
  ∧ w_out w' = w_out w
  ∧ w_providers w' !! p
    = Some (mkProvider (resource prov) [BatchSpanProcessor e (q ++ [s])]).
Proof.
  intros Ht Hp Hq s w'.
  destruct (sendEvent_production this name data st en w p prov e q Ht Hp Hq)
    as [Hout Hprov].
  by split_and!.
Qed.

(** C30: when the tracer handle was bound to its provider at creation,
    [dispose] does not stop the adapter: an event sent after it is recorded
    and handed to the processors exactly as before. *)
Theorem sendEvent_after_dispose_bound this name data st en w p :
  tracer_delegate (tracer this) = Some p →
  exec (sendEvent this name data st en) (exec (dispose this) w)
  = exec (dispose this) (exec (sendEvent this name data st en) w).
Proof.
  intros Hb.
  assert (∀ w', tracer_provider (tracer this) w' = Some p) as Ht
    by (intros; unfold tracer_provider; by rewrite Hb).
  do 2 sendEvent_as_startEvent.
  rewrite !startEvent_eval, !startEvent_exec, !Ht.
  unfold dispose, trace_disable. rewrite !exec_modify.
  rewrite <- span_end_set_global. f_equal. by destruct st.
Qed.

(** C31: when the tracer handle looks the provider up at each call, an event
    sent after [dispose] is not recorded: the call returns, the span it
    makes stays empty and open, and nothing is exported. *)
Theorem sendEvent_after_dispose_unbound this name data st en w :
  tracer_delegate (tracer this) = None →
  let w' := exec (sendEvent this name data st en) (exec (dispose this) w) in
  w_out w' = w_out w
  ∧ w_providers w' = w_providers w
  ∧ last (w_spans w') = Some (unrecorded_span this name (time_or_now st w)).
Proof.
  intros Hb w'. unfold w'. rewrite sendEvent_not_recorded
    by (unfold tracer_provider; by rewrite Hb).
  cbn. rewrite after_time_out, after_time_providers, after_time_spans.
  split_and!; try done. rewrite last_snoc. by destruct st.
Qed.
End globals.

(** * A new adapter and its first events *)

Section first_event.
Implicit Types (context : TelemetryContext)
  (agent : option HttpsProxyAgent) (debugging : option bool) (name : string)
  (data : option Attributes) (st en : option Z) (w : World).

Lemma first_span_sent context agent debugging name data start finish w :
  sent_span (eval (constructor context agent debugging) w) name data start
    finish (length (w_providers w))
  = first_span context name data start finish w.
Proof.
  rewrite constructor_eval. unfold sent_span, first_span, event_attributes.
  cbn. by rewrite (right_id_L ∅ (∪)).
Qed.

(** C12: an adapter made in debugging mode, in any world: its first event is
    printed on the console and sent to the development endpoint during the
    call, alone in its request, whichever provider was registered
    before. *)
Theorem debug_session context agent name data st en w :
  let this := eval (constructor context agent (Some true)) w in
  let w1 := exec (constructor context agent (Some true)) w in
  let s := first_span context name data (time_or_now st w)
             (time_or_now en (after_time st w)) w in
  w_out (exec (sendEvent this name data st en) w1)
  = mkOutput (console (w_out w) ++ [s])
      (network (w_out w) ++ [(dev_config agent, [s])]).
Proof.
  intros this w1 s.
  destruct (sendEvent_debugging this name data st en w1
              (length (w_providers w))
              (mkProvider (resource_attributes context)
                 (pipeline agent (Some true))) agent) as [-> _].
  - apply constructor_tracer_provider.
  - apply constructor_provider.
  - done.
  - unfold this. rewrite first_span_sent. unfold w1.
    rewrite constructor_exec. by destruct st, en.
Qed.

(** C13: an adapter made in production mode: its first event is not exported
    by the call, and is sent to the production endpoint, alone in its
    request, when the batching timer fires, whatever the batch size. *)
Theorem production_session context agent debugging name data st en w size :
  truthy debugging = false →
  0 < size →
  let this := eval (constructor context agent debugging) w in
  let w1 := exec (constructor context agent debugging) w in
  let w2 := exec (sendEvent this name data st en) w1 in
  let s := first_span context name data (time_or_now st w)
             (time_or_now en (after_time st w)) w in
  w_out w2 = w_out w
  ∧ w_out (exec (batch_timer (length (w_providers w)) size) w2)
    = mkOutput (console (w_out w))
        (network (w_out w) ++ [(production_config agent, [s])]).
Proof.
  intros Hd Hsize this w1 w2 s.
  pose proof (constructor_tracer_provider context agent debugging w) as Ht.
  pose proof (constructor_provider context agent debugging w) as Hp.
  pose proof (production_pipeline agent debugging Hd) as Hpipe.
  split.
  - unfold w2.
    erewrite (proj1 (sendEvent_production _ _ _ _ _ _ _ _ _ [] Ht Hp Hpipe)).
    unfold w1. by rewrite constructor_exec.
  - unfold w2.
    erewrite (proj1 (sendEvent_production_delivered _ _ _ _ _ _ _ _ agent []
                       size Ht Hp Hpipe Hsize)).
    rewrite take_ge by (cbn; lia).
    unfold this. rewrite first_span_sent. unfold w1.
    rewrite constructor_exec. by destruct st, en.
Qed.


(** C14: two events in production mode wait in the order they were sent;
    when the timer fires they leave in that order in one request, or the
    first one alone when the batch size is 1. *)
Theorem production_batch_order context agent debugging
    name1 data1 st1 en1 name2 data2 st2 en2 w size :
  truthy debugging = false →
  0 < size →
  let this := eval (constructor context agent debugging) w in
  let w1 := exec (constructor context agent debugging) w in
  let w2 := exec (sendEvent this name1 data1 st1 en1) w1 in
  let w3 := exec (sendEvent this name2 data2 st2 en2) w2 in
  let c := after_time en1 (after_time st1 w) in
  let s1 := first_span context name1 data1 (time_or_now st1 w)
              (time_or_now en1 (after_time st1 w)) w in
  let s2 := first_span context name2 data2 (time_or_now st2 c)
              (time_or_now en2 (after_time st2 c)) w in
  w_out w3 = w_out w
  ∧ w_out (exec (batch_timer (length (w_providers w)) size) w3)
    = mkOutput (console (w_out w))
        (network (w_out w) ++ [(production_config agent, take size [s1; s2])]).
Proof.
  intros Hd Hsize this w1 w2 w3 c s1 s2.
  pose proof (constructor_tracer_provider context agent debugging w) as Ht.
  pose proof (constructor_provider context agent debugging w) as Hp.
  pose proof (production_pipeline agent debugging Hd) as Hpipe.
  destruct (sendEvent_production this name1 data1 st1 en1 w1 _ _ _ []
              Ht Hp Hpipe) as [Hout2 Hp2].
  destruct (sendEvent_clock this name1 data1 st1 en1 w1 _ Ht) as [Hc Hk].
  rewrite <- (sendEvent_tracer_provider this name1 data1 st1 en1) in Ht.
  fold w2 in Ht, Hout2, Hp2, Hc, Hk.
  assert (w_out w1 = w_out w ∧ w_clock w2 = w_clock c ∧ w_ticks w2 = w_ticks c)
    as (Hout1 & Hc' & Hk').
  { unfold w1 in *. rewrite constructor_exec in *. by destruct st1, en1. }
  assert (sent_span this name1 data1 (time_or_now st1 w1)
            (time_or_now en1 (after_time st1 w1)) (length (w_providers w))
          = s1) as Hs1.
  { unfold this. rewrite first_span_sent. unfold s1, w1.
    rewrite constructor_exec. by destruct st1, en1. }
  assert (sent_span this name2 data2 (time_or_now st2 w2)
            (time_or_now en2 (after_time st2 w2)) (length (w_providers w))
          = s2) as Hs2.
  { unfold this. rewrite first_span_sent. unfold s2. f_equal.
    - by apply time_or_now_clock.
    - by apply time_or_now_clock, after_time_clock. }
  split.
  - unfold w3.
    erewrite (proj1 (sendEvent_production _ _ _ _ _ _ _ _ _ _ Ht Hp2 eq_refl)).
    by etrans.
  - unfold w3.
    erewrite (proj1 (sendEvent_production_delivered _ _ _ _ _ _ _ _ agent _
                       size Ht Hp2 eq_refl Hsize)).
    fold w1 w2. by rewrite Hs1, Hs2, Hout2, Hout1.
Qed.

End first_event.

(** * A second adapter *)

Section two_adapters.
Context (context1 context2 : TelemetryContext)
  (agent1 agent2 : option HttpsProxyAgent)
  (debugging1 debugging2 : option bool).
Implicit Types (this : OpenTelemetryProvider) (name : string)
  (data : option Attributes) (st en : option Z) (w : World).

#[local] Abbreviation both :=
  (two_adapters context1 agent1 debugging1 context2 agent2 debugging2).

Lemma two_adapters_exec w :
  exec both w
  = constructed_world context2 agent2 debugging2
      (constructed_world context1 agent1 debugging1 w).
Proof.
  unfold two_adapters. autorewrite with eff. by rewrite !constructor_exec.
Qed.

(** The two adapters: each names its tracer after its own extension; a
    handle bound at creation delegates to the provider its constructor
    made. *)
Lemma two_adapters_eval w :
  eval both w
  = (mkOpenTelemetryProvider ∅
       (mkTracer (extensionId context1)
          match w_binding w with
          | BindAtCreation => Some (length (w_providers w))
          | BindAtCall => None
          end),
     mkOpenTelemetryProvider ∅
       (mkTracer (extensionId context2)
          match w_binding w with
          | BindAtCreation => Some (S (length (w_providers w)))
          | BindAtCall => None
          end)).
Proof.
  unfold two_adapters. autorewrite with eff.
  rewrite !constructor_eval, constructor_exec. cbn. rewrite length_app, Nat.add_1_r.
  by destruct (w_binding w).
Qed.

(** Both providers exist, each with its own resource and pipeline; the
    second is the registered one; nothing else has changed. *)
Lemma two_adapters_providers w :
  w_providers (exec both w)
  = w_providers w
    ++ [mkProvider (resource_attributes context1)
          (pipeline agent1 debugging1);
        mkProvider (resource_attributes context2)
          (pipeline agent2 debugging2)]
  ∧ w_global (exec both w) = Some (S (length (w_providers w)))
  ∧ w_out (exec both w) = w_out w
  ∧ w_spans (exec both w) = w_spans w
  ∧ w_clock (exec both w) = w_clock w.
Proof.
  rewrite two_adapters_exec. cbn.
  by rewrite length_app, Nat.add_1_r, <- app_assoc.
Qed.

Lemma two_adapters_first w :
  w_providers (exec both w) !! length (w_providers w)
  = Some (mkProvider (resource_attributes context1)
            (pipeline agent1 debugging1)).
Proof.
  rewrite (proj1 (two_adapters_providers w)).
  by rewrite lookup_app_r, Nat.sub_diag by lia.
Qed.

Lemma two_adapters_second w :
  w_providers (exec both w) !! S (length (w_providers w))
  = Some (mkProvider (resource_attributes context2)
            (pipeline agent2 debugging2)).
Proof.
  rewrite (proj1 (two_adapters_providers w)), lookup_app_r by lia.
  by replace (S _ - _) with 1 by lia.
Qed.

(** The provider the first adapter starts spans for, once the second
    adapter exists: its own when its handle was bound at creation, the
    second adapter's when the handle looks the provider up at each call. *)
Lemma first_adapter_provider w :
  tracer_provider (tracer (eval both w).1) (exec both w)
  = Some match w_binding w with
         | BindAtCreation => length (w_providers w)
         | BindAtCall => S (length (w_providers w))
         end.
Proof.
  unfold tracer_provider.
  rewrite two_adapters_eval, (proj1 (proj2 (two_adapters_providers w))).
  cbn. by destruct (w_binding w).
Qed.

(** The span of an event of the first adapter, recorded for provider [p]. *)
Lemma first_adapter_span name data start finish p w :
  sent_span (eval both w).1 name data start finish p
  = mkSpan name (extensionId context1) (Some p) start (default ∅ data)
      (Some finish).
Proof.
  rewrite two_adapters_eval. unfold sent_span, event_attributes. cbn.
  by rewrite (right_id_L ∅ (∪)).
Qed.

Lemma two_adapters_time t w :
  time_or_now t (exec both w) = time_or_now t w.
Proof.
  destruct t; [done|]. apply (two_adapters_providers w).
Qed.

(** With handles bound at creation the first adapter is not disturbed by
    the second: its events are recorded for its own provider and handed to
    its own pipeline. *)
Lemma first_adapter_bound name data st en w :
  w_binding w = BindAtCreation →
  let this := (eval both w).1 in
  let w2 := exec both w in
  let p1 := length (w_providers w) in
  let s := mkSpan name (extensionId context1) (Some p1) (time_or_now st w)
             (default ∅ data) (Some (time_or_now en (after_time st w2))) in
  let procs := mapM (onEnd s) (pipeline agent1 debugging1) in
  exec (sendEvent this name data st en) w2
  = set_out (exec procs (w_out w))
      (set_providers
         (<[p1 := mkProvider (resource_attributes context1)
                    (eval procs (w_out w))]>)
         (set_spans (λ l, l ++ [s]) (after_time en (after_time st w2)))).
Proof.
  intros Hb. cbv zeta.
  pose proof (first_adapter_provider w) as Ht. rewrite Hb in Ht.
  rewrite (sendEvent_world _ _ _ _ _ _ _ _ Ht (two_adapters_first w)).
  cbn [spanProcessors resource].
  rewrite first_adapter_span, two_adapters_time.
  by rewrite (proj1 (proj2 (proj2 (two_adapters_providers w)))).
Qed.

(** C25: a second adapter takes the events of the first.  When tracer handles
    look the provider up at each call, an event sent on the first adapter
    after the second was constructed is recorded for the second adapter's
    provider: it carries the first extension's name as its scope, is
    exported under the second adapter's resource and goes through the
    second adapter's pipeline; the first provider and its pipeline see
    nothing. *)
Theorem second_adapter_takes_events name data st en w :
  w_binding w = BindAtCall →
  let this := (eval both w).1 in
  let w2 := exec both w in
  let p2 := S (length (w_providers w)) in
  let s := mkSpan name (extensionId context1) (Some p2) (time_or_now st w)
             (default ∅ data) (Some (time_or_now en (after_time st w2))) in
  let procs := mapM (onEnd s) (pipeline agent2 debugging2) in
  exec (sendEvent this name data st en) w2
  = set_out (exec procs (w_out w))
      (set_providers
         (<[p2 := mkProvider (resource_attributes context2)
                    (eval procs (w_out w))]>)
         (set_spans (λ l, l ++ [s]) (after_time en (after_time st w2)))).
Proof.
  intros Hb. cbv zeta.
  pose proof (first_adapter_provider w) as Ht. rewrite Hb in Ht.
  rewrite (sendEvent_world _ _ _ _ _ _ _ _ Ht (two_adapters_second w)).
  cbn [spanProcessors resource].
  rewrite first_adapter_span, two_adapters_time.
  by rewrite (proj1 (proj2 (proj2 (two_adapters_providers w)))).
Qed.

(** An adapter whose handle looks the provider up at each call records
    nothing once any adapter has been disposed of. *)
Lemma sendEvent_after_other_dispose this other name data st en w :
  tracer_delegate (tracer other) = None →
  exec (sendEvent other name data st en) (exec (dispose this) w)
  = set_spans (λ l, l ++ [unrecorded_span other name (time_or_now st w)])
      (after_time st (exec (dispose this) w)).
Proof.
  intros Hb. rewrite sendEvent_not_recorded
    by (unfold tracer_provider; by rewrite Hb).
  by destruct st.
Qed.

(** C26: [dispose] on one adapter silences the other.  [dispose] disables
    whichever provider is registered, not the provider of its own adapter:
    after the first adapter is disposed of no provider is registered,
    although the second adapter's provider was the registered one, and when
    handles look the provider up at each call an event sent on the second
    adapter is not recorded; nothing is exported and both pipelines stay
    as they were. *)
Theorem dispose_silences_second name data st en w :
  w_binding w = BindAtCall →
  let first := (eval both w).1 in
  let second := (eval both w).2 in
  let w3 := exec (dispose first) (exec both w) in
  w_global (exec both w) = Some (S (length (w_providers w)))
  ∧ w_global w3 = None
  ∧ exec (sendEvent second name data st en) w3
    = set_spans
        (λ l, l ++ [unrecorded_span second name (time_or_now st w)])
        (after_time st w3).
Proof.
  intros Hb first second w3.
  split; [apply two_adapters_providers|]. split; [done|].
  unfold w3. rewrite sendEvent_after_other_dispose
    by (unfold second; rewrite two_adapters_eval; cbn; by rewrite Hb).
  by rewrite two_adapters_time.
Qed.
End two_adapters.

(** * Instances on the concrete process *)

Lemma setGlobalAttributes_replaces_witness :
  tracer_provider (tracer demo_adapter) demo_process = Some 0
  ∧ last_attributes
      (exec (sendEvent
               (setGlobalAttributes
                  (setGlobalAttributes demo_adapter demo_globals)
                  [("plan", AVString "pro")])
               "commit" None None None) demo_process)
    = fromEntries [("plan", AVString "pro")].
Proof.
  split; [reflexivity|].
  apply (setGlobalAttributes_replaces demo_adapter _ _ _ _ _ demo_process 0).
  reflexivity.
Defined.

Lemma production_session_witness :
  (truthy None = false ∧ 0 < 512)
  ∧ w_out (exec (batch_timer 0 512)
             (exec (sendEvent demo_adapter "commit" (Some demo_data) None
                      None) demo_process))
    = mkOutput []
        [(production_config None,
          [first_span demo_context "commit" (Some demo_data) 1000 1003
             (demo_start BindAtCall)])].
Proof.
  split; [split; [reflexivity|lia]|].
  apply (production_session demo_context None None "commit" (Some demo_data)
           None None (demo_start BindAtCall) 512 eq_refl). lia.
Defined.

Lemma production_batch_order_witness :
  (truthy (Some false) = false ∧ 0 < 1)
  ∧ w_out (exec (batch_timer 0 1)
             (exec (sendEvent (demo_this (Some false) BindAtCall) "push"
                      None None (Some 2000%Z))
                (exec (sendEvent (demo_this (Some false) BindAtCall) "commit"
                         (Some demo_data) None None)
                   (demo_world (Some false) BindAtCall))))
    = mkOutput []
        [(production_config None,
          take 1
            [first_span demo_context "commit" (Some demo_data) 1000 1003
               (demo_start BindAtCall);
             first_span demo_context "push" None 1008 2000
               (demo_start BindAtCall)])].
Proof.
  split; [split; [reflexivity|lia]|].
  apply (production_batch_order demo_context None (Some false)
           "commit" (Some demo_data) None None "push" None None
           (Some 2000%Z) (demo_start BindAtCall) 1 eq_refl). lia.
Defined.

Lemma dispose_no_flush_witness :
  (tracer_provider (tracer demo_adapter) demo_process = Some 0
   ∧ w_providers demo_process !! 0 = Some demo_provider
   ∧ spanProcessors demo_provider
     = [BatchSpanProcessor (OTLPTraceExporter (production_config None)) []])
  ∧ let w' := exec (dispose demo_adapter)
                (exec (sendEvent demo_adapter "commit" None None None)
                   demo_process) in
    w_global w' = None
    ∧ w_out w' = w_out demo_process
    ∧ w_providers w' !! 0
      = Some (mkProvider (resource demo_provider)
                [BatchSpanProcessor
                   (OTLPTraceExporter (production_config None))
                   ([] ++ [sent_span demo_adapter "commit" None
                             (time_or_now None demo_process)
                             (time_or_now None (after_time None demo_process))
                             0])]).
Proof.
  assert (w_providers demo_process !! 0 = Some demo_provider) as Hp
    by (vm_compute; reflexivity).
  split; [by split_and!|].
  apply (dispose_no_flush demo_adapter "commit" None None None demo_process
           0 demo_provider _ [] eq_refl Hp eq_refl).
Defined.

Lemma sendEvent_after_dispose_bound_witness :
  tracer_delegate (tracer (demo_this None BindAtCreation)) = Some 0
  ∧ exec (sendEvent (demo_this None BindAtCreation) "commit" None None None)
      (exec (dispose (demo_this None BindAtCreation))
         (demo_world None BindAtCreation))
    = exec (dispose (demo_this None BindAtCreation))
        (exec (sendEvent (demo_this None BindAtCreation) "commit" None None
                 None)
           (demo_world None BindAtCreation)).
Proof.
  split; [reflexivity|].
  apply (sendEvent_after_dispose_bound _ _ _ _ _ _ 0). reflexivity.
Defined.

Lemma sendEvent_after_dispose_unbound_witness :
  tracer_delegate (tracer demo_adapter) = None
  ∧ w_out (exec (sendEvent demo_adapter "commit" (Some demo_data) None None)
             (exec (dispose demo_adapter) demo_process))
    = w_out demo_process.
Proof.
  split; [reflexivity|].
  apply (sendEvent_after_dispose_unbound demo_adapter "commit"
           (Some demo_data) None None demo_process eq_refl).
Defined.

Lemma setGlobalAttributes_drops_witness :
  (tracer_provider (tracer demo_adapter) demo_process = Some 0
   ∧ "account.verified" ∉ [("plan", AVString "pro")].*1)
  ∧ last_attributes
      (exec (sendEvent
               (setGlobalAttributes
                  (setGlobalAttributes demo_adapter demo_globals)
                  [("plan", AVString "pro")])
               "commit" (Some demo_data) None None) demo_process)
      !! "account.verified"
    = None.
Proof.
  assert ("account.verified" ∉ [("plan", AVString "pro")].*1) as Hk
    by compute_done.
  split; [by split|].
  etrans; [apply (setGlobalAttributes_drops demo_adapter _ _ _ _ _ _
                    demo_process 0 _ eq_refl Hk)|].
  vm_compute. reflexivity.
Defined.

(** An event of the production adapter, sent after the debugging adapter of
    the other extension was made, is printed on the console and sent to
    the development endpoint, for provider 1. *)
Lemma second_adapter_takes_events_witness :
  w_binding (demo_start BindAtCall) = BindAtCall
  ∧ w_out (exec (sendEvent (eval demo_two (demo_start BindAtCall)).1
                   "commit" None None None)
             (exec demo_two (demo_start BindAtCall)))
    = let s := mkSpan "commit" "eamodio.gitlens" (Some 1) 1000%Z ∅
                 (Some 1003%Z) in
      mkOutput [s] [(dev_config None, [s])].
Proof.
  split; [reflexivity|]. unfold demo_two.
  rewrite (second_adapter_takes_events demo_context demo_context2 None None
             None (Some true) "commit" None None None
             (demo_start BindAtCall) eq_refl).
  vm_compute. reflexivity.
Defined.

Lemma dispose_silences_second_witness :
  w_binding (demo_start BindAtCall) = BindAtCall
  ∧ w_global (exec demo_two (demo_start BindAtCall)) = Some 1
  ∧ w_global (exec (dispose (eval demo_two (demo_start BindAtCall)).1)
                (exec demo_two (demo_start BindAtCall))) = None
  ∧ exec (sendEvent (eval demo_two (demo_start BindAtCall)).2 "clone" None
            None None)
      (exec (dispose (eval demo_two (demo_start BindAtCall)).1)
         (exec demo_two (demo_start BindAtCall)))
    = set_spans
        (λ l, l ++ [unrecorded_span (eval demo_two (demo_start BindAtCall)).2
                      "clone" 1000%Z])
        (after_time None
           (exec (dispose (eval demo_two (demo_start BindAtCall)).1)
              (exec demo_two (demo_start BindAtCall)))).
Proof.
  split; [reflexivity|].
  apply (dispose_silences_second demo_context demo_context2 None None None
           (Some true) "clone" None None None (demo_start BindAtCall)
           eq_refl).
Defined.
