(* ===== verification/Sessions.v ===== *)
(** Sequences of calls on one adapter.

    A session is what a process does with the adapter it has constructed:
    the extension calls the four methods of openTelemetryProvider.ts, uses
    the spans that [startEvent] returned (lines 69-76 hand the span to the
    caller), and the environment fires the batching timer.  [step] is one
    such call, [reachable] the sessions a process can be in, [timers] the
    batching timer that fires until nothing waits.  The theorems are the
    invariants of every reachable session: the provider and the shape of
    its pipeline never change, no finished span is lost or duplicated
    between the span heap and the exporters, the output goes where the
    mode says (one request per printed span in debugging mode, the
    production endpoint alone otherwise), and a finished span is never
    modified; the timer stops and delivers what waits, in the batches of
    [Pipeline.batches] and in as many firings, and spans leave in the
    order they finished ([ordered], [production_fifo]). *)

From stdpp Require Import base gmap strings list fin_maps.
From S2P Require Import Prelude Attributes Spans Pipeline TraceApi Provider.

#[local] Open Scope string_scope.
#[local] Open Scope list_scope.

(** * Data *)

(** What can happen to the adapter and to the spans it has handed out. *)
Inductive Call : Type :=
  | SendEvent (name : string) (data : option Attributes)
      (startTime endTime : option Z)
  | StartEvent (name : string) (data : option Attributes)
      (startTime : option Z)
  | SetGlobalAttributes (attributes : list Entry)
  | Dispose
  | SpanSetAttributes (span : nat) (attrs : Attributes)
  | SpanEnd (span : nat) (endTime : option Z)
  | Timer (provider size : nat).

Record Session : Type := mkSession {
  s_this : OpenTelemetryProvider;
  s_world : World;
}.

(** * Operations *)

(** [new OpenTelemetryProvider(context, agent, debugging)] in the world
    [w]. *)
Definition new_session (context : TelemetryContext)
    (agent : option HttpsProxyAgent) (debugging : option bool) (w : World)
    : Session :=
  let r := constructor context agent debugging w in mkSession r.1 r.2.

Definition step (c : Call) (s : Session) : Session :=
  let this := s_this s in
  let w := s_world s in
  match c with
  | SendEvent name data st en =>
      mkSession this (exec (sendEvent this name data st en) w)
  | StartEvent name data st =>
      mkSession this (exec (startEvent this name data st) w)
  | SetGlobalAttributes m => mkSession (setGlobalAttributes this m) w
  | Dispose => mkSession this (exec (dispose this) w)
  | SpanSetAttributes h a => mkSession this (exec (span_setAttributes h a) w)
  | SpanEnd h en => mkSession this (exec (span_end h en) w)
  | Timer p size => mkSession this (exec (batch_timer p size) w)
  end.

Definition run (cs : list Call) (s : Session) : Session :=
  foldl (λ s c, step c s) s cs.

(** The finished spans that wait in the processors of provider [p]. *)
Definition queued (p : nat) (w : World) : list Span :=
  match w_providers w !! p with
  | Some prov => waiting (spanProcessors prov)
  | None => []
  end.

(** The batching timer of provider [p] re-arms itself while spans wait: it
    fires until the queues are empty.  [fuel] bounds the number of times it
    fires; [None] is a timer that would have to fire once more. *)
Fixpoint timers (fuel p size : nat) (s : Session) : option Session :=
  match queued p (s_world s) with
  | [] => Some s
  | _ :: _ =>
      match fuel with
      | 0 => None
      | S fuel => timers fuel p size (step (Timer p size) s)
      end
  end.

(** The session after the batching processor of provider [p], the only
    processor of a pipeline with resource [res], has sent the batches [bs]
    to the endpoint of [config] and holds nothing any more. *)
Definition batches_sent (p : nat) (res : Attributes)
    (config : OTLPExporterConfig) (bs : list (list Span)) (s : Session)
    : Session :=
  mkSession (s_this s)
    (set_out
       (mkOutput (console (w_out (s_world s)))
          (network (w_out (s_world s)) ++ requests config bs))
       (set_providers
          (<[p := mkProvider res
                    [BatchSpanProcessor (OTLPTraceExporter config) []]]>)
          (s_world s))).

(** The processors of the adapter's provider account for the spans [l], in
    that order: for each of them, what its exporter has emitted followed
    by what waits in its queue is [l]. *)
Definition ordered (l : list Span) (w : World) : Prop :=
  ∃ prov,
    w_providers w !! 0 = Some prov
    ∧ in_order (spanProcessors prov) (w_out w) l.

(** The sessions of a process that constructs one adapter and then uses
    it. *)
Inductive reachable (context : TelemetryContext)
    (agent : option HttpsProxyAgent) (debugging : option bool)
    : Session → Prop :=
  | reachable_new now ticks b :
      reachable context agent debugging
        (new_session context agent debugging (initial_world now ticks b))
  | reachable_step s c :
      reachable context agent debugging s →
      reachable context agent debugging (step c s).

(** A process that sends an event, starts a second one, ends it, and whose
    batching timer then fires. *)
Definition demo_session : Session :=
  run [SendEvent "commit" (Some demo_data) None None;
       StartEvent "clone" None None;
       SpanEnd 1 None;
       Timer 0 512]
    (new_session demo_context None None (demo_start BindAtCall)).

(** The same calls on an adapter made in debugging mode. *)
Definition demo_debug_session : Session :=
  run [SendEvent "commit" (Some demo_data) None None;
       StartEvent "clone" None None;
       SpanEnd 1 None;
       Timer 0 512]
    (new_session demo_context None (Some true) (demo_start BindAtCreation)).

(** A production session in which three finished spans wait. *)
Definition demo_waiting : Session :=
  run [SendEvent "commit" (Some demo_data) None None;
       SendEvent "push" None None None;
       StartEvent "clone" None None;
       SpanEnd 2 None]
    (new_session demo_context None None (demo_start BindAtCall)).

(** A session that has sent one event. *)
Definition demo_sent : Session :=
  step (SendEvent "commit" (Some demo_data) None None)
    (new_session demo_context None None (demo_start BindAtCall)).

(** * The invariant *)

(** An optional provider handle that, when present, is the adapter's. *)
Definition only0 (x : option nat) : Prop := ∀ p, x = Some p → p = 0.

(** The world of a session: the only provider is the adapter's, with the
    resource and the processors it was made with; every span is the
    adapter's or records nothing; and each processor accounts for exactly
    the finished spans of the heap. *)
Record world_inv (context : TelemetryContext) (agent : option HttpsProxyAgent)
    (debugging : option bool) (w : World) : Prop := mkWorldInv {
  inv_global : only0 (w_global w);
  inv_owner : Forall (λ sp, only0 (span_owner sp)) (w_spans w);
  inv_provider : ∃ procs,
    w_providers w = [mkProvider (resource_attributes context) procs]
    ∧ reset <$> procs = pipeline agent debugging
    ∧ accounts procs (w_out w) (closed_spans (w_spans w));
  inv_out : emitted_by (exporters (pipeline agent debugging)) (w_out w);
}.

Record session_inv (context : TelemetryContext)
    (agent : option HttpsProxyAgent) (debugging : option bool) (s : Session)
    : Prop := mkSessionInv {
  inv_tracer_name : tracer_name (tracer (s_this s)) = extensionId context;
  inv_delegate : only0 (tracer_delegate (tracer (s_this s)));
  inv_world : world_inv context agent debugging (s_world s);
}.

(** * Preservation, call by call *)

Section invariant.
Context (context : TelemetryContext) (agent : option HttpsProxyAgent)
  (debugging : option bool).
Implicit Types (w : World) (s : Session) (this : OpenTelemetryProvider)
  (h p size : nat) (t : option Z).
Local Abbreviation winv := (world_inv context agent debugging).

Lemma only0_None : only0 None.
Proof. by intros p. Qed.

Lemma only0_0 : only0 (Some 0).
Proof. by intros p [= <-]. Qed.

Lemma only0_tracer_provider this w :
  only0 (tracer_delegate (tracer this)) → only0 (w_global w) →
  only0 (tracer_provider (tracer this) w).
Proof.
  unfold tracer_provider. by destruct (tracer_delegate (tracer this)).
Qed.

Lemma pipeline_NoDup procs :
  reset <$> procs = pipeline agent debugging → NoDup (exporters procs).
Proof.
  intros Hp. rewrite <- exporters_reset, Hp. unfold pipeline.
  destruct (truthy debugging); cbn; [|apply NoDup_singleton].
  apply NoDup_cons. split; [|apply NoDup_singleton].
  by intros ?%list_elem_of_singleton.
Qed.

(** A step that leaves providers, output and finished spans alone. *)
Lemma world_inv_frame w w' :
  winv w → only0 (w_global w') →
  Forall (λ sp, only0 (span_owner sp)) (w_spans w') →
  closed_spans (w_spans w') = closed_spans (w_spans w) →
  w_providers w' = w_providers w → w_out w' = w_out w →
  winv w'.
Proof.
  intros [_ _ (procs & Hp & Hr & Ha) He] Hg Ho Hc Hp' Hout.
  split; [done|done| |by rewrite Hout].
  exists procs. by rewrite Hp', Hout, Hc.
Qed.

(** A step of the processors of the adapter's provider. *)
Lemma world_inv_processors f d w w1 :
  (∀ q o, reset (eval (f q) o) = reset q) →
  (∀ procs o l, NoDup (exporters procs) → accounts procs o l →
     accounts (eval (mapM f procs) o) (exec (mapM f procs) o) (l ++ d)) →
  (∀ q es o, processor_exporter q ∈ es → emitted_by es o →
     emitted_by es (exec (f q) o)) →
  winv w → only0 (w_global w1) →
  Forall (λ sp, only0 (span_owner sp)) (w_spans w1) →
  closed_spans (w_spans w1) ≡ₚ closed_spans (w_spans w) ++ d →
  w_providers w1 = w_providers w → w_out w1 = w_out w →
  winv (exec (with_processors 0 f) w1).
Proof.
  intros Hreset Hacc Hem [_ _ (procs & Hp & Hr & Ha) He] Hg Ho Hc Hp' Hout.
  rewrite (with_processors_Some 0 f w1 (mkProvider _ procs))
    by by rewrite Hp', Hp.
  split; cbn; [done|done| |].
  - exists (eval (mapM f procs) (w_out w1)). rewrite Hp', Hp. cbn.
    split_and!; [done|by rewrite mapM_reset|].
    rewrite Hc, Hout. apply Hacc; [by apply pipeline_NoDup|done].
  - rewrite Hout. apply mapM_emitted_by; [by intros; apply Hem| |done].
    rewrite <- Hr, exporters_reset. by apply Forall_forall.
Qed.

Lemma world_inv_time t w : winv w → winv (exec (nullish_or t Date_now) w).
Proof.
  intros Hw. pose proof Hw as [Hg Ho _].
  apply (world_inv_frame w); by autorewrite with eff.
Qed.

Lemma world_inv_startSpan this name start w :
  only0 (tracer_delegate (tracer this)) →
  winv w → winv (exec (startSpan (tracer this) name start) w).
Proof.
  intros Hd Hw. pose proof Hw as [Hg Ho _].
  rewrite startSpan_exec. apply (world_inv_frame w); cbn; try done.
  - apply Forall_app. split; [done|]. apply Forall_singleton. cbn.
    by apply only0_tracer_provider.
  - rewrite closed_spans_snoc, decide_False, app_nil_r; [done|].
    unfold span_phase. cbn. by destruct (tracer_provider _ _).
Qed.

Lemma world_inv_start_span this name t w :
  only0 (tracer_delegate (tracer this)) →
  winv w → winv (exec (start_span this name t) w).
Proof.
  intros Hd Hw. unfold start_span. rewrite exec_bind.
  by apply world_inv_startSpan, world_inv_time.
Qed.

Lemma world_inv_span_setAttributes h a w :
  winv w → winv (exec (span_setAttributes h a) w).
Proof.
  intros Hw. pose proof Hw as [Hg Ho _].
  apply (world_inv_frame w); cbn; try done.
  - apply Forall_alter; [done|]. intros sp _.
    by rewrite (Span_apply_owner (CallSetAttributes a) sp
                  : span_owner (Span_setAttributes a sp) = _).
  - apply closed_spans_setAttributes.
Qed.

Lemma world_inv_span_end h t w : winv w → winv (exec (span_end h t) w).
Proof.
  intros Hw. pose proof Hw as [Hg Ho _].
  destruct (w_spans w !! h) as [sp|] eqn:Hs;
    [destruct (span_live sp) eqn:Hl|];
    [|by rewrite span_end_not_open by (intros; congruence)..].
  apply span_live_spec in Hl as Hl'. destruct Hl' as [[p Hp] He].
  assert (p = 0) as -> by (eapply (Forall_lookup_1 _ _ _ _ Ho Hs), Hp).
  rewrite (span_end_open h t w sp 0) by done.
  eapply (world_inv_processors _ [_] w); cbn;
    rewrite ?after_time_global, ?after_time_spans, ?after_time_providers,
      ?after_time_out; try done.
  - apply onEnd_reset.
  - intros procs o l. apply onEnd_accounts.
  - intros q es o. apply onEnd_emitted_by.
  - apply Forall_alter; [done|]. intros sp' _.
    by rewrite (Span_apply_owner (CallEnd _) sp'
                  : span_owner (Span_end _ sp') = _).
  - apply closed_spans_end; [done|by apply span_live_Open].
Qed.

Lemma world_inv_set_event_attributes this h data w :
  winv w → winv (exec (set_event_attributes this h data) w).
Proof.
  intros Hw. unfold set_event_attributes. rewrite exec_bind.
  destruct data; [|rewrite exec_ret]; by repeat apply world_inv_span_setAttributes.
Qed.

Lemma world_inv_startEvent this name data t w :
  only0 (tracer_delegate (tracer this)) →
  winv w → winv (exec (startEvent this name data t) w).
Proof.
  intros Hd Hw. unfold startEvent. rewrite !exec_bind, exec_ret.
  by apply world_inv_set_event_attributes, world_inv_start_span.
Qed.

Lemma world_inv_sendEvent this name data st en w :
  only0 (tracer_delegate (tracer this)) →
  winv w → winv (exec (sendEvent this name data st en) w).
Proof.
  intros Hd Hw. sendEvent_as_startEvent.
  by apply world_inv_span_end, world_inv_startEvent.
Qed.

Lemma world_inv_dispose this w : winv w → winv (exec (dispose this) w).
Proof.
  intros Hw. pose proof Hw as [Hg Ho _].
  by apply (world_inv_frame w).
Qed.

Lemma world_inv_batch_timer p size w :
  winv w → winv (exec (batch_timer p size) w).
Proof.
  intros Hw. pose proof Hw as [Hg Ho _]. destruct p as [|p].
  - apply (world_inv_processors _ [] w); try done.
    + apply onTimer_reset.
    + intros procs o l Hnd Ha. rewrite app_nil_r. by apply onTimer_accounts.
    + apply onTimer_emitted_by.
    + by rewrite app_nil_r.
  - unfold batch_timer. rewrite with_processors_None; [done|].
    destruct Hw as [_ _ (procs & -> & _) _]. done.
Qed.

(** ** The order in which the processors account for the spans

    Each call leaves the spans accounted for where they are and adds the
    span it finishes, if any, after them. *)

Lemma ordered_frame l w w' :
  w_providers w' = w_providers w → w_out w' = w_out w →
  ordered l w → ordered l w'.
Proof. intros Hp Ho (prov & H0 & Hl). exists prov. by rewrite Hp, Ho. Qed.

Lemma ordered_processors f d l w w1 :
  (∀ procs o l, NoDup (exporters procs) → in_order procs o l →
     in_order (eval (mapM f procs) o) (exec (mapM f procs) o) (l ++ d)) →
  winv w → w_providers w1 = w_providers w → w_out w1 = w_out w →
  ordered l w → ordered (l ++ d) (exec (with_processors 0 f) w1).
Proof.
  intros Hf [_ _ (procs & Hp & Hr & _) _] Hp' Hout (prov & H0 & Hl).
  rewrite Hp in H0. injection H0 as <-. cbn in Hl.
  rewrite (with_processors_Some 0 f w1 (mkProvider _ procs))
    by by rewrite Hp', Hp.
  eexists. cbn. rewrite Hp', Hp, Hout. split; [done|].
  apply Hf; [by apply pipeline_NoDup|done].
Qed.

Lemma ordered_startEvent this name data t l w :
  ordered l w → ordered l (exec (startEvent this name data t) w).
Proof.
  rewrite startEvent_exec. apply ordered_frame; cbn; by autorewrite with eff.
Qed.

Lemma ordered_span_end h t l w :
  winv w → ordered l w → ∃ d, ordered (l ++ d) (exec (span_end h t) w).
Proof.
  intros Hw Hl. pose proof Hw as [_ Ho _].
  destruct (w_spans w !! h) as [sp|] eqn:Hs;
    [destruct (span_live sp) eqn:Hlive|];
    [|exists []; rewrite app_nil_r, span_end_not_open
        by (intros; congruence); done..].
  apply span_live_spec in Hlive as [[p Hp] He].
  assert (p = 0) as -> by (eapply (Forall_lookup_1 _ _ _ _ Ho Hs), Hp).
  rewrite (span_end_open h t w sp 0) by done. eexists [_].
  eapply (ordered_processors _ _ _ w); cbn;
    rewrite ?after_time_providers, ?after_time_out; try done.
  intros procs o l'. apply onEnd_in_order.
Qed.

Lemma ordered_sendEvent this name data st en l w :
  only0 (tracer_delegate (tracer this)) → winv w → ordered l w →
  ∃ d, ordered (l ++ d) (exec (sendEvent this name data st en) w).
Proof.
  intros Hd Hw Hl. sendEvent_as_startEvent.
  by apply ordered_span_end; [apply world_inv_startEvent
                             |apply ordered_startEvent].
Qed.

Lemma ordered_batch_timer p size l w :
  winv w → ordered l w → ordered l (exec (batch_timer p size) w).
Proof.
  intros Hw Hl. destruct p as [|p].
  - rewrite <- (app_nil_r l). apply (ordered_processors _ [] _ w); try done.
    intros procs o l'. apply onTimer_in_order.
  - unfold batch_timer. rewrite with_processors_None; [done|].
    destruct Hw as [_ _ (procs & -> & _) _]. done.
Qed.

(** Every call extends what the processors account for at its end. *)
Lemma step_ordered c s l :
  session_inv context agent debugging s → ordered l (s_world s) →
  ∃ d, ordered (l ++ d) (s_world (step c s)).
Proof.
  intros [Hn Hd Hw] Hl. destruct c; cbn [step s_world];
    [by apply ordered_sendEvent|..|by apply ordered_span_end|];
    exists []; rewrite app_nil_r;
    [by apply ordered_startEvent|done|by apply (ordered_frame l (s_world s))..
    |by apply ordered_batch_timer].
Qed.

(** One batching processor accounts for what it has sent and then for what
    waits. *)
Lemma production_ordered w res config q :
  w_providers w
  = [mkProvider res [BatchSpanProcessor (OTLPTraceExporter config) q]] →
  ordered (sent_to config (w_out w) ++ q) w.
Proof. intros Hp. eexists. rewrite Hp. split; [done|]. by constructor. Qed.

(** The world of a production session: one batching processor, which
    accounts for the finished spans. *)
Lemma production_world_inv w :
  truthy debugging = false → winv w →
  ∃ q,
    w_providers w
    = [mkProvider (resource_attributes context)
         [BatchSpanProcessor (OTLPTraceExporter (production_config agent)) q]]
    ∧ sent_to (production_config agent) (w_out w) ++ q
      ≡ₚ closed_spans (w_spans w).
Proof.
  intros Hd [_ _ (procs & Hp & Hr & Ha) _].
  rewrite production_pipeline in Hr by done.
  destruct procs as [|[|e q] [|]]; try done. injection Hr as ->.
  exists q. split; [done|]. by apply Forall_cons in Ha as [H1 _].
Qed.

(** Every call preserves the invariant. *)
Lemma step_inv c s :
  session_inv context agent debugging s →
  session_inv context agent debugging (step c s).
Proof.
  intros [Hn Hd Hw]. destruct c; split; cbn [step s_this s_world]; try done;
    eauto using world_inv_sendEvent, world_inv_startEvent, world_inv_dispose,
      world_inv_span_setAttributes, world_inv_span_end, world_inv_batch_timer.
Qed.

(** A new adapter in a process that has not used the tracing API. *)
Lemma new_session_inv now ticks b :
  session_inv context agent debugging
    (new_session context agent debugging (initial_world now ticks b)).
Proof.
  unfold new_session.
  rewrite (eff_run_eq (constructor _ _ _)), constructor_eval,
    constructor_exec.
  split; cbn; [done|destruct b; [apply only0_0|apply only0_None]|].
  split; cbn; [apply only0_0|done| |apply emitted_by_empty].
  exists (pipeline agent debugging). split_and!; [done| |].
  - unfold pipeline. by destruct (truthy debugging).
  - unfold pipeline, accounts. destruct (truthy debugging);
      repeat constructor.
Qed.

Lemma new_session_ordered now ticks b :
  ordered []
    (s_world (new_session context agent debugging
                (initial_world now ticks b))).
Proof.
  unfold new_session. rewrite (eff_run_eq (constructor _ _ _)),
    constructor_exec. eexists. split; [done|]. cbn. unfold pipeline.
  destruct (truthy debugging); by repeat constructor.
Qed.

Lemma reachable_inv s :
  reachable context agent debugging s → session_inv context agent debugging s.
Proof.
  induction 1 as [now ticks b|s c _ IH];
    [apply new_session_inv|by apply step_inv].
Qed.

Lemma reachable_run cs s :
  reachable context agent debugging s →
  reachable context agent debugging (run cs s).
Proof.
  revert s; induction cs as [|c cs IH]; intros s Hs; [done|].
  cbn. apply IH. by constructor.
Qed.

(** In every reachable session the processors account for the same spans
    in the same order, *)
Lemma reachable_ordered s :
  reachable context agent debugging s → ∃ l, ordered l (s_world s).
Proof.
  induction 1 as [now ticks b|s c Hs [l Hl]];
    [exists []; apply new_session_ordered|].
  destruct (step_ordered c s l) as [d Hd]; [by apply reachable_inv|done|].
  by exists (l ++ d).
Qed.

(** and whatever is called next, the spans finished later come after
    them. *)
Lemma run_ordered cs s l :
  reachable context agent debugging s → ordered l (s_world s) →
  ∃ d, ordered (l ++ d) (s_world (run cs s)).
Proof.
  revert s l; induction cs as [|c cs IH]; intros s l Hs Hl;
    [exists []; by rewrite app_nil_r|].
  destruct (step_ordered c s l) as [d Hd]; [by apply reachable_inv|done|].
  destruct (IH (step c s) (l ++ d)) as [d' Hd']; [by constructor|done|].
  exists (d ++ d'). by rewrite app_assoc.
Qed.
End invariant.

#[export] Hint Resolve only0_None only0_0 only0_tracer_provider
  world_inv_time world_inv_startSpan world_inv_start_span
  world_inv_span_setAttributes world_inv_set_event_attributes
  world_inv_startEvent world_inv_span_end world_inv_sendEvent
  world_inv_dispose world_inv_batch_timer : session.

(** * What a call does to the spans and to the clock *)

Section steps.
Implicit Types (c : Call) (cs : list Call) (s : Session) (w : World)
  (h p size fuel : nat) (sp : Span).

Lemma lookup_alter_frozen (sc : SpanCall) h h' (l : list Span) sp :
  l !! h = Some sp → span_phase sp = Closed →
  alter (Span_apply sc) h' l !! h = Some sp.
Proof.
  intros Hs Hc. rewrite list_lookup_alter.
  destruct (decide (h' = h)) as [->|]; rewrite Hs; [|done].
  cbn -[Span_apply]. by rewrite Span_apply_Closed.
Qed.

Lemma startEvent_frozen this name data t w h sp :
  w_spans w !! h = Some sp →
  w_spans (exec (startEvent this name data t) w) !! h = Some sp.
Proof.
  intros Hs. rewrite startEvent_exec. cbn. rewrite after_time_spans.
  by apply lookup_alloc_Some.
Qed.

Lemma span_end_frozen h' t w h sp :
  w_spans w !! h = Some sp → span_phase sp = Closed →
  w_spans (exec (span_end h' t) w) !! h = Some sp.
Proof.
  intros Hs Hc. rewrite span_end_spans.
  by apply (lookup_alter_frozen (CallEnd _)).
Qed.

Lemma step_frozen c s h sp :
  w_spans (s_world s) !! h = Some sp → span_phase sp = Closed →
  w_spans (s_world (step c s)) !! h = Some sp.
Proof.
  intros Hs Hc. destruct c; cbn; try done.
  - sendEvent_as_startEvent.
    apply span_end_frozen; [by apply startEvent_frozen|done].
  - by apply startEvent_frozen.
  - by apply (lookup_alter_frozen (CallSetAttributes _)).
  - by apply span_end_frozen.
  - unfold batch_timer. by rewrite with_processors_spans.
Qed.

Lemma run_cons c cs s : run (c :: cs) s = run cs (step c s).
Proof. reflexivity. Qed.

(** ** The timer that fires until the queues are empty *)

Lemma queued_batch_timer p size w :
  (0 < size)%nat → queued p w ≠ [] →
  (length (queued p (exec (batch_timer p size) w))
   < length (queued p w))%nat.
Proof.
  unfold queued, batch_timer. intros Hs.
  destruct (w_providers w !! p) as [prov|] eqn:Hp; [|done].
  rewrite (with_processors_Some _ _ _ prov) by done. cbn.
  rewrite list_lookup_insert_eq by (by eapply lookup_lt_Some). cbn.
  by apply onTimer_waiting_lt.
Qed.

Lemma run_timers_S n p size s :
  run (replicate (S n) (Timer p size)) s
  = run (replicate n (Timer p size)) (step (Timer p size) s).
Proof. reflexivity. Qed.

(** Timers change neither the adapter nor the spans. *)
Lemma run_timers_spans n p size s :
  s_this (run (replicate n (Timer p size)) s) = s_this s
  ∧ w_spans (s_world (run (replicate n (Timer p size)) s))
    = w_spans (s_world s).
Proof.
  revert s; induction n as [|n IH]; intros s; [done|].
  rewrite run_timers_S. destruct (IH (step (Timer p size) s)) as [-> ->].
  split; [done|]. cbn. unfold batch_timer. by rewrite with_processors_spans.
Qed.

(** With enough fuel the timer stops: it has fired once per waiting span at
    most, and nothing waits any more. *)
Lemma timers_run fuel p size s :
  (0 < size)%nat → (length (queued p (s_world s)) ≤ fuel)%nat →
  ∃ n, (n ≤ length (queued p (s_world s)))%nat
    ∧ timers fuel p size s = Some (run (replicate n (Timer p size)) s)
    ∧ queued p (s_world (run (replicate n (Timer p size)) s)) = [].
Proof.
  intros Hs. revert s; induction fuel as [|fuel IH]; intros s Hf;
    cbn [timers];
    (destruct (queued p (s_world s)) as [|x q] eqn:Hq;
      [by exists 0|cbn in Hf; try lia]).
  pose proof (queued_batch_timer p size (s_world s) Hs) as Hlt.
  rewrite Hq in Hlt. specialize (Hlt ltac:(done)). cbn in Hlt.
  destruct (IH (step (Timer p size) s)) as (n & Hn & Ht & He); [cbn; lia|].
  exists (S n). cbn in Hn. split_and!; [cbn; lia|done|done].
Qed.

(** ** The requests of a batching processor *)

(** One firing on a pipeline of one batching processor. *)
Lemma batch_timer_batch p size w res config q :
  (0 < size)%nat → q ≠ [] →
  w_providers w !! p
  = Some (mkProvider res [BatchSpanProcessor (OTLPTraceExporter config) q]) →
  exec (batch_timer p size) w
  = set_out
      (mkOutput (console (w_out w))
         (network (w_out w) ++ [(config, take size q)]))
      (set_providers
         (<[p := mkProvider res
                   [BatchSpanProcessor (OTLPTraceExporter config)
                      (drop size q)]]>) w).
Proof.
  intros Hs Hq Hp. unfold batch_timer.
  rewrite (with_processors_Some _ _ _ _ Hp). cbn [spanProcessors resource].
  unfold eval, exec. by rewrite onTimer_batch_pipeline.
Qed.

Lemma batches_sent_nil p res config s :
  w_providers (s_world s) !! p
  = Some (mkProvider res [BatchSpanProcessor (OTLPTraceExporter config) []]) →
  batches_sent p res config [] s = s.
Proof.
  intros Hp. destruct s as [this [c ts b sps ps g d [co ne]]].
  unfold batches_sent, set_out, set_providers; cbn in *.
  by rewrite app_nil_r, list_insert_id.
Qed.

Lemma batches_sent_step p size res config q s :
  (0 < size)%nat → q ≠ [] →
  w_providers (s_world s) !! p
  = Some (mkProvider res [BatchSpanProcessor (OTLPTraceExporter config) q]) →
  batches_sent p res config (batches size (drop size q))
    (step (Timer p size) s)
  = batches_sent p res config (batches size q) s.
Proof.
  intros Hs Hq Hp. cbn [step]. rewrite (batch_timer_batch _ _ _ _ _ _ Hs Hq Hp).
  unfold batches_sent, set_out, set_providers; cbn.
  by rewrite list_insert_insert_eq, requests_step.
Qed.

(** The timer that fires until nothing waits sends the queue cut into
    batches, oldest spans first, and needs as many firings as there are
    batches. *)
Lemma timers_batches fuel p size s res config q :
  (0 < size)%nat →
  w_providers (s_world s) !! p
  = Some (mkProvider res [BatchSpanProcessor (OTLPTraceExporter config) q]) →
  (length (batches size q) ≤ fuel)%nat →
  timers fuel p size s
  = Some (batches_sent p res config (batches size q) s).
Proof.
  intros Hs. revert s q; induction fuel as [|fuel IH]; intros s q Hp Hf;
    cbn [timers]; unfold queued; rewrite Hp; cbn [spanProcessors waiting
      fmap list_fmap pending concat]; rewrite app_nil_r;
    (destruct (decide (q = [])) as [->|Hq];
      [by rewrite batches_nil, batches_sent_nil|]);
    rewrite (batches_step size q) in Hf by done; cbn in Hf; [lia|].
  destruct q as [|x q']; [done|].
  rewrite <- (batches_sent_step p size res config (x :: q') s) by done.
  apply IH; [|lia]. cbn [step s_world].
  rewrite (batch_timer_batch _ _ _ _ _ _ Hs Hq Hp). cbn.
  apply list_lookup_insert_eq. by eapply lookup_lt_Some.
Qed.

(** Fewer firings than batches do not empty the queue. *)
Lemma timers_batches_None fuel p size s res config q :
  (0 < size)%nat →
  w_providers (s_world s) !! p
  = Some (mkProvider res [BatchSpanProcessor (OTLPTraceExporter config) q]) →
  (fuel < length (batches size q))%nat →
  timers fuel p size s = None.
Proof.
  intros Hs. revert s q; induction fuel as [|fuel IH]; intros s q Hp Hf;
    cbn [timers]; unfold queued; rewrite Hp; cbn [spanProcessors waiting
      fmap list_fmap pending concat]; rewrite app_nil_r;
    (destruct (decide (q = [])) as [->|Hq];
      [rewrite batches_nil in Hf; cbn in Hf; lia|]);
    (destruct q as [|x q'] eqn:Hx; [done|]); [done|].
  rewrite <- Hx in *. rewrite (batches_step size q) in Hf by done.
  cbn in Hf. apply (IH _ (drop size q)); [|lia]. cbn [step s_world].
  rewrite (batch_timer_batch _ _ _ _ _ _ Hs Hq Hp). cbn.
  apply list_lookup_insert_eq. by eapply lookup_lt_Some.
Qed.

(** A timer that takes no span at a time never empties a queue. *)
Lemma queued_batch_timer_0 p w :
  queued p (exec (batch_timer p 0) w) = queued p w.
Proof.
  unfold queued, batch_timer.
  destruct (w_providers w !! p) as [prov|] eqn:Hp;
    [|by rewrite with_processors_None, Hp].
  rewrite (with_processors_Some _ _ _ prov) by done. cbn.
  rewrite list_lookup_insert_eq by (by eapply lookup_lt_Some). cbn.
  by rewrite mapM_onTimer_0.
Qed.

Lemma timers_size_0 fuel p s :
  queued p (s_world s) ≠ [] → timers fuel p 0 s = None.
Proof.
  revert s; induction fuel as [|fuel IH]; intros s Hq; cbn [timers];
    (destruct (queued p (s_world s)) as [|x q] eqn:Hx; [done|]); [done|].
  apply IH. cbn [step s_world]. by rewrite queued_batch_timer_0, Hx.
Qed.
End steps.

(** * The invariants of a session *)

Section theorems.
Context (context : TelemetryContext) (agent : option HttpsProxyAgent).
Implicit Types (debugging : option bool) (c : Call) (cs : list Call)
  (s : Session) (h : nat) (sp : Span).

(** C8: in every reachable session the adapter's provider is the only one, it
    has the resource and the processors it was constructed with, and each
    of its processors accounts for exactly the finished spans of the heap:
    what its exporter has emitted together with what waits in its queue is
    a rearrangement of them.  No finished span is lost, none is exported
    twice, and nothing else is exported. *)
Theorem reachable_conservation debugging s :
  reachable context agent debugging s →
  ∃ procs,
    w_providers (s_world s) = [mkProvider (resource_attributes context) procs]
    ∧ reset <$> procs = pipeline agent debugging
    ∧ Forall (λ proc, accounted proc (w_out (s_world s))
                      ≡ₚ closed_spans (w_spans (s_world s))) procs.
Proof.
  intros Hs. by destruct (reachable_inv _ _ _ _ Hs) as [_ _ [_ _ Hp _]].
Qed.

(** ** Where the output goes *)

(** In debugging mode the provider has the two simple processors, which
    hold nothing. *)
Lemma debug_providers w :
  world_inv context agent (Some true) w →
  w_providers w
  = [mkProvider (resource_attributes context) (pipeline agent (Some true))].
Proof.
  intros [_ _ (procs & -> & Hr & _) _].
  destruct procs as [|[e1|] [|[e2|] [|]]]; try done. by injection Hr as -> ->.
Qed.

(** The end of a span prints it and sends it, alone in its request, to the
    development endpoint, or does nothing. *)
Lemma debug_span_end_out h t w :
  world_inv context agent (Some true) w →
  w_out (exec (span_end h t) w) = w_out w
  ∨ ∃ sp,
      w_out (exec (span_end h t) w)
      = mkOutput (console (w_out w) ++ [sp])
          (network (w_out w) ++ [(dev_config agent, [sp])]).
Proof.
  intros Hw. pose proof Hw as [_ Ho _].
  pose proof (debug_providers w Hw) as Hp.
  destruct (w_spans w !! h) as [sp|] eqn:Hs;
    [destruct (span_live sp) eqn:Hl|];
    [|left; by rewrite span_end_not_open by (intros; congruence)..].
  apply span_live_spec in Hl as [[p Hpo] He].
  assert (p = 0) as -> by (eapply (Forall_lookup_1 _ _ _ _ Ho Hs), Hpo).
  right. eexists.
  by rewrite (span_end_open_world h t w sp 0 (mkProvider _ _))
    by (try done; by rewrite Hp).
Qed.

(** So does every call of a debugging session. *)
Lemma debug_step_out c s :
  session_inv context agent (Some true) s →
  w_out (s_world (step c s)) = w_out (s_world s)
  ∨ ∃ sp,
      w_out (s_world (step c s))
      = mkOutput (console (w_out (s_world s)) ++ [sp])
          (network (w_out (s_world s)) ++ [(dev_config agent, [sp])]).
Proof.
  intros [Hn Hd Hw]. destruct c as [name data st en| | | | |h t|p size];
    cbn [step s_world]; [| |by left..| |].
  - sendEvent_as_startEvent.
    destruct (debug_span_end_out (eval (startEvent (s_this s) name data st)
                                    (s_world s)) en
                (exec (startEvent (s_this s) name data st) (s_world s)))
      as [Ho|[sp Ho]]; [by apply world_inv_startEvent|left|right; exists sp];
      rewrite Ho, startEvent_exec; cbn; by rewrite after_time_out.
  - left. rewrite startEvent_exec. cbn. by rewrite after_time_out.
  - by apply debug_span_end_out.
  - left. unfold batch_timer. destruct p as [|p];
      [|by rewrite with_processors_None by (by rewrite (debug_providers _ Hw))].
    by rewrite (with_processors_Some _ _ _ (mkProvider _ _))
      by (by rewrite (debug_providers _ Hw)).
Qed.

(** In debugging mode the console and the development endpoint receive
    the spans in the same order. *)
Lemma debug_exports_in_order s :
  reachable context agent (Some true) s →
  console (w_out (s_world s)) = sent_to (dev_config agent) (w_out (s_world s)).
Proof.
  intros Hs. destruct (reachable_ordered _ _ _ _ Hs) as (l & prov & H0 & Hl).
  destruct (reachable_inv _ _ _ _ Hs) as [_ _ [_ _ (procs & Hp & Hr & _) _]].
  rewrite Hp in H0. injection H0 as <-. cbn in Hl.
  destruct procs as [|[e1|] [|[e2|] [|]]]; try done. injection Hr as -> ->.
  apply Forall_cons in Hl as [H1 Hl]. apply Forall_cons in Hl as [H2 _].
  unfold accounted in *. cbn in *. rewrite !app_nil_r in *. congruence.
Qed.

(** C16: in debugging mode nothing ever waits: in every reachable session the
    console and the development endpoint have each received exactly the
    finished spans, and both in the same order. *)
Theorem debug_sessions_export_all s :
  reachable context agent (Some true) s →
  console (w_out (s_world s)) ≡ₚ closed_spans (w_spans (s_world s))
  ∧ sent_to (dev_config agent) (w_out (s_world s))
    ≡ₚ closed_spans (w_spans (s_world s))
  ∧ console (w_out (s_world s))
    = sent_to (dev_config agent) (w_out (s_world s)).
Proof.
  intros Hs. split_and!; [| |by apply debug_exports_in_order];
    destruct (reachable_inv _ _ _ _ Hs) as [_ _ [_ _ (procs & _ & Hr & Ha) _]];
    (destruct procs as [|[e1|] [|[e2|] [|]]]; try done);
    injection Hr as -> ->;
    apply Forall_cons in Ha as [H1 Ha]; apply Forall_cons in Ha as [H2 _];
    unfold accounted in *; cbn in *; by rewrite !app_nil_r in *.
Qed.

(** C17: in debugging mode the network mirrors the console.  In every
    reachable session the requests sent are, in order, one request to the
    development endpoint for each span printed on the console, carrying
    that span alone: nothing is batched, nothing goes to another endpoint,
    and neither destination has a span the other lacks, however the calls
    and the timers interleave. *)
Theorem debug_requests_mirror_console s :
  reachable context agent (Some true) s →
  network (w_out (s_world s))
  = requests (dev_config agent) ((λ sp, [sp]) <$> console (w_out (s_world s))).
Proof.
  induction 1 as [now ticks b|s c Hs IH].
  - unfold new_session.
    by rewrite (eff_run_eq (constructor _ _ _)), constructor_exec.
  - destruct (debug_step_out c s) as [->|[sp ->]];
      [by apply reachable_inv|done|].
    cbn. rewrite IH. unfold requests. by rewrite !fmap_app.
Qed.

(** C18: in production mode nothing is printed and every request goes to the
    production endpoint, gzip-compressed and with the agent's options:
    in no reachable session is there a span on the console or a request
    with another configuration. *)
Theorem production_requests_endpoint debugging s :
  truthy debugging = false →
  reachable context agent debugging s →
  console (w_out (s_world s)) = []
  ∧ Forall (λ r, r.1 = production_config agent) (network (w_out (s_world s))).
Proof.
  intros Hd Hs. destruct (reachable_inv _ _ _ _ Hs) as [_ _ [_ _ _ He]].
  rewrite production_pipeline in He by done. destruct He as [Hc Hn].
  split.
  - destruct Hc as [Hc|Hc]; [done|]. by apply list_elem_of_singleton in Hc.
  - eapply Forall_impl; [exact Hn|]. intros r Hr. cbn in Hr.
    apply list_elem_of_singleton in Hr. by injection Hr.
Qed.

(** C19: first in, first out.  In production mode, whatever is called next
    (events, ends of spans, timers of any batch size, [dispose]), the spans
    that were sent or wait in the queue stay in front and in their order:
    what has been sent followed by what waits afterwards is what had been
    sent followed by what waited before, followed by the spans [d]
    finished by the calls.  No span overtakes a span that finished before
    it. *)
Theorem production_fifo debugging s cs :
  truthy debugging = false →
  reachable context agent debugging s →
  ∃ q q' d,
    w_providers (s_world s)
    = [mkProvider (resource_attributes context)
         [BatchSpanProcessor (OTLPTraceExporter (production_config agent)) q]]
    ∧ w_providers (s_world (run cs s))
      = [mkProvider (resource_attributes context)
           [BatchSpanProcessor (OTLPTraceExporter (production_config agent))
              q']]
    ∧ sent_to (production_config agent) (w_out (s_world (run cs s))) ++ q'
      = (sent_to (production_config agent) (w_out (s_world s)) ++ q) ++ d
    ∧ closed_spans (w_spans (s_world (run cs s)))
      ≡ₚ closed_spans (w_spans (s_world s)) ++ d.
Proof.
  intros Hd Hs. pose proof (reachable_run _ _ _ cs _ Hs) as Hs'.
  destruct (reachable_inv _ _ _ _ Hs) as [_ _ Hw].
  destruct (reachable_inv _ _ _ _ Hs') as [_ _ Hw'].
  destruct (production_world_inv _ _ _ _ Hd Hw) as (q & Hp & Ha).
  destruct (production_world_inv _ _ _ _ Hd Hw') as (q' & Hp' & Ha').
  destruct (run_ordered _ _ _ cs s _ Hs (production_ordered _ _ _ _ Hp))
    as (d & prov & H0 & Hl).
  rewrite Hp' in H0. injection H0 as <-.
  apply Forall_cons in Hl as [Hl _]. unfold accounted in Hl. cbn in Hl.
  exists q, q', d. split_and!; [done..|]. by rewrite <- Ha', Hl, Ha.
Qed.

(** C20: in production mode nothing waits for ever: the batching timer,
    which fires while spans wait and takes [size] of them at a time, stops
    when it may fire once per finished span; the queue is then empty and
    the production endpoint has received every finished span. *)
Theorem production_timer_delivers debugging s size fuel :
  truthy debugging = false →
  reachable context agent debugging s →
  (0 < size)%nat →
  (length (closed_spans (w_spans (s_world s))) ≤ fuel)%nat →
  ∃ s',
    timers fuel 0 size s = Some s'
    ∧ w_providers (s_world s')
      = [mkProvider (resource_attributes context)
           [BatchSpanProcessor (OTLPTraceExporter (production_config agent))
              []]]
    ∧ sent_to (production_config agent) (w_out (s_world s'))
      ≡ₚ closed_spans (w_spans (s_world s)).
Proof.
  intros Hd Hs Hsize Hfuel.
  destruct (reachable_inv _ _ _ _ Hs) as [_ _ Hw].
  destruct (production_world_inv _ _ _ _ Hd Hw) as (q & Hp & Ha).
  apply Permutation_length in Ha. rewrite length_app in Ha.
  destruct (timers_run fuel 0 size s Hsize) as (n & _ & Ht & Hq).
  { unfold queued. rewrite Hp. cbn. rewrite app_nil_r. lia. }
  exists (run (replicate n (Timer 0 size)) s). split; [done|].
  pose proof (reachable_run _ _ _ (replicate n (Timer 0 size)) _ Hs) as Hs'.
  destruct (reachable_inv _ _ _ _ Hs') as [_ _ Hw'].
  destruct (production_world_inv _ _ _ _ Hd Hw') as (q' & Hp' & Ha').
  rewrite (proj2 (run_timers_spans _ _ _ _)) in Ha'.
  unfold queued in Hq. rewrite Hp' in Hq. cbn in Hq.
  rewrite app_nil_r in Hq. subst q'. by rewrite app_nil_r in Ha'.
Qed.

(** C21: in production mode the spans leave in the order they wait, cut into
    batches: the timer that fires until nothing waits sends the queue [q]
    as the requests [batches size q], after the requests sent before and
    with nothing on the console; the batches put together are the queue,
    their number is the length of the queue divided by [size] and rounded
    up, and the timer needs exactly that many firings: with fewer it has
    not finished. *)
Theorem production_timer_batches debugging s size :
  truthy debugging = false →
  reachable context agent debugging s →
  (0 < size)%nat →
  ∃ q,
    w_providers (s_world s)
    = [mkProvider (resource_attributes context)
         [BatchSpanProcessor (OTLPTraceExporter (production_config agent)) q]]
    ∧ concat (batches size q) = q
    ∧ (length q ≤ size * length (batches size q) < length q + size)%nat
    ∧ ∀ fuel,
        timers fuel 0 size s
        = if decide (length (batches size q) ≤ fuel)%nat
          then Some (batches_sent 0 (resource_attributes context)
                       (production_config agent) (batches size q) s)
          else None.
Proof.
  intros Hd Hs Hsize.
  destruct (reachable_inv _ _ _ _ Hs) as [_ _ Hw].
  destruct (production_world_inv _ _ _ _ Hd Hw) as (q & Hp & _).
  exists q. split; [done|]. split; [by apply concat_batches|].
  split; [by apply length_batches|].
  assert (w_providers (s_world s) !! 0
          = Some (mkProvider (resource_attributes context)
                    [BatchSpanProcessor
                       (OTLPTraceExporter (production_config agent)) q]))
    as H0 by (by rewrite Hp).
  intros fuel. case_decide;
    eauto using timers_batches, timers_batches_None with lia.
Qed.

(** C22: the batching timer stops: when it takes at least one span at a time
    and may fire once per waiting span, it has fired [n] times, [n] not
    more than the number of spans that waited, and nothing waits any more;
    the adapter and the spans are as they were. *)
Theorem timers_terminate fuel p size s :
  (0 < size)%nat → (length (queued p (s_world s)) ≤ fuel)%nat →
  ∃ n s',
    (n ≤ length (queued p (s_world s)))%nat
    ∧ timers fuel p size s = Some s'
    ∧ s' = run (replicate n (Timer p size)) s
    ∧ queued p (s_world s') = []
    ∧ s_this s' = s_this s
    ∧ w_spans (s_world s') = w_spans (s_world s).
Proof.
  intros Hsize Hfuel.
  destruct (timers_run fuel p size s Hsize Hfuel) as (n & Hn & Ht & Hq).
  exists n, (run (replicate n (Timer p size)) s).
  split_and!; try done; apply run_timers_spans.
Qed.

(** C15: nothing but finished spans of the heap is ever emitted: a span on the
    console or in a request to the network is a closed span of the heap.
    In particular a span that [startEvent] returned and that was never
    ended is exported nowhere. *)
Theorem reachable_exports_closed debugging s x :
  reachable context agent debugging s →
  x ∈ console (w_out (s_world s))
  ∨ (∃ r, r ∈ network (w_out (s_world s)) ∧ x ∈ r.2) →
  span_phase x = Closed ∧ x ∈ w_spans (s_world s).
Proof.
  intros Hs Hx.
  destruct (reachable_inv _ _ _ _ Hs)
    as [_ _ [_ _ (procs & _ & Hr & Ha) Hem]].
  destruct (emitted_by_delivered _ _ _ Hem Hx) as (e & He & Hd).
  rewrite <- Hr, exporters_reset in He.
  apply (accounts_delivered _ _ _ _ _ Ha He) in Hd.
  by apply list_elem_of_filter in Hd.
Qed.

(** C24: a finished span is never modified: whatever is called afterwards, the
    span stays in the heap under its handle as it was when it ended. *)
Theorem run_closed_span_frozen cs s h sp :
  w_spans (s_world s) !! h = Some sp → span_phase sp = Closed →
  w_spans (s_world (run cs s)) !! h = Some sp.
Proof.
  revert s; induction cs as [|c cs IH]; intros s Hs Hc; [done|].
  rewrite run_cons. apply IH; [by apply step_frozen|done].
Qed.

End theorems.

(** * Instances on the concrete sessions *)

Lemma demo_session_reachable : reachable demo_context None None demo_session.
Proof. apply reachable_run, reachable_new. Qed.

Lemma demo_debug_session_reachable :
  reachable demo_context None (Some true) demo_debug_session.
Proof. apply reachable_run, reachable_new. Qed.

Lemma reachable_conservation_witness :
  reachable demo_context None None demo_session
  ∧ ∃ procs,
      w_providers (s_world demo_session)
      = [mkProvider (resource_attributes demo_context) procs]
      ∧ reset <$> procs = pipeline None None
      ∧ Forall (λ proc, accounted proc (w_out (s_world demo_session))
                        ≡ₚ closed_spans (w_spans (s_world demo_session)))
          procs.
Proof.
  split; [apply demo_session_reachable|].
  apply reachable_conservation, demo_session_reachable.
Defined.

Lemma debug_sessions_export_all_witness :
  reachable demo_context None (Some true) demo_debug_session
  ∧ console (w_out (s_world demo_debug_session))
    ≡ₚ closed_spans (w_spans (s_world demo_debug_session)).
Proof.
  split; [apply demo_debug_session_reachable|].
  exact (proj1 (debug_sessions_export_all demo_context None
                  demo_debug_session demo_debug_session_reachable)).
Defined.

Lemma debug_requests_mirror_console_witness :
  reachable demo_context None (Some true) demo_debug_session
  ∧ network (w_out (s_world demo_debug_session))
    = requests (dev_config None)
        ((λ sp, [sp]) <$> console (w_out (s_world demo_debug_session))).
Proof.
  split; [apply demo_debug_session_reachable|].
  apply (debug_requests_mirror_console demo_context None),
    demo_debug_session_reachable.
Defined.

(** The console of [demo_debug_session] shows two spans, so two requests
    have been sent. *)
Example demo_debug_session_requests :
  span_name <$> console (w_out (s_world demo_debug_session))
  = ["commit"; "clone"]
  ∧ length (network (w_out (s_world demo_debug_session))) = 2%nat.
Proof. by vm_compute. Qed.

Lemma production_requests_endpoint_witness :
  (truthy None = false ∧ reachable demo_context None None demo_session)
  ∧ console (w_out (s_world demo_session)) = []
  ∧ Forall (λ r, r.1 = production_config None)
      (network (w_out (s_world demo_session))).
Proof.
  split; [split; [reflexivity|apply demo_session_reachable]|].
  apply (production_requests_endpoint demo_context None None demo_session
           eq_refl demo_session_reachable).
Defined.

Lemma production_fifo_witness :
  (truthy None = false ∧ reachable demo_context None None demo_waiting)
  ∧ ∃ q q' d,
      w_providers (s_world demo_waiting)
      = [mkProvider (resource_attributes demo_context)
           [BatchSpanProcessor (OTLPTraceExporter (production_config None))
              q]]
      ∧ w_providers
          (s_world (run [Timer 0 2; SendEvent "pull" None None None]
                      demo_waiting))
        = [mkProvider (resource_attributes demo_context)
             [BatchSpanProcessor
                (OTLPTraceExporter (production_config None)) q']]
      ∧ sent_to (production_config None)
          (w_out (s_world (run [Timer 0 2; SendEvent "pull" None None None]
                             demo_waiting))) ++ q'
        = (sent_to (production_config None) (w_out (s_world demo_waiting))
           ++ q) ++ d
      ∧ closed_spans
          (w_spans (s_world (run [Timer 0 2; SendEvent "pull" None None None]
                               demo_waiting)))
        ≡ₚ closed_spans (w_spans (s_world demo_waiting)) ++ d.
Proof.
  assert (reachable demo_context None None demo_waiting) as Hs
    by apply reachable_run, reachable_new.
  split; [by split|].
  apply (production_fifo demo_context None None demo_waiting
           [Timer 0 2; SendEvent "pull" None None None] eq_refl Hs).
Defined.

(** The span of the event sent first is still as it was after the global
    attributes are replaced and after calls on its handle. *)
Lemma run_closed_span_frozen_witness :
  (w_spans (s_world demo_sent) !! 0
   = Some (first_span demo_context "commit" (Some demo_data) 1000 1003
             (demo_start BindAtCall))
   ∧ span_phase (first_span demo_context "commit" (Some demo_data) 1000 1003
                   (demo_start BindAtCall)) = Closed)
  ∧ w_spans (s_world (run [SetGlobalAttributes demo_globals;
                           SpanSetAttributes 0 demo_data;
                           SpanEnd 0 (Some 5%Z);
                           Dispose] demo_sent)) !! 0
    = Some (first_span demo_context "commit" (Some demo_data) 1000 1003
              (demo_start BindAtCall)).
Proof.
  assert (w_spans (s_world demo_sent) !! 0
          = Some (first_span demo_context "commit" (Some demo_data) 1000 1003
                    (demo_start BindAtCall))) as Hs
    by (vm_compute; reflexivity).
  split; [by split|]. by apply run_closed_span_frozen.
Defined.

Lemma production_timer_delivers_witness :
  (truthy None = false ∧ reachable demo_context None None demo_waiting
   ∧ (0 < 2)%nat
   ∧ (length (closed_spans (w_spans (s_world demo_waiting))) ≤ 3)%nat)
  ∧ ∃ s',
      timers 3 0 2 demo_waiting = Some s'
      ∧ w_providers (s_world s')
        = [mkProvider (resource_attributes demo_context)
             [BatchSpanProcessor
                (OTLPTraceExporter (production_config None)) []]]
      ∧ sent_to (production_config None) (w_out (s_world s'))
        ≡ₚ closed_spans (w_spans (s_world demo_waiting)).
Proof.
  assert (reachable demo_context None None demo_waiting) as Hs
    by apply reachable_run, reachable_new.
  assert (length (closed_spans (w_spans (s_world demo_waiting))) ≤ 3)%nat
    as Hf by (vm_compute; lia).
  split; [split_and!; [reflexivity|done|lia|done]|].
  apply (production_timer_delivers demo_context None None demo_waiting 2 3
           eq_refl Hs); [lia|done].
Defined.

Lemma production_timer_batches_witness :
  (truthy None = false ∧ reachable demo_context None None demo_waiting
   ∧ (0 < 2)%nat)
  ∧ ∃ q,
      w_providers (s_world demo_waiting)
      = [mkProvider (resource_attributes demo_context)
           [BatchSpanProcessor (OTLPTraceExporter (production_config None))
              q]]
      ∧ concat (batches 2 q) = q
      ∧ (length q ≤ 2 * length (batches 2 q) < length q + 2)%nat
      ∧ ∀ fuel,
          timers fuel 0 2 demo_waiting
          = if decide (length (batches 2 q) ≤ fuel)%nat
            then Some (batches_sent 0 (resource_attributes demo_context)
                         (production_config None) (batches 2 q) demo_waiting)
            else None.
Proof.
  assert (reachable demo_context None None demo_waiting) as Hs
    by apply reachable_run, reachable_new.
  split; [split_and!; [reflexivity|done|lia]|].
  apply (production_timer_batches demo_context None None demo_waiting 2
           eq_refl Hs). lia.
Defined.

(** The three spans that wait in [demo_waiting] leave in two requests, two
    spans and then one; one firing is not enough. *)
Example demo_waiting_batches :
  (network ∘ w_out ∘ s_world <$> timers 2 0 2 demo_waiting)
  = Some (requests (production_config None)
            [take 2 (closed_spans (w_spans (s_world demo_waiting)));
             drop 2 (closed_spans (w_spans (s_world demo_waiting)))])
  ∧ timers 1 0 2 demo_waiting = None.
Proof. by vm_compute. Qed.

Lemma timers_terminate_witness :
  ((0 < 2)%nat ∧ (length (queued 0 (s_world demo_waiting)) ≤ 3)%nat)
  ∧ ∃ n s',
      (n ≤ length (queued 0 (s_world demo_waiting)))%nat
      ∧ timers 3 0 2 demo_waiting = Some s'
      ∧ s' = run (replicate n (Timer 0 2)) demo_waiting
      ∧ queued 0 (s_world s') = []
      ∧ s_this s' = s_this demo_waiting
      ∧ w_spans (s_world s') = w_spans (s_world demo_waiting).
Proof.
  assert (length (queued 0 (s_world demo_waiting)) ≤ 3)%nat
    as Hf by (vm_compute; lia).
  split; [split; [lia|done]|].
  apply (timers_terminate 3 0 2 demo_waiting); [lia|done].
Defined.

(** The event sent first is on the console of the debugging session, and
    is therefore a finished span of the heap. *)
Lemma reachable_exports_closed_witness :
  (reachable demo_context None (Some true) demo_debug_session
   ∧ (sent_span (demo_this (Some true) BindAtCreation) "commit"
        (Some demo_data) 1000 1003 0
      ∈ console (w_out (s_world demo_debug_session))
      ∨ ∃ r, r ∈ network (w_out (s_world demo_debug_session))
             ∧ sent_span (demo_this (Some true) BindAtCreation) "commit"
                 (Some demo_data) 1000 1003 0 ∈ r.2))
  ∧ span_phase (sent_span (demo_this (Some true) BindAtCreation) "commit"
                  (Some demo_data) 1000 1003 0) = Closed.
Proof.
  assert (sent_span (demo_this (Some true) BindAtCreation) "commit"
            (Some demo_data) 1000 1003 0
          ∈ console (w_out (s_world demo_debug_session))) as Hx.
  { apply (list_elem_of_lookup_2 _ 0). vm_compute. reflexivity. }
  split; [split; [apply demo_debug_session_reachable|by left]|].
  exact (proj1 (reachable_exports_closed demo_context None (Some true)
                  demo_debug_session _ demo_debug_session_reachable
                  (or_introl Hx))).
Defined.
