(* ===== verification/Contract.v ===== *)
(** The contract of the adapter: an event log.

    The class implements the interface [TelemetryProvider] of ./telemetry
    (openTelemetryProvider.ts, lines 14 and 16).  What the interface
    promises to the rest of the extension does not mention providers,
    processors or exporters: an event that is sent is recorded with its
    name, with [data] over the global attributes and with its times; an
    event that is started is recorded open and is closed by the caller.
    [Log] is that abstract state, the [a_] operations are the contract, and
    [abs] reads the log off a session.  The theorems show that the adapter
    refines the contract: every call on a session is the corresponding
    operation on its log. *)

From stdpp Require Import base gmap strings list fin_maps.
From S2P Require Import Prelude Attributes Spans Pipeline TraceApi.
From S2P Require Import Provider Sessions.

#[local] Open Scope string_scope.
#[local] Open Scope list_scope.

(** * The interface *)

(** The methods of [TelemetryProvider], on a state [S] that holds the
    provider object and whatever it acts on. *)
Class TelemetryProvider (S : Type) : Type := {
  tp_sendEvent : string → option Attributes → option Z → option Z → S → S;
  tp_startEvent : string → option Attributes → option Z → S → nat * S;
  tp_setGlobalAttributes : list Entry → S → S;
  tp_dispose : S → S;
}.

(** A call of a method of the interface. *)
Inductive Method : Type :=
  | MSendEvent (name : string) (data : option Attributes)
      (startTime endTime : option Z)
  | MStartEvent (name : string) (data : option Attributes)
      (startTime : option Z)
  | MSetGlobalAttributes (attributes : list Entry)
  | MDispose.

Definition call {S} `{TelemetryProvider S} (m : Method) (s : S) : S :=
  match m with
  | MSendEvent name data st en => tp_sendEvent name data st en s
  | MStartEvent name data st => (tp_startEvent name data st s).2
  | MSetGlobalAttributes attrs => tp_setGlobalAttributes attrs s
  | MDispose => tp_dispose s
  end.

(** [abs] maps the states of an implementation to those of a
    specification so that every method commutes with it. *)
Class Refines {S A} `{TelemetryProvider S} `{TelemetryProvider A}
    (abs : S → A) : Prop := {
  refines_sendEvent name data st en s :
    abs (tp_sendEvent name data st en s)
    = tp_sendEvent name data st en (abs s);
  refines_startEvent name data st s :
    (tp_startEvent name data st s).1 = (tp_startEvent name data st (abs s)).1
    ∧ abs (tp_startEvent name data st s).2
      = (tp_startEvent name data st (abs s)).2;
  refines_setGlobalAttributes attrs s :
    abs (tp_setGlobalAttributes attrs s)
    = tp_setGlobalAttributes attrs (abs s);
  refines_dispose s : abs (tp_dispose s) = tp_dispose (abs s);
}.

(** * The abstract state *)

(** An event as a caller sees it; it is open until it has an end time. *)
Record Event : Type := mkEvent {
  ev_name : string;
  ev_attributes : Attributes;
  ev_start : Z;
  ev_end : option Z;
}.

(** The log: the clock, the global attributes, whether the tracer handle is
    bound to its provider and whether a provider is active, and one entry
    per span handle given out, empty when the span records nothing. *)
Record Log : Type := mkLog {
  l_clock : Z;
  l_ticks : list nat;
  l_globals : Attributes;
  l_bound : bool;
  l_active : bool;
  l_events : list (option Event);
}.

(** * The contract *)

Definition a_recording (l : Log) : bool := l_bound l || l_active l.

(** The time of a call: the given one, or a reading of the clock. *)
Definition a_time (t : option Z) (l : Log) : Z * Log :=
  match t with
  | Some t => (t, l)
  | None =>
      (l_clock l,
       mkLog (l_clock l + Z.of_nat (hd 0 (l_ticks l))) (tl (l_ticks l))
         (l_globals l) (l_bound l) (l_active l) (l_events l))
  end.

Definition a_set_events (f : list (option Event) → list (option Event))
    (l : Log) : Log :=
  mkLog (l_clock l) (l_ticks l) (l_globals l) (l_bound l) (l_active l)
    (f (l_events l)).

(** Starting an event: one more entry, open, with [data] over the global
    attributes. *)
Definition a_startEvent (name : string) (data : option Attributes)
    (startTime : option Z) (l : Log) : nat * Log :=
  let r := a_time startTime l in
  (length (l_events l),
   a_set_events
     (λ es, es ++ [if a_recording l
                   then Some (mkEvent name (default ∅ data ∪ l_globals l)
                                r.1 None)
                   else None]) r.2).

(** The caller annotates an open event. *)
Definition a_annotate (attrs : Attributes) (e : option Event) : option Event :=
  match e with
  | Some (mkEvent name old start None) =>
      Some (mkEvent name (attrs ∪ old) start None)
  | _ => e
  end.

Definition a_setAttributes (h : nat) (attrs : Attributes) (l : Log) : Log :=
  a_set_events (alter (a_annotate attrs) h) l.

(** Ending an open event fixes its end time; nothing else can be ended, and
    then the clock is not read. *)
Definition a_end (h : nat) (endTime : option Z) (l : Log) : Log :=
  match l_events l !! h with
  | Some (Some (mkEvent name attrs start None)) =>
      let r := a_time endTime l in
      a_set_events (<[h := Some (mkEvent name attrs start (Some r.1))]>) r.2
  | _ => l
  end.

(** Sending an event is starting it and ending it at once. *)
Definition a_sendEvent (name : string) (data : option Attributes)
    (startTime endTime : option Z) (l : Log) : Log :=
  let r := a_startEvent name data startTime l in a_end r.1 endTime r.2.

(** The global attributes become the record of the map: for each key the
    value of its last entry. *)
Definition a_setGlobalAttributes (attrs : list Entry) (l : Log) : Log :=
  mkLog (l_clock l) (l_ticks l) (list_to_map (reverse attrs)) (l_bound l)
    (l_active l) (l_events l).

Definition a_dispose (l : Log) : Log :=
  mkLog (l_clock l) (l_ticks l) (l_globals l) (l_bound l) false (l_events l).

Definition a_step (c : Call) (l : Log) : Log :=
  match c with
  | SendEvent name data st en => a_sendEvent name data st en l
  | StartEvent name data st => (a_startEvent name data st l).2
  | SetGlobalAttributes m => a_setGlobalAttributes m l
  | Dispose => a_dispose l
  | SpanSetAttributes h a => a_setAttributes h a l
  | SpanEnd h en => a_end h en l
  | Timer _ _ => l
  end.

Definition a_run (cs : list Call) (l : Log) : Log :=
  foldl (λ l c, a_step c l) l cs.

#[export] Instance Log_TelemetryProvider : TelemetryProvider Log := {
  tp_sendEvent := a_sendEvent;
  tp_startEvent := a_startEvent;
  tp_setGlobalAttributes := a_setGlobalAttributes;
  tp_dispose := a_dispose;
}.

(** * The adapter as an implementation *)

#[export] Instance Session_TelemetryProvider : TelemetryProvider Session := {
  tp_sendEvent name data st en := step (SendEvent name data st en);
  tp_startEvent name data st s :=
    (eval (startEvent (s_this s) name data st) (s_world s),
     step (StartEvent name data st) s);
  tp_setGlobalAttributes m := step (SetGlobalAttributes m);
  tp_dispose := step Dispose;
}.

(** The event a span stands for. *)
Definition event_of (s : Span) : option Event :=
  match span_owner s with
  | Some _ =>
      Some (mkEvent (span_name s) (span_attributes s) (span_startTime s)
              (span_endTime s))
  | None => None
  end.

(** The log of a session. *)
Definition abs (s : Session) : Log :=
  mkLog (w_clock (s_world s)) (w_ticks (s_world s))
    (_globalAttributes (s_this s))
    (bool_decide (is_Some (tracer_delegate (tracer (s_this s)))))
    (bool_decide (is_Some (w_global (s_world s))))
    (event_of <$> w_spans (s_world s)).

(** * Calls of the interface commute with an abstraction *)

Section interface.
Context {S A : Type} `{TelemetryProvider S} `{TelemetryProvider A}
  (f : S → A) `{!Refines f}.

Lemma call_refines m s : f (call m s) = call m (f s).
Proof.
  destruct m; cbn.
  - apply refines_sendEvent.
  - apply refines_startEvent.
  - apply refines_setGlobalAttributes.
  - apply refines_dispose.
Qed.

Lemma calls_refine ms s :
  f (foldl (λ s m, call m s) s ms) = foldl (λ a m, call m a) (f s) ms.
Proof.
  revert s; induction ms as [|m ms IH]; intros s; [done|].
  cbn. by rewrite IH, call_refines.
Qed.
End interface.

(** * The adapter refines the contract *)

Section refinement.
Implicit Types (this : OpenTelemetryProvider) (w : World) (s : Session)
  (sp : Span) (h : nat) (t : option Z) (a : Attributes).

Lemma a_recording_abs s :
  a_recording (abs s)
  = bool_decide (is_Some (tracer_provider (tracer (s_this s)) (s_world s))).
Proof.
  unfold a_recording, abs, tracer_provider. cbn.
  destruct (tracer_delegate (tracer (s_this s))); [done|].
  by destruct (w_global (s_world s)).
Qed.

(** Reading the time on the world and on the log agree. *)
Lemma abs_time t this w :
  (a_time t (abs (mkSession this w))).1 = time_or_now t w
  ∧ (a_time t (abs (mkSession this w))).2
    = abs (mkSession this (after_time t w)).
Proof. by destruct t. Qed.

Lemma event_of_event_span this name data start (owner : option nat) :
  event_of (event_span this name data start owner)
  = if bool_decide (is_Some owner)
    then Some (mkEvent name (default ∅ data ∪ _globalAttributes this) start
                 None)
    else None.
Proof. by destruct owner. Qed.

Lemma event_of_setAttributes a sp :
  event_of (Span_setAttributes a sp) = a_annotate a (event_of sp).
Proof.
  unfold Span_setAttributes, event_of, span_live, span_phase.
  destruct sp as [n sc [p|] st at' [e|]]; cbn; try done.
  by rewrite setAttributes_record_union.
Qed.

Lemma abs_startEvent name data t this w :
  eval (startEvent this name data t) w
  = (a_startEvent name data t (abs (mkSession this w))).1
  ∧ abs (mkSession this (exec (startEvent this name data t) w))
    = (a_startEvent name data t (abs (mkSession this w))).2.
Proof.
  rewrite startEvent_eval, startEvent_exec. unfold a_startEvent.
  destruct (abs_time t this w) as [-> ->]. rewrite a_recording_abs.
  unfold abs, a_set_events. cbn.
  rewrite length_fmap, fmap_app, after_time_global. cbn.
  by rewrite event_of_event_span.
Qed.

Lemma abs_span_setAttributes h a this w :
  abs (mkSession this (exec (span_setAttributes h a) w))
  = a_setAttributes h a (abs (mkSession this w)).
Proof.
  unfold abs, a_setAttributes, a_set_events. cbn. f_equal.
  apply list_fmap_alter, Forall_forall. intros sp _.
  apply event_of_setAttributes.
Qed.

Lemma abs_span_end_open h t this w sp p :
  w_spans w !! h = Some sp → span_owner sp = Some p →
  span_endTime sp = None →
  abs (mkSession this (exec (span_end h t) w))
  = a_set_events
      (<[h := Some (mkEvent (span_name sp) (span_attributes sp)
                      (span_startTime sp) (Some (time_or_now t w)))]>)
      (abs (mkSession this (after_time t w))).
Proof.
  intros Hs Hp He. unfold abs, a_set_events. cbn.
  rewrite span_end_global, span_end_spans, after_time_global,
    after_time_spans.
  rewrite (span_end_open h t w sp p) by done.
  destruct (with_processors_clock p (onEnd (Span_end (time_or_now t w) sp))
              (set_spans (alter (Span_end (time_or_now t w)) h)
                 (after_time t w))) as [-> ->].
  cbn. f_equal. rewrite (alter_lookup_insert _ _ _ sp) by done.
  rewrite list_fmap_insert. f_equal.
  rewrite Span_end_live by (apply span_live_spec; by rewrite Hp).
  unfold event_of. cbn. by rewrite Hp.
Qed.

Lemma a_end_closed h t (l : Log) :
  (∀ e, l_events l !! h = Some (Some e) → is_Some (ev_end e)) →
  a_end h t l = l.
Proof.
  intros He. unfold a_end.
  destruct (l_events l !! h) as [[[n at' st [e|]]|]|]; try done.
  by destruct (He _ eq_refl).
Qed.

Lemma event_of_not_live sp e :
  span_live sp = false → event_of sp = Some e → is_Some (ev_end e).
Proof.
  unfold event_of. rewrite <- not_true_iff_false, span_live_spec.
  destruct (span_owner sp), (span_endTime sp); intros Hl [= <-]; cbn;
    [done|]. destruct Hl. by split.
Qed.

Lemma abs_span_end h t this w :
  abs (mkSession this (exec (span_end h t) w))
  = a_end h t (abs (mkSession this w)).
Proof.
  destruct (w_spans w !! h) as [sp|] eqn:Hs;
    [destruct (span_live sp) eqn:Hl|].
  - apply span_live_spec in Hl as [[p Hp] He].
    rewrite (abs_span_end_open h t this w sp p) by done.
    destruct (abs_time t this w) as [<- <-]. unfold a_end.
    cbn [abs l_events s_world]. rewrite list_lookup_fmap, Hs.
    unfold event_of. cbn. by rewrite Hp, He.
  - rewrite span_end_not_open by (intros; congruence).
    rewrite a_end_closed; [done|]. cbn. intros e.
    rewrite list_lookup_fmap, Hs. intros [= He].
    by apply (event_of_not_live sp).
  - rewrite span_end_not_open by (intros; congruence).
    rewrite a_end_closed; [done|]. cbn. intros e.
    by rewrite list_lookup_fmap, Hs.
Qed.

Lemma abs_sendEvent name data st en this w :
  abs (mkSession this (exec (sendEvent this name data st en) w))
  = a_sendEvent name data st en (abs (mkSession this w)).
Proof.
  sendEvent_as_startEvent. unfold a_sendEvent.
  destruct (abs_startEvent name data st this w) as [<- <-].
  apply abs_span_end.
Qed.

Lemma abs_setGlobalAttributes m s :
  abs (step (SetGlobalAttributes m) s) = a_setGlobalAttributes m (abs s).
Proof.
  unfold abs, a_setGlobalAttributes. cbn.
  by rewrite fromEntries_list_to_map_reverse.
Qed.

Lemma abs_batch_timer p size this w :
  abs (mkSession this (exec (batch_timer p size) w)) = abs (mkSession this w).
Proof.
  unfold abs, batch_timer. cbn.
  destruct (with_processors_clock p (onTimer size) w) as [-> ->].
  by rewrite with_processors_global, with_processors_spans.
Qed.

(** Every call on a session is the same call on its log. *)
Lemma step_refines c s : abs (step c s) = a_step c (abs s).
Proof.
  destruct s as [this w], c; cbn [step a_step s_this s_world].
  - apply abs_sendEvent.
  - apply abs_startEvent.
  - apply (abs_setGlobalAttributes _ (mkSession this w)).
  - done.
  - apply abs_span_setAttributes.
  - apply abs_span_end.
  - apply abs_batch_timer.
Qed.

#[export] Instance adapter_refines : Refines abs.
Proof.
  split.
  - intros name data st en s. apply (step_refines (SendEvent _ _ _ _)).
  - intros name data st [this w]. apply abs_startEvent.
  - intros m s. apply (step_refines (SetGlobalAttributes _)).
  - intros s. apply (step_refines Dispose).
Qed.
End refinement.

(** * The refinement theorems *)

Section contract.
Implicit Types (cs : list Call) (ms : list Method) (s : Session)
  (context : TelemetryContext) (agent : option HttpsProxyAgent)
  (debugging : option bool).

(** The log of a new adapter in a process that has not used the tracing
    API: nothing recorded, no global attribute, a provider active. *)
Lemma abs_new_session context agent debugging now ticks b :
  abs (new_session context agent debugging (initial_world now ticks b))
  = mkLog now ticks ∅ (bool_decide (b = BindAtCreation)) true [].
Proof.
  unfold new_session.
  rewrite (eff_run_eq (constructor _ _ _)), constructor_eval,
    constructor_exec.
  unfold abs. cbn. by destruct b.
Qed.

Lemma run_eq cs s : abs (run cs s) = a_run cs (abs s).
Proof.
  revert s; induction cs as [|c cs IH]; intros s; [done|].
  change (abs (run cs (step c s)) = a_run cs (a_step c (abs s))).
  by rewrite IH, step_refines.
Qed.

(** C9: whatever the extension and the environment do in a session, the log of
    the session is what the contract computes from the log it started
    with: the adapter refines the contract. *)
Theorem run_refines cs context agent debugging now ticks b :
  abs (run cs (new_session context agent debugging
                 (initial_world now ticks b)))
  = a_run cs (mkLog now ticks ∅ (bool_decide (b = BindAtCreation)) true []).
Proof. by rewrite run_eq, abs_new_session. Qed.

End contract.

(** The contract runs: the log of the concrete session [demo_session],
    computed by the abstract machine alone. *)
Example demo_session_log :
  l_events (a_run [SendEvent "commit" (Some demo_data) None None;
                   StartEvent "clone" None None;
                   SpanEnd 1 None;
                   Timer 0 512]
              (mkLog 1000 [3; 5; 7] ∅ false true []))
  = [Some (mkEvent "commit" demo_data 1000 (Some 1003%Z));
     Some (mkEvent "clone" ∅ 1008 (Some 1015%Z))].
Proof. vm_compute. reflexivity. Qed.
