(* ===== verification/Faults.v ===== *)
(** Exceptions.

    The class of openTelemetryProvider.ts has no [try], [catch] or
    [finally]: when a call it makes on the SDK throws, the statements after
    it do not run and the exception reaches the caller of the method.  This
    file writes the methods once more with that in view: [Site] names the
    statements that call the SDK, [throws] says which calls throw in which
    world, and [try_constructor], [try_dispose], [try_sendEvent] and
    [try_startEvent] are lines 20-54, 56-58, 60-67 and 69-76 in the monad
    [Try], whose computations return or throw.  The theorems say exactly
    when a method returns and at which statement it throws, in which world
    a failed call leaves the process, and show that the invariant of
    sessions survives every failure.  The lemmas [try_reachable_reachable]
    and [reachable_try_reachable] check the transcription: where no call
    throws, the sessions are those of [Sessions]. *)

From stdpp Require Import base gmap strings list fin_maps.
From S2P Require Import Prelude Attributes Spans Pipeline TraceApi.
From S2P Require Import Provider Sessions.

#[local] Open Scope string_scope.
#[local] Open Scope list_scope.

(** * Data *)

(** The statements of the class that call the SDK.  A [new X(...)] that is
    an argument of a call (lines 38, 39 and 49) is evaluated in the world in
    which the call is reached and changes nothing of it, so the two throw
    in the same world and are one site. *)
Inductive Site : Type :=
  | AtNewProvider    (* lines 21-35 *)
  | AtSetLogger      (* line 38 *)
  | AtAddConsole     (* line 39 *)
  | AtNewExporter    (* lines 42-48 *)
  | AtAddProcessor   (* line 49 *)
  | AtRegister       (* line 51 *)
  | AtGetTracer      (* line 53 *)
  | AtDisable        (* line 57 *)
  | AtStartSpan      (* lines 61, 70 *)
  | AtSetGlobals     (* lines 62, 71 *)
  | AtSetData        (* lines 64, 73 *)
  | AtEnd            (* line 66 *).

#[export] Instance Site_eq_dec : EqDecision Site.
Proof. solve_decision. Defined.

(** How a method ends: with a value, or with the exception that the call at
    [site] threw. *)
Inductive Outcome (A : Type) : Type :=
  | Returns (a : A)
  | Throws (site : Site).

Arguments Returns {A} a.
Arguments Throws {A} site.

(** A computation that may throw; the world it leaves is the world in which
    the exception was thrown. *)
Definition Try (A : Type) : Type := World → Outcome A * World.

#[export] Instance Try_ret : MRet Try := λ A a w, (Returns a, w).

#[export] Instance Try_bind : MBind Try :=
  λ A B k m w,
    match m w with
    | (Returns a, w') => k a w'
    | (Throws site, w') => (Throws site, w')
    end.

(** A computation that cannot throw. *)
Definition lift {A} (c : Eff World A) : Try A :=
  λ w, let r := c w in (Returns r.1, r.2).

(** The world a computation leaves, however it ends. *)
Definition after {A} (t : Try A) (w : World) : World := (t w).2.

(** * The methods *)

Section throwing.
(** Which call throws, in which world. *)
Context (throws : Site → World → bool).

(** The call [c] made by the statement [site]: it throws before it has
    done anything, or it does what [c] does. *)
Definition sdk_call {A} (site : Site) (c : Eff World A) : Try A :=
  λ w, if throws site w then (Throws site, w) else lift c w.

(** The debugging branch (lines 37-40). *)
Definition try_enable_debugging (provider : nat) : Try unit :=
  sdk_call AtSetLogger (diag_setLogger DiagConsoleLogger VERBOSE);;
  sdk_call AtAddConsole
    (addSpanProcessor provider (SimpleSpanProcessor ConsoleSpanExporter)).

(** [new OpenTelemetryProvider(context, agent, debugging)] (lines 20-54) *)
Definition try_constructor (context : TelemetryContext)
    (agent : option HttpsProxyAgent) (debugging : option bool)
    : Try OpenTelemetryProvider :=
  provider ← sdk_call AtNewProvider
                (new_BasicTracerProvider (resource_attributes context));
  (if truthy debugging then try_enable_debugging provider else mret tt);;
  exporter ← sdk_call AtNewExporter (mret (new_exporter agent debugging));
  sdk_call AtAddProcessor
    (addSpanProcessor provider (exporter_processor debugging exporter));;
  sdk_call AtRegister (register provider);;
  tracer ← sdk_call AtGetTracer (getTracer (extensionId context));
  mret (mkOpenTelemetryProvider ∅ tracer).

(** [dispose()] (lines 56-58) *)
Definition try_dispose (this : OpenTelemetryProvider) : Try unit :=
  sdk_call AtDisable trace_disable.

(** Lines 61 and 70: the argument [startTime ?? Date.now()] is evaluated
    before [startSpan] is called. *)
Definition try_start_span (this : OpenTelemetryProvider) (name : string)
    (startTime : option Z) : Try nat :=
  t ← lift (nullish_or startTime Date_now);
  sdk_call AtStartSpan (startSpan (tracer this) name t).

(** Lines 62-65 and 71-74 *)
Definition try_set_event_attributes (this : OpenTelemetryProvider)
    (span : nat) (data : option Attributes) : Try unit :=
  sdk_call AtSetGlobals (span_setAttributes span (_globalAttributes this));;
  match data with
  | Some data => sdk_call AtSetData (span_setAttributes span data)
  | None => mret tt
  end.

(** [sendEvent(name, data?, startTime?, endTime?)] (lines 60-67) *)
Definition try_sendEvent (this : OpenTelemetryProvider) (name : string)
    (data : option Attributes) (startTime endTime : option Z) : Try unit :=
  span ← try_start_span this name startTime;
  try_set_event_attributes this span data;;
  sdk_call AtEnd (span_end span endTime).

(** [startEvent(name, data?, startTime?)] (lines 69-76) *)
Definition try_startEvent (this : OpenTelemetryProvider) (name : string)
    (data : option Attributes) (startTime : option Z) : Try nat :=
  span ← try_start_span this name startTime;
  try_set_event_attributes this span data;;
  mret span.

(** * Sessions in which calls may throw *)

(** One call of a session.  The process goes on after an exception, in the
    world the failed call has left.  The calls a caller makes on a span it
    holds and the timer are not statements of the class and do not throw
    here. *)
Definition try_step (c : Call) (s : Session) : Session :=
  let this := s_this s in
  let w := s_world s in
  match c with
  | SendEvent name data st en =>
      mkSession this (after (try_sendEvent this name data st en) w)
  | StartEvent name data st =>
      mkSession this (after (try_startEvent this name data st) w)
  | Dispose => mkSession this (after (try_dispose this) w)
  | _ => step c s
  end.

(** The sessions of a process whose construction of the adapter has
    returned. *)
Inductive try_reachable (context : TelemetryContext)
    (agent : option HttpsProxyAgent) (debugging : option bool)
    : Session → Prop :=
  | try_reachable_new now ticks b this w :
      try_constructor context agent debugging (initial_world now ticks b)
      = (Returns this, w) →
      try_reachable context agent debugging (mkSession this w)
  | try_reachable_step s c :
      try_reachable context agent debugging s →
      try_reachable context agent debugging (try_step c s).

(** * Vocabulary of the theorems *)

(** The first of the statements [sites] whose call throws, when
    [reached site] is the world in which statement [site] is reached. *)
Definition first_throw (reached : Site → World) (sites : list Site)
    : option Site :=
  find (λ site, throws site (reached site)) sites.

(** None of the statements [sites] throws where it is reached. *)
Definition none_throws (reached : Site → World) (sites : list Site) : Prop :=
  Forall (λ site, throws site (reached site) = false) sites.

(** [site] is the first of the statements [sites] whose call throws: it
    throws where it is reached, and none of the statements before it
    does. *)
Definition throws_first (reached : Site → World) (sites : list Site)
    (site : Site) : Prop :=
  ∃ before rest,
    sites = before ++ site :: rest
    ∧ none_throws reached before
    ∧ throws site (reached site) = true.

(** A method that runs the statements [sites] in order and does what [c]
    does when none throws. *)
Definition outcome_of {A} (reached : Site → World → World)
    (sites : list Site) (c : Eff World A) : Try A :=
  λ w,
    match first_throw (λ site, reached site w) sites with
    | Some site => (Throws site, reached site w)
    | None => (Returns (eval c w), exec c w)
    end.
End throwing.

(** The statements of the constructor that call the SDK, in the order they
    run. *)
Definition constructor_sites (debugging : option bool) : list Site :=
  [AtNewProvider]
  ++ (if truthy debugging then [AtSetLogger; AtAddConsole] else [])
  ++ [AtNewExporter; AtAddProcessor; AtRegister; AtGetTracer].

(** The world in which a statement of the constructor is reached: what the
    statements before it have made of [w]. *)
Definition constructor_reached (context : TelemetryContext)
    (agent : option HttpsProxyAgent) (debugging : option bool) (site : Site)
    (w : World) : World :=
  let provider := eval (new_BasicTracerProvider (resource_attributes context))
                    w in
  let w1 := exec (new_BasicTracerProvider (resource_attributes context)) w in
  let w2 := exec (when (truthy debugging) (enable_debugging provider)) w1 in
  let w3 := exec (addSpanProcessor provider
                    (exporter_processor debugging
                       (new_exporter agent debugging))) w2 in
  match site with
  | AtSetLogger => w1
  | AtAddConsole => exec (diag_setLogger DiagConsoleLogger VERBOSE) w1
  | AtNewExporter | AtAddProcessor => w2
  | AtRegister => w3
  | AtGetTracer => exec (register provider) w3
  | _ => w
  end.

(** The statements of lines 61-65 and 70-74 that call the SDK. *)
Definition event_sites (data : option Attributes) : list Site :=
  [AtStartSpan; AtSetGlobals]
  ++ (if data is Some _ then [AtSetData] else []).

(** The world in which a statement of [sendEvent] or [startEvent] is
    reached. *)
Definition event_reached (this : OpenTelemetryProvider) (name : string)
    (data : option Attributes) (startTime : option Z) (site : Site)
    (w : World) : World :=
  let span := eval (start_span this name startTime) w in
  let w1 := exec (start_span this name startTime) w in
  match site with
  | AtStartSpan => exec (nullish_or startTime Date_now) w
  | AtSetGlobals => w1
  | AtSetData => exec (span_setAttributes span (_globalAttributes this)) w1
  | AtEnd => exec (startEvent this name data startTime) w
  | _ => w
  end.

(** A process in which [span.setAttributes(data)] throws, and a session of
    it: one event with data, one without. *)
Definition demo_throws (site : Site) (w : World) : bool :=
  bool_decide (site = AtSetData).

Definition demo_failing : Session :=
  try_step demo_throws (SendEvent "push" None None None)
    (try_step demo_throws (SendEvent "commit" (Some demo_data) None None)
       (new_session demo_context None None (demo_start BindAtCall))).

(** * Running a computation that may throw *)

Section try_lemmas.
Context (throws : Site → World → bool) {A B : Type}.
Implicit Types (w : World) (site : Site) (c : Eff World A) (t : Try A)
  (k : A → Try B).

Lemma bind_ret (a : A) k w : (mret a ≫= k) w = k a w.
Proof. reflexivity. Qed.

Lemma bind_lift c k w : (lift c ≫= k) w = k (eval c w) (exec c w).
Proof. reflexivity. Qed.

Lemma bind_call site c k w :
  (sdk_call throws site c ≫= k) w
  = if throws site w then (Throws site, w) else k (eval c w) (exec c w).
Proof.
  unfold mbind, Try_bind, sdk_call. by destruct (throws site w).
Qed.

Lemma bind_assoc {C} t k (k' : B → Try C) w :
  ((t ≫= k) ≫= k') w = (t ≫= λ a, k a ≫= k') w.
Proof. unfold mbind, Try_bind. by destruct (t w) as [[a|site] w']. Qed.

Lemma run_call site c w :
  sdk_call throws site c w
  = if throws site w then (Throws site, w)
    else (Returns (eval c w), exec c w).
Proof. reflexivity. Qed.
End try_lemmas.

(** [try_run] runs a method statement by statement; [try_cases] then
    follows each way the calls can throw. *)
Ltac try_run :=
  repeat first
    [rewrite bind_assoc | rewrite bind_call | rewrite bind_lift
    | rewrite bind_ret | rewrite run_call | progress cbn beta];
  autorewrite with eff.

Ltac try_cases :=
  repeat match goal with
    | |- context [if ?b then _ else _] => destruct b eqn:?
    end;
  try congruence; try reflexivity.

(** * What a method does, given which calls throw *)

Section outcomes.
Context (throws : Site → World → bool).
Implicit Types (context : TelemetryContext)
  (agent : option HttpsProxyAgent) (debugging : option bool)
  (this : OpenTelemetryProvider) (name : string) (data : option Attributes)
  (st en : option Z) (w : World) (site : Site) (sites : list Site).

(** ** Methods with a given outcome *)

Section outcome_of.
Context {A : Type} (reached : Site → World → World) (c : Eff World A).

Lemma first_throw_None sites w :
  (∀ site w, throws site w = false) →
  first_throw throws (λ site, reached site w) sites = None.
Proof.
  intros Hn. unfold first_throw. induction sites as [|site sites IH];
    [done|]. cbn. by rewrite Hn.
Qed.

Lemma first_throw_Some sites w site :
  first_throw throws (λ site, reached site w) sites = Some site →
  site ∈ sites ∧ throws site (reached site w) = true.
Proof.
  intros [Hi Ht]%find_some. split; [by apply list_elem_of_In|done].
Qed.

(** [first_throw] finds the first statement that throws, if any does. *)
Lemma first_throw_split sites w :
  match first_throw throws (λ site, reached site w) sites with
  | Some site => throws_first throws (λ site, reached site w) sites site
  | None => none_throws throws (λ site, reached site w) sites
  end.
Proof.
  unfold first_throw, throws_first, none_throws.
  induction sites as [|s sites IH]; cbn; [done|].
  destruct (throws s (reached s w)) eqn:Hs; [by exists [], sites|].
  destruct (find _ sites) as [site|]; [|by constructor].
  destruct IH as (before & rest & -> & Hb & Ht).
  exists (s :: before), rest. split_and!; [done|by constructor|done].
Qed.

(** A method returns only when none of its statements throws, and throws
    at the first that does. *)
Lemma outcome_of_exact sites w :
  match outcome_of throws reached sites c w with
  | (Returns _, _) => none_throws throws (λ site, reached site w) sites
  | (Throws site, _) =>
      throws_first throws (λ site, reached site w) sites site
  end.
Proof.
  unfold outcome_of. pose proof (first_throw_split sites w) as H.
  by destruct (first_throw _ _ _).
Qed.

(** When no call throws the method returns, and has done what [c] does. *)
Lemma outcome_of_never sites w :
  (∀ site w, throws site w = false) →
  outcome_of throws reached sites c w = (Returns (eval c w), exec c w).
Proof. intros Hn. unfold outcome_of. by rewrite first_throw_None. Qed.

(** A method that returns has done what [c] does. *)
Lemma outcome_of_returns sites w a w' :
  outcome_of throws reached sites c w = (Returns a, w') → c w = (a, w').
Proof.
  unfold outcome_of. destruct (first_throw _ _ _); [done|].
  intros [= <- <-]. apply eff_run_eq.
Qed.

(** A method that throws has stopped at one of its statements, in the
    world in which that statement was reached. *)
Lemma outcome_of_throws sites w site w' :
  outcome_of throws reached sites c w = (Throws site, w') →
  site ∈ sites ∧ w' = reached site w ∧ throws site w' = true.
Proof.
  unfold outcome_of. destruct (first_throw _ _ _) as [site'|] eqn:Hf; [|done].
  intros [= <- <-]. by destruct (first_throw_Some _ _ _ Hf).
Qed.

(** What holds where each statement is reached and when the method has
    returned holds however the method ends. *)
Lemma outcome_of_after (P : World → Prop) sites w :
  (∀ site, site ∈ sites → P (reached site w)) → P (exec c w) →
  P (after (outcome_of throws reached sites c) w).
Proof.
  intros Hs Hc. unfold after, outcome_of.
  destruct (first_throw _ _ _) as [site|] eqn:Hf; [|done].
  by destruct (first_throw_Some _ _ _ Hf); apply Hs.
Qed.
End outcome_of.

(** ** The methods of the class *)

Lemma try_constructor_run context agent debugging w :
  try_constructor throws context agent debugging w
  = outcome_of throws (constructor_reached context agent debugging)
      (constructor_sites debugging) (constructor context agent debugging) w.
Proof.
  unfold try_constructor, try_enable_debugging, outcome_of, first_throw,
    constructor_sites, constructor_reached, constructor, enable_debugging.
  destruct (truthy debugging); cbn [app find when]; try_run; try_cases.
Qed.

Lemma try_dispose_run this w :
  try_dispose throws this w
  = outcome_of throws (λ _ w, w) [AtDisable] (dispose this) w.
Proof.
  unfold try_dispose, outcome_of, first_throw, dispose. cbn [find].
  try_run. try_cases.
Qed.

Lemma try_sendEvent_run this name data st en w :
  try_sendEvent throws this name data st en w
  = outcome_of throws (event_reached this name data st)
      (event_sites data ++ [AtEnd]) (sendEvent this name data st en) w.
Proof.
  unfold try_sendEvent, try_start_span, try_set_event_attributes,
    outcome_of, first_throw, event_sites, event_reached, sendEvent,
    startEvent, start_span, set_event_attributes.
  destruct data; cbn [app find]; try_run; try_cases;
    by destruct (eval (span_end _ _) _).
Qed.

Lemma try_startEvent_run this name data st w :
  try_startEvent throws this name data st w
  = outcome_of throws (event_reached this name data st) (event_sites data)
      (startEvent this name data st) w.
Proof.
  unfold try_startEvent, try_start_span, try_set_event_attributes,
    outcome_of, first_throw, event_sites, event_reached, startEvent,
    start_span, set_event_attributes.
  destruct data; cbn [app find]; try_run; try_cases.
Qed.
End outcomes.

(** * The world a failed call leaves *)

Section failures.
Implicit Types (context : TelemetryContext)
  (agent : option HttpsProxyAgent) (debugging : option bool)
  (this : OpenTelemetryProvider) (name : string) (data : option Attributes)
  (st en : option Z) (w : World) (site : Site).

(** Until it returns, the constructor touches neither spans, output nor
    clock; the provider it has made is registered once line 51 has run, and
    the verbose logger is installed once line 38 has. *)
Lemma constructor_reached_frame context agent debugging site w :
  site ∈ constructor_sites debugging →
  let w' := constructor_reached context agent debugging site w in
  w_spans w' = w_spans w ∧ w_out w' = w_out w ∧ w_clock w' = w_clock w
  ∧ w_global w'
    = (if decide (site = AtGetTracer) then Some (length (w_providers w))
       else w_global w)
  ∧ w_diag w'
    = (if decide (site ∈ [AtNewProvider; AtSetLogger]) then w_diag w
       else if truthy debugging then Some (DiagConsoleLogger, VERBOSE)
       else w_diag w).
Proof.
  unfold constructor_sites, constructor_reached.
  destruct (truthy debugging), site; try done; elem_absurd.
Qed.

(** A world with one more span, open, and the same output. *)
Lemma event_open_frame (P : Prop) st w sp :
  span_endTime sp = None →
  let w' := set_spans (λ l, l ++ [sp]) (after_time st w) in
  w_out w' = w_out w
  ∧ closed_spans (w_spans w') = closed_spans (w_spans w)
  ∧ (P → ∃ sp, w_spans w' = w_spans w ++ [sp] ∧ span_endTime sp = None).
Proof.
  intros He. cbn. rewrite after_time_out, after_time_spans.
  rewrite closed_spans_snoc_open by done. eauto.
Qed.

(** Until [span.end] has returned, an event has exported nothing and no
    span is finished; once [startSpan] has returned its span is in the
    heap, open. *)
Lemma event_reached_frame this name data st site w :
  let w' := event_reached this name data st site w in
  w_out w' = w_out w
  ∧ closed_spans (w_spans w') = closed_spans (w_spans w)
  ∧ (site ∈ [AtSetGlobals; AtSetData; AtEnd] →
     ∃ sp, w_spans w' = w_spans w ++ [sp] ∧ span_endTime sp = None).
Proof.
  intros w'. unfold w', event_reached.
  destruct site; try (split_and!; [done..|elem_absurd]).
  - autorewrite with eff. split_and!; [done..|elem_absurd].
  - rewrite start_span_exec. by apply event_open_frame.
  - change (exec (span_setAttributes _ _) _)
      with (exec (startEvent this name None st) w).
    rewrite startEvent_exec. by apply event_open_frame.
  - rewrite startEvent_exec. by apply event_open_frame.
Qed.
End failures.

(** * Sessions in which calls throw *)

Section try_sessions.
Context (throws : Site → World → bool) (context : TelemetryContext)
  (agent : option HttpsProxyAgent) (debugging : option bool).
Implicit Types (this : OpenTelemetryProvider) (name : string)
  (data : option Attributes) (st en : option Z) (w : World) (site : Site)
  (c : Call) (s : Session).
Local Abbreviation winv := (world_inv context agent debugging).

(** The invariant of sessions holds wherever a statement of an event is
    reached. *)
Lemma event_reached_inv this name data st site w :
  only0 (tracer_delegate (tracer this)) →
  world_inv context agent debugging w →
  world_inv context agent debugging (event_reached this name data st site w).
Proof.
  intros Hd Hw. destruct site; cbn [event_reached]; auto with session.
Qed.

(** A call keeps the invariant, whether it returns or throws. *)
Lemma try_step_inv c s :
  session_inv context agent debugging s →
  session_inv context agent debugging (try_step throws c s).
Proof.
  intros Hs. pose proof Hs as [Hn Hd Hw].
  destruct c; try exact (step_inv _ _ _ _ s Hs); split; try done;
    cbn [try_step s_world]; unfold after.
  all: rewrite ?try_sendEvent_run, ?try_startEvent_run, ?try_dispose_run;
    apply (outcome_of_after throws _ _ winv);
    auto using event_reached_inv with session.
Qed.

(** A constructor that returns has made the session of [new_session]. *)
Lemma try_constructor_returns w this w' :
  try_constructor throws context agent debugging w = (Returns this, w') →
  mkSession this w' = new_session context agent debugging w.
Proof.
  rewrite try_constructor_run. intros H%outcome_of_returns.
  unfold new_session. by rewrite H.
Qed.

Lemma try_reachable_inv s :
  try_reachable throws context agent debugging s →
  session_inv context agent debugging s.
Proof.
  induction 1 as [now ticks b this w H|s c _ IH]; [|by apply try_step_inv].
  rewrite (try_constructor_returns _ _ _ H). apply new_session_inv.
Qed.

(** Where no call throws, a step is the step of a session without
    exceptions. *)
Lemma try_step_never c s :
  (∀ site w, throws site w = false) → try_step throws c s = step c s.
Proof.
  intros Hn. destruct c; try done; cbn; unfold after;
    by rewrite ?try_sendEvent_run, ?try_startEvent_run, ?try_dispose_run,
      outcome_of_never.
Qed.

Lemma try_reachable_reachable s :
  (∀ site w, throws site w = false) →
  try_reachable throws context agent debugging s →
  reachable context agent debugging s.
Proof.
  intros Hn. induction 1 as [now ticks b this w H|s c _ IH].
  - rewrite (try_constructor_returns _ _ _ H). constructor.
  - rewrite try_step_never by done. by constructor.
Qed.

Lemma reachable_try_reachable s :
  (∀ site w, throws site w = false) →
  reachable context agent debugging s →
  try_reachable throws context agent debugging s.
Proof.
  intros Hn. induction 1 as [now ticks b|s c _ IH].
  - unfold new_session. rewrite (eff_run_eq (constructor _ _ _)).
    apply (try_reachable_new _ _ _ _ now ticks b).
    by rewrite try_constructor_run, outcome_of_never.
  - rewrite <- (try_step_never c s) by done. by constructor.
Qed.
End try_sessions.

(** * What exceptions do to the adapter *)

Section theorems.
Context (throws : Site → World → bool).
Implicit Types (context : TelemetryContext)
  (agent : option HttpsProxyAgent) (debugging : option bool)
  (this : OpenTelemetryProvider) (name : string) (data : option Attributes)
  (st en : option Z) (w : World) (s : Session).

(** C11: the constructor returns or throws.  It returns exactly when none of
    its statements throws where it is reached, and has then done what
    [constructor] does.  Otherwise it throws: the exception is that of the
    first statement whose call throws, none before it having thrown, and
    the world is what the statements before it have made: spans, output and clock are untouched; the
    registration is as it was, unless [getTracer] threw, in which case the
    new provider is registered although the caller has no adapter; and the
    verbose logger is installed when the statement after line 38 or a
    later one threw in debugging mode. *)
Theorem try_constructor_spec context agent debugging w :
  match try_constructor throws context agent debugging w with
  | (Returns this, w') =>
      none_throws throws (λ site, constructor_reached context agent debugging
                                    site w) (constructor_sites debugging)
      ∧ constructor context agent debugging w = (this, w')
  | (Throws site, w') =>
      throws_first throws
        (λ site, constructor_reached context agent debugging site w)
        (constructor_sites debugging) site
      ∧ site ∈ constructor_sites debugging ∧ throws site w' = true
      ∧ w' = constructor_reached context agent debugging site w
      ∧ w_spans w' = w_spans w ∧ w_out w' = w_out w ∧ w_clock w' = w_clock w
      ∧ w_global w'
        = (if decide (site = AtGetTracer) then Some (length (w_providers w))
           else w_global w)
      ∧ w_diag w'
        = (if decide (site ∈ [AtNewProvider; AtSetLogger]) then w_diag w
           else if truthy debugging then Some (DiagConsoleLogger, VERBOSE)
           else w_diag w)
  end.
Proof.
  rewrite try_constructor_run.
  pose proof (outcome_of_exact throws
                (constructor_reached context agent debugging)
                (constructor context agent debugging)
                (constructor_sites debugging) w) as Hx.
  destruct (outcome_of _ _ _ _ _) as [[this|site] w'] eqn:H;
    (split; [done|]); [exact (outcome_of_returns _ _ _ _ _ _ _ H)|].
  apply outcome_of_throws in H as (Hs & -> & Ht).
  do 3 (split; [done|]). by apply constructor_reached_frame.
Qed.

(** C10: [sendEvent] returns or throws.  It returns exactly when none of its
    statements throws where it is reached, and has then done what
    [sendEvent] does.  Otherwise it throws, since nothing catches: the
    exception is that of the first statement whose call throws, none
    before it having thrown, and the event is lost: nothing has been
    exported, no span is finished, and once [startSpan] has returned the
    span of the event is in the heap, open, with no handle given out. *)
Theorem try_sendEvent_spec this name data st en w :
  match try_sendEvent throws this name data st en w with
  | (Returns _, w') =>
      none_throws throws (λ site, event_reached this name data st site w)
        (event_sites data ++ [AtEnd])
      ∧ w' = exec (sendEvent this name data st en) w
  | (Throws site, w') =>
      throws_first throws (λ site, event_reached this name data st site w)
        (event_sites data ++ [AtEnd]) site
      ∧ site ∈ event_sites data ++ [AtEnd] ∧ throws site w' = true
      ∧ w' = event_reached this name data st site w
      ∧ w_out w' = w_out w
      ∧ closed_spans (w_spans w') = closed_spans (w_spans w)
      ∧ (site ∈ [AtSetGlobals; AtSetData; AtEnd] →
         ∃ sp, w_spans w' = w_spans w ++ [sp] ∧ span_endTime sp = None)
  end.
Proof.
  rewrite try_sendEvent_run.
  pose proof (outcome_of_exact throws (event_reached this name data st)
                (sendEvent this name data st en)
                (event_sites data ++ [AtEnd]) w) as Hx.
  destruct (outcome_of _ _ _ _ _) as [[[]|site] w'] eqn:H; (split; [done|]).
  - apply outcome_of_returns in H.
    rewrite (eff_run_eq (sendEvent _ _ _ _ _)) in H. by injection H.
  - apply outcome_of_throws in H as (Hs & -> & Ht).
    do 3 (split; [done|]). apply event_reached_frame.
Qed.

(** C23: exceptions do not break conservation: in every session, whichever
    calls have thrown, the adapter's provider is the only one, it has the
    processors it was constructed with, and each processor accounts for
    exactly the finished spans of the heap. *)
Theorem try_reachable_conservation context agent debugging s :
  try_reachable throws context agent debugging s →
  ∃ procs,
    w_providers (s_world s) = [mkProvider (resource_attributes context) procs]
    ∧ reset <$> procs = pipeline agent debugging
    ∧ Forall (λ proc, accounted proc (w_out (s_world s))
                      ≡ₚ closed_spans (w_spans (s_world s))) procs.
Proof.
  intros Hs.
  by destruct (try_reachable_inv _ _ _ _ _ Hs) as [_ _ [_ _ Hp _]].
Qed.

End theorems.

(** * Instances on the concrete process *)

Lemma demo_failing_reachable :
  try_reachable demo_throws demo_context None None demo_failing.
Proof.
  do 2 apply try_reachable_step.
  by apply (try_reachable_new _ _ _ _ 1000 [3; 5; 7] BindAtCall).
Qed.

(** In [demo_throws] an event with data throws at line 64 and an event
    without data returns. *)
Example demo_throws_outcomes :
  (try_sendEvent demo_throws demo_adapter "commit" (Some demo_data) None None
     demo_process).1
  = Throws AtSetData
  ∧ (try_sendEvent demo_throws demo_adapter "push" None None None
       demo_process).1
    = Returns tt.
Proof. by vm_compute. Qed.

(** The event whose data could not be set is in the heap, open; the event
    sent after it waits in the queue, finished. *)
Example demo_failing_spans :
  span_endTime <$> w_spans (s_world demo_failing) = [None; Some 1008%Z]
  ∧ queued 0 (s_world demo_failing)
    = closed_spans (w_spans (s_world demo_failing)).
Proof. by vm_compute. Qed.

Lemma try_reachable_conservation_witness :
  try_reachable demo_throws demo_context None None demo_failing
  ∧ ∃ procs,
      w_providers (s_world demo_failing)
      = [mkProvider (resource_attributes demo_context) procs]
      ∧ reset <$> procs = pipeline None None
      ∧ Forall (λ proc, accounted proc (w_out (s_world demo_failing))
                        ≡ₚ closed_spans (w_spans (s_world demo_failing)))
          procs.
Proof.
  split; [apply demo_failing_reachable|].
  apply (try_reachable_conservation demo_throws), demo_failing_reachable.
Defined.

